(** * Offline-first task synchronisation: model and verification

    A shallow embedding of the synchronisation engine of the task manager
    ([src/services/syncService.ts], [src/services/taskService.ts],
    [src/routes/sync.ts], [src/routes/tasks.ts]) together with the
    properties its specification states about it and further properties
    of the code.

    Layout: models of the runtime library (strings, SHA-256, ISO dates,
    JSON), the data model, a state-and-exception monad over the persistent
    store and the world around the program, the task service, the sync
    service, the sync routes, the task routes, a concrete world to run the
    model in, the vocabulary of the properties, and finally the properties.

    Conventions.  A program is a function from the world to an outcome and
    a new world; an outcome is a returned value or a thrown error.  The
    world holds the store and a tick; everything the program cannot decide
    itself (fresh identifiers, the clock, the network) is read from the
    environment at the current tick.  Timestamps are time values in
    milliseconds. *)

From Stdlib Require Import ZArith List String Ascii Bool Lia Permutation Sorted.
From Stdlib Require OrderedTypeEx.
Import ListNotations.

Local Open Scope string_scope.
Local Open Scope Z_scope.

(* ================================================================== *)
(** ** Strings as byte sequences *)

(** A JavaScript string is modelled by its UTF-8 bytes, which is also what
    [hash.update(str)] feeds to the digest. *)
Definition bytes_of_string (s : string) : list Z :=
  map (fun c => Z.of_N (N_of_ascii c)) (list_ascii_of_string s).

(** [Array.prototype.join]. *)
Fixpoint join (sep : string) (parts : list string) : string :=
  match parts with
  | [] => ""
  | [p] => p
  | p :: rest => p ++ sep ++ join sep rest
  end.

Definition hex_digit (d : Z) : ascii :=
  if d <? 10 then ascii_of_N (Z.to_N (48 + d)) else ascii_of_N (Z.to_N (87 + d)).

(** [n] lowercase hexadecimal digits of [x], most significant first. *)
Fixpoint hex_fixed (n : nat) (x : Z) : string :=
  match n with
  | O => ""
  | S k => String (hex_digit ((x / 16 ^ Z.of_nat k) mod 16)) (hex_fixed k x)
  end.

(* ================================================================== *)
(** ** SHA-256 (FIPS 180-4), the digest behind [crypto.createHash('sha256')] *)

Module SHA256.

Definition wrap (x : Z) : Z := x mod 2 ^ 32.

Definition rotr (n x : Z) : Z :=
  Z.lor (Z.shiftr x n) (wrap (Z.shiftl x (32 - n))).

Definition xor3 (a b c : Z) : Z := Z.lxor (Z.lxor a b) c.

Definition choose (e f g : Z) : Z :=
  Z.lxor (Z.land e f) (Z.land (Z.lxor e (2 ^ 32 - 1)) g).

Definition majority (a b c : Z) : Z :=
  xor3 (Z.land a b) (Z.land a c) (Z.land b c).

Definition big_sigma0 (x : Z) : Z := xor3 (rotr 2 x) (rotr 13 x) (rotr 22 x).
Definition big_sigma1 (x : Z) : Z := xor3 (rotr 6 x) (rotr 11 x) (rotr 25 x).
Definition small_sigma0 (x : Z) : Z := xor3 (rotr 7 x) (rotr 18 x) (Z.shiftr x 3).
Definition small_sigma1 (x : Z) : Z := xor3 (rotr 17 x) (rotr 19 x) (Z.shiftr x 10).

(** The round constants and the initial state are the fractional bits of
    the cube and square roots of the first primes; they are derived here
    rather than tabulated. *)
Definition first_primes : list Z :=
  [2; 3; 5; 7; 11; 13; 17; 19; 23; 29; 31; 37; 41; 43; 47; 53;
   59; 61; 67; 71; 73; 79; 83; 89; 97; 101; 103; 107; 109; 113; 127; 131;
   137; 139; 149; 151; 157; 163; 167; 173; 179; 181; 191; 193; 197; 199; 211; 223;
   227; 229; 233; 239; 241; 251; 257; 263; 269; 271; 277; 281; 283; 293; 307; 311].

(** Integer cube root by bisection on the bits of the result. *)
Fixpoint cube_root_bits (bits : nat) (n acc : Z) : Z :=
  match bits with
  | O => acc
  | S k =>
      let cand := acc + 2 ^ Z.of_nat k in
      cube_root_bits k n (if cand * cand * cand <=? n then cand else acc)
  end.

Definition cube_root (n : Z) : Z := cube_root_bits 40 n 0.

Definition round_constants : list Z :=
  Eval vm_compute in map (fun p => wrap (cube_root (p * 2 ^ 96))) first_primes.

Definition initial_state : list Z :=
  Eval vm_compute in map (fun p => wrap (Z.sqrt (p * 2 ^ 64))) (firstn 8 first_primes).

(** Padding: a [0x80] byte, zeros up to 56 mod 64, the bit length on 8 bytes. *)
Definition be_bytes (n : nat) (x : Z) : list Z :=
  map (fun k => (x / 256 ^ Z.of_nat k) mod 256) (rev (seq 0 n)).

Definition pad (msg : list Z) : list Z :=
  let len := Z.of_nat (List.length msg) in
  let zeros := Z.to_nat ((55 - len) mod 64) in
  (msg ++ [128] ++ repeat 0 zeros ++ be_bytes 8 (8 * len))%list.

Fixpoint words_of_bytes (bs : list Z) : list Z :=
  match bs with
  | a :: b :: c :: d :: rest =>
      (((a * 256 + b) * 256 + c) * 256 + d) :: words_of_bytes rest
  | _ => []
  end.

(** Message schedule, kept most-recent-first while it is extended. *)
Fixpoint extend_schedule (n : nat) (rev_w : list Z) : list Z :=
  match n with
  | O => rev_w
  | S k =>
      let w2 := nth 1 rev_w 0 in
      let w7 := nth 6 rev_w 0 in
      let w15 := nth 14 rev_w 0 in
      let w16 := nth 15 rev_w 0 in
      extend_schedule k
        (wrap (small_sigma1 w2 + w7 + small_sigma0 w15 + w16) :: rev_w)
  end.

Definition schedule (block : list Z) : list Z :=
  rev (extend_schedule 48 (rev block)).

Definition round (st : list Z) (kw : Z * Z) : list Z :=
  match st with
  | [a; b; c; d; e; f; g; h] =>
      let t1 := h + big_sigma1 e + choose e f g + fst kw + snd kw in
      let t2 := big_sigma0 a + majority a b c in
      [wrap (t1 + t2); a; b; c; wrap (d + t1); e; f; g]
  | _ => st
  end.

Definition compress (st block : list Z) : list Z :=
  let out := fold_left round (combine round_constants (schedule block)) st in
  map (fun p => wrap (fst p + snd p)) (combine st out).

Fixpoint absorb (blocks : nat) (st ws : list Z) : list Z :=
  match blocks with
  | O => st
  | S k => absorb k (compress st (firstn 16 ws)) (skipn 16 ws)
  end.

Definition digest (msg : list Z) : list Z :=
  let ws := words_of_bytes (pad msg) in
  absorb (List.length ws / 16) initial_state ws.

(** The digest as one number below [2 ^ 256]. *)
Definition digest_number (msg : list Z) : Z :=
  fold_left (fun acc w => acc * 2 ^ 32 + w) (digest msg) 0.

(** [.digest('hex')]. *)
Definition hex (s : string) : string :=
  hex_fixed 64 (digest_number (bytes_of_string s)).

End SHA256.

(* ================================================================== *)
(** ** Dates *)

(** A [Date] is modelled by its time value, the milliseconds since the epoch
    (an integer, exactly representable in the range a [Date] accepts). *)

(** [n] decimal digits of [x], most significant first. *)
Fixpoint dec_fixed (n : nat) (x : Z) : string :=
  match n with
  | O => ""
  | S k => String (ascii_of_N (Z.to_N (48 + (x / 10 ^ Z.of_nat k) mod 10))) (dec_fixed k x)
  end.

(** Year, month and day of a day count since 1970-01-01 (proleptic
    Gregorian calendar). *)
Definition civil_from_days (days : Z) : Z * Z * Z :=
  let z := days + 719468 in
  let era := z / 146097 in
  let doe := z - era * 146097 in
  let yoe := (doe - doe / 1460 + doe / 36524 - doe / 146096) / 365 in
  let doy := doe - (365 * yoe + yoe / 4 - yoe / 100) in
  let mp := (5 * doy + 2) / 153 in
  let d := doy - (153 * mp + 2) / 5 + 1 in
  let m := if mp <? 10 then mp + 3 else mp - 9 in
  let y := yoe + era * 400 + (if m <=? 2 then 1 else 0) in
  (y, m, d).

(** [Date.prototype.toISOString], for a valid time value. *)
Definition toISOString (t : Z) : string :=
  let '(y, m, d) := civil_from_days (t / 86400000) in
  let ms := t mod 86400000 in
  let year :=
    if (0 <=? y) && (y <=? 9999) then dec_fixed 4 y
    else if y <? 0 then "-" ++ dec_fixed 6 (- y)
    else "+" ++ dec_fixed 6 y in
  year ++ "-" ++ dec_fixed 2 m ++ "-" ++ dec_fixed 2 d ++ "T"
    ++ dec_fixed 2 (ms / 3600000) ++ ":" ++ dec_fixed 2 (ms / 60000 mod 60) ++ ":"
    ++ dec_fixed 2 (ms / 1000 mod 60) ++ "." ++ dec_fixed 3 (ms mod 1000) ++ "Z".

(** The order of two stored timestamps.  The store keeps the text
    [toISOString] wrote, and [ORDER BY] and [MAX] compare that text, byte by
    byte; the rows of the model keep the time value, whose text is compared
    here. *)
Definition iso_leb (a b : Z) : bool := String.leb (toISOString a) (toISOString b).

(** A date-valued property of a task object.  In memory it is a [Date];
    once the object has crossed [JSON.stringify]/[JSON.parse] (the sync queue
    column, the HTTP body) it is the ISO string, which nothing revives. *)
Inductive DateField : Type :=
| DateObj (time : Z)
| DateStr (text : string).

(* ================================================================== *)
(** ** Data model *)

Inductive SyncStatus : Type := pending | in_progress | synced | error | failed.

Definition SyncStatus_eqb (a b : SyncStatus) : bool :=
  match a, b with
  | pending, pending | in_progress, in_progress | synced, synced
  | error, error | failed, failed => true
  | _, _ => false
  end.

Definition SyncStatus_text (s : SyncStatus) : string :=
  match s with
  | pending => "pending"
  | in_progress => "in-progress"
  | synced => "synced"
  | error => "error"
  | failed => "failed"
  end.

(** Modelled from the spec: the interfaces of [src/types] ([Task],
    [SyncQueueItem], [SyncResult], the batch request and response) are not
    among the sources; the records below have the attributes the
    specification lists, which are the properties the services read and
    write.

    A task object as the services pass it around: [Task] and [Partial<Task>]
    alike, every property possibly absent ([None] is [undefined]; a JSON
    [null] is not modelled). *)
Module Task.
Record t : Type := make {
  id : option string;
  title : option string;
  description : option string;
  completed : option bool;
  created_at : option DateField;
  updated_at : option DateField;
  is_deleted : option bool;
  sync_status : option SyncStatus;
  server_id : option string;
  last_synced_at : option DateField
}.

Definition empty : t := make None None None None None None None None None None.

Definition orElse {A} (x y : option A) : option A :=
  match x with Some _ => x | None => y end.

(** Object spread [{...a, ...b}]: the properties of [b] win. *)
Definition spread (a b : t) : t :=
  make (orElse (id b) (id a)) (orElse (title b) (title a))
       (orElse (description b) (description a)) (orElse (completed b) (completed a))
       (orElse (created_at b) (created_at a)) (orElse (updated_at b) (updated_at a))
       (orElse (is_deleted b) (is_deleted a)) (orElse (sync_status b) (sync_status a))
       (orElse (server_id b) (server_id a)) (orElse (last_synced_at b) (last_synced_at a)).

Definition set_updated_at (v : DateField) (a : t) : t :=
  make (id a) (title a) (description a) (completed a) (created_at a) (Some v)
       (is_deleted a) (sync_status a) (server_id a) (last_synced_at a).

Definition set_sync_status (v : SyncStatus) (a : t) : t :=
  make (id a) (title a) (description a) (completed a) (created_at a) (updated_at a)
       (is_deleted a) (Some v) (server_id a) (last_synced_at a).

Definition set_is_deleted (v : bool) (a : t) : t :=
  make (id a) (title a) (description a) (completed a) (created_at a) (updated_at a)
       (Some v) (sync_status a) (server_id a) (last_synced_at a).
End Task.

(** A row of the [tasks] table.  Timestamps are stored as ISO text by the
    code and read back through [new Date]; the row keeps the time value. *)
Module TaskRow.
Record t : Type := make {
  id : string;
  title : string;
  description : string;
  completed : bool;
  created_at : Z;
  updated_at : Z;
  is_deleted : bool;
  sync_status : SyncStatus;
  server_id : option string;
  last_synced_at : option Z
}.
End TaskRow.

(** An entry of the [sync_queue] table and, as well, the [SyncQueueItem]
    that [getSyncQueueItems] builds from it.  [data] is the snapshot as
    [JSON.parse] gives it back from the text column. *)
Module SyncQueueItem.
Record t : Type := make {
  id : string;
  task_id : string;
  operation : string;
  data : Task.t;
  created_at : Z;
  retry_count : Z;
  error_message : option string
}.
End SyncQueueItem.

(** A row of the [dead_letter_queue] table. *)
Module DeadLetter.
Record t : Type := make {
  id : string;
  original_queue_id : string;
  task_id : string;
  operation : string;
  data : Task.t;
  error_message : string;
  retry_count : Z;
  failed_at : Z
}.
End DeadLetter.

Inductive ItemStatus : Type := success | item_error.

(** One outcome of a batch response:
    [{client_id, server_id, status, resolved_data?, error?}]. *)
Module ProcessedItem.
Record t : Type := make {
  client_id : string;
  server_id : option string;
  status : ItemStatus;
  resolved_data : option Task.t;
  error : option string
}.
End ProcessedItem.

(** An entry of the [errors] of a cycle's result. *)
Module SyncError.
Record t : Type := make {
  task_id : string;
  operation : string;
  error : string;
  timestamp : Z
}.
End SyncError.

(** The result of a cycle: [{success, synced_items, failed_items, errors}]. *)
Module SyncResult.
Record t : Type := make {
  success : bool;
  synced_items : Z;
  failed_items : Z;
  errors : list SyncError.t
}.
End SyncResult.

(* ================================================================== *)
(** ** JSON *)

Definition quote_char : ascii := ascii_of_N 34.
Definition backslash_char : ascii := ascii_of_N 92.

(** The escape of one character inside a JSON string ([QuoteJSONString]). *)
Definition json_escape_char (c : ascii) : string :=
  let n := Z.of_N (N_of_ascii c) in
  if n =? 34 then String backslash_char (String quote_char "")
  else if n =? 92 then String backslash_char (String backslash_char "")
  else if n =? 8 then String backslash_char "b"
  else if n =? 12 then String backslash_char "f"
  else if n =? 10 then String backslash_char "n"
  else if n =? 13 then String backslash_char "r"
  else if n =? 9 then String backslash_char "t"
  else if n <? 32 then String backslash_char ("u00" ++ hex_fixed 2 n)
  else String c "".

Fixpoint json_escape (s : string) : string :=
  match s with
  | EmptyString => ""
  | String c rest => json_escape_char c ++ json_escape rest
  end.

Definition json_string (s : string) : string :=
  String quote_char (json_escape s ++ String quote_char "").

Definition json_bool (b : bool) : string := if b then "true" else "false".

(** A [Date] serialises through [toJSON], that is [toISOString]. *)
Definition json_date (d : DateField) : string :=
  match d with
  | DateObj t => json_string (toISOString t)
  | DateStr s => json_string s
  end.

Definition json_member {A} (key : string) (show : A -> string) (v : option A) : list string :=
  match v with
  | Some x => [json_string key ++ ":" ++ show x]
  | None => []
  end.

(** [JSON.stringify] of a task object.  Properties appear in the order in
    which [createTask] and [mapRowToTask] write them (a spread keeps that
    order); an [undefined] property is left out. *)
Definition JSON_stringify (d : Task.t) : string :=
  "{" ++ join ","
    (json_member "id" json_string (Task.id d)
     ++ json_member "title" json_string (Task.title d)
     ++ json_member "description" json_string (Task.description d)
     ++ json_member "completed" json_bool (Task.completed d)
     ++ json_member "created_at" json_date (Task.created_at d)
     ++ json_member "updated_at" json_date (Task.updated_at d)
     ++ json_member "is_deleted" json_bool (Task.is_deleted d)
     ++ json_member "sync_status" (fun s => json_string (SyncStatus_text s)) (Task.sync_status d)
     ++ json_member "server_id" json_string (Task.server_id d)
     ++ json_member "last_synced_at" json_date (Task.last_synced_at d))%list
  ++ "}".

(** What [JSON.parse (JSON.stringify d)] leaves of a task object: the same
    properties, every [Date] turned into its ISO string. *)
Definition wire_date (d : DateField) : DateField :=
  match d with
  | DateObj t => DateStr (toISOString t)
  | DateStr s => DateStr s
  end.

Definition JSON_roundtrip (d : Task.t) : Task.t :=
  Task.make (Task.id d) (Task.title d) (Task.description d) (Task.completed d)
    (option_map wire_date (Task.created_at d)) (option_map wire_date (Task.updated_at d))
    (Task.is_deleted d) (Task.sync_status d) (Task.server_id d)
    (option_map wire_date (Task.last_synced_at d)).

(* ================================================================== *)
(** ** The persistent store and the world around the program *)

(** Modelled from the spec: the [Database] class ([src/db/database.ts]) is
    not among the sources.  The store is the three tables the services
    query, each a list of rows in insertion order; every SQL statement of
    the services is a function on it, written next to its use.  The
    dead-letter table is created on demand, hence the [option]. *)
Record Database : Type := mkDatabase {
  tasks : list TaskRow.t;
  sync_queue : list SyncQueueItem.t;
  dead_letter_queue : option (list DeadLetter.t)
}.

(** The result of running a piece of code: a value, or a thrown [Error] with
    its [message]. *)
Inductive Outcome (A : Type) : Type :=
| Returned (value : A)
| Thrown (message : string).
Arguments Returned {A} value.
Arguments Thrown {A} message.

(** The body of the answer to a batch request. *)
Module BatchSyncResponse.
Record t : Type := make { processed_items : list ProcessedItem.t }.
End BatchSyncResponse.

(** The request [processBatch] posts: the batch request with its checksum. *)
Module BatchSyncRequest.
Record t : Type := make {
  items : list SyncQueueItem.t;
  client_timestamp : Z;
  checksum : string
}.
End BatchSyncRequest.

(** Everything the program asks of its surroundings.  Each call consumes one
    tick of the world, and the answer is a function of the tick:
    [uuidv4()], [new Date()], [Date.parse], the two HTTP calls of the sync
    client, and the configured batch size ([None] when [parseInt] gave NaN). *)
Record Env : Type := mkEnv {
  uuid_src : nat -> string;
  clock_src : nat -> Z;
  Date_parse : string -> option Z;
  axios_get_health : nat -> Outcome unit;
  axios_post_batch : nat -> BatchSyncRequest.t -> Outcome BatchSyncResponse.t;
  batchSize : option Z
}.

Record World : Type := mkWorld {
  env : Env;
  db : Database;
  tick : nat
}.

(** Code over a state [S] that may throw; what was written before a throw
    stays written. *)
Definition Prog (S A : Type) : Type := S -> Outcome A * S.

Definition ret {S A} (a : A) : Prog S A := fun s => (Returned a, s).

Definition bind {S A B} (m : Prog S A) (k : A -> Prog S B) : Prog S B :=
  fun s =>
    match m s with
    | (Returned a, s') => k a s'
    | (Thrown e, s') => (Thrown e, s')
    end.

Definition throw {S A} (e : string) : Prog S A := fun s => (Thrown e, s).

(** [try { m } catch (error) { handler error.message }]. *)
Definition try_catch {S A} (m : Prog S A) (handler : string -> Prog S A) : Prog S A :=
  fun s =>
    match m s with
    | (Returned a, s') => (Returned a, s')
    | (Thrown e, s') => handler e s'
    end.

Notation "x <- m ;; k" := (bind m (fun x => k))
  (at level 61, m at next level, right associativity).
Notation "m ;;; k" := (bind m (fun _ => k))
  (at level 61, right associativity).

(** [for (const x of xs) { body x }]. *)
Fixpoint for_each {S A} (xs : list A) (body : A -> Prog S unit) : Prog S unit :=
  match xs with
  | [] => ret tt
  | x :: rest => body x ;;; for_each rest body
  end.

Definition next_tick (w : World) : World := mkWorld (env w) (db w) (S (tick w)).

Definition uuidv4 : Prog World string :=
  fun w => (Returned (uuid_src (env w) (tick w)), next_tick w).

(** [new Date()], as its time value. *)
Definition new_Date : Prog World Z :=
  fun w => (Returned (clock_src (env w) (tick w)), next_tick w).

(** [db.run]: a statement applied to the store. *)
Definition db_run (stmt : Database -> Database) : Prog World unit :=
  fun w => (Returned tt, mkWorld (env w) (stmt (db w)) (tick w)).

(** [db.get] and [db.all]: a query on the store. *)
Definition db_query {A} (q : Database -> A) : Prog World A :=
  fun w => (Returned (q (db w)), w).

Definition with_tasks (f : list TaskRow.t -> list TaskRow.t) (d : Database) : Database :=
  mkDatabase (f (tasks d)) (sync_queue d) (dead_letter_queue d).

Definition with_sync_queue (f : list SyncQueueItem.t -> list SyncQueueItem.t)
    (d : Database) : Database :=
  mkDatabase (tasks d) (f (sync_queue d)) (dead_letter_queue d).

(** JavaScript truthiness of a string, and [x || fallback]. *)
Definition truthy (s : string) : bool := negb (String.eqb s "").

Definition string_or (x : option string) (fallback : string) : string :=
  match x with
  | Some s => if truthy s then s else fallback
  | None => fallback
  end.

Definition string_or_undefined (x : option string) : option string :=
  match x with
  | Some s => if truthy s then Some s else None
  | None => None
  end.

Definition bool_or_false (x : option bool) : bool :=
  match x with Some b => b | None => false end.

(** [UPDATE tasks SET sync_status = ? WHERE id = ?] *)
Definition sql_set_task_status (st : SyncStatus) (task_id : string) : Database -> Database :=
  with_tasks (map (fun r =>
    if String.eqb (TaskRow.id r) task_id
    then TaskRow.make (TaskRow.id r) (TaskRow.title r) (TaskRow.description r)
           (TaskRow.completed r) (TaskRow.created_at r) (TaskRow.updated_at r)
           (TaskRow.is_deleted r) st (TaskRow.server_id r) (TaskRow.last_synced_at r)
    else r)).

(** [INSERT INTO sync_queue (id, task_id, operation, data, created_at, retry_count)
    VALUES (?, ?, ?, ?, ?, 0)] *)
Definition sql_insert_queue (queueId taskId operation : string) (data : Task.t) (now : Z)
    : Database -> Database :=
  with_sync_queue (fun q =>
    (q ++ [SyncQueueItem.make queueId taskId operation data now 0 None])%list).

(** [ORDER BY]: the rows in the order of a comparison, rows that compare
    alike in the order the table holds them. *)
Fixpoint insert_by {A} (le : A -> A -> bool) (x : A) (l : list A) : list A :=
  match l with
  | [] => [x]
  | y :: rest => if le x y then x :: l else y :: insert_by le x rest
  end.

Definition order_by {A} (le : A -> A -> bool) (l : list A) : list A :=
  fold_right (insert_by le) [] l.

(* ================================================================== *)
(** ** [TaskService] (src/services/taskService.ts) *)

Module TaskService.

(** [x?.toISOString() || null] on a date-valued property: a [Date] gives
    its text (stored as the time value), [undefined] gives [null], and a
    string has no such method, so the call throws a [TypeError] (the message
    is the engine's, up to its wording). *)
Definition toISOString_opt (name : string) (x : option DateField) : Prog World (option Z) :=
  match x with
  | None => ret None
  | Some (DateObj t) => ret (Some t)
  | Some (DateStr _) => throw (name ++ ".toISOString is not a function")
  end.

Definition date_or_undefined (x : option DateField) : option DateField :=
  match x with
  | Some (DateStr s) => if truthy s then x else None
  | _ => x
  end.

Definition addToSyncQueue (taskId operation : string) (data : Task.t) : Prog World unit :=
  queueId <- uuidv4 ;;
  now <- new_Date ;;
  db_run (sql_insert_queue queueId taskId operation (JSON_roundtrip data) now).

(** [INSERT INTO tasks (...) VALUES (?, ?, ?, ?, ?, ?, ?, ?, ?, ?)] *)
Definition sql_insert_task (r : TaskRow.t) : Database -> Database :=
  with_tasks (fun ts => (ts ++ [r])%list).

Definition createTask (taskData : Task.t) : Prog World Task.t :=
  new_id <- uuidv4 ;;
  created <- new_Date ;;
  updated <- new_Date ;;
  let task :=
    Task.make (Some new_id)
      (Some (string_or (Task.title taskData) ""))
      (Some (string_or (Task.description taskData) ""))
      (Some (bool_or_false (Task.completed taskData)))
      (Some (DateObj created)) (Some (DateObj updated))
      (Some false) (Some pending)
      (string_or_undefined (Task.server_id taskData))
      (date_or_undefined (Task.last_synced_at taskData)) in
  synced_at <- toISOString_opt "task.last_synced_at" (Task.last_synced_at task) ;;
  db_run (sql_insert_task
            (TaskRow.make new_id
               (string_or (Task.title taskData) "")
               (string_or (Task.description taskData) "")
               (bool_or_false (Task.completed taskData))
               created updated false pending
               (string_or_undefined (Task.server_id task)) synced_at)) ;;;
  addToSyncQueue new_id "create" task ;;;
  ret task.

Definition mapRowToTask (row : TaskRow.t) : Task.t :=
  Task.make (Some (TaskRow.id row)) (Some (TaskRow.title row))
    (Some (string_or (Some (TaskRow.description row)) ""))
    (Some (TaskRow.completed row))
    (Some (DateObj (TaskRow.created_at row))) (Some (DateObj (TaskRow.updated_at row)))
    (Some (TaskRow.is_deleted row)) (Some (TaskRow.sync_status row))
    (string_or_undefined (TaskRow.server_id row))
    (option_map DateObj (TaskRow.last_synced_at row)).

(** [SELECT * FROM tasks WHERE id = ? AND is_deleted = 0] *)
Definition sql_select_live_task (id : string) (d : Database) : option TaskRow.t :=
  find (fun r => String.eqb (TaskRow.id r) id && negb (TaskRow.is_deleted r)) (tasks d).

Definition getTask (id : string) : Prog World (option Task.t) :=
  row <- db_query (sql_select_live_task id) ;;
  match row with
  | None => ret None
  | Some r => ret (Some (mapRowToTask r))
  end.

(** [UPDATE tasks SET title = ?, description = ?, completed = ?, updated_at = ?,
    sync_status = ?, server_id = ?, last_synced_at = ?
    WHERE id = ? AND is_deleted = 0] *)
Definition sql_update_task (title description : string) (completed : bool) (updated_at : Z)
    (st : SyncStatus) (server_id : option string) (last_synced_at : option Z)
    (id : string) : Database -> Database :=
  with_tasks (map (fun r =>
    if String.eqb (TaskRow.id r) id && negb (TaskRow.is_deleted r)
    then TaskRow.make (TaskRow.id r) title description completed (TaskRow.created_at r)
           updated_at (TaskRow.is_deleted r) st server_id last_synced_at
    else r)).

Definition updateTask (id : string) (updates : Task.t) : Prog World (option Task.t) :=
  existing <- getTask id ;;
  match existing with
  | None => ret None
  | Some existing =>
      now <- new_Date ;;
      let updatedTask :=
        Task.set_sync_status pending
          (Task.set_updated_at (DateObj now) (Task.spread existing updates)) in
      synced_at <- toISOString_opt "updatedTask.last_synced_at"
                     (Task.last_synced_at updatedTask) ;;
      db_run (sql_update_task
                (string_or (Task.title updatedTask) "")
                (string_or (Task.description updatedTask) "")
                (bool_or_false (Task.completed updatedTask))
                now pending
                (string_or_undefined (Task.server_id updatedTask))
                synced_at id) ;;;
      addToSyncQueue id "update" updatedTask ;;;
      ret (Some updatedTask)
  end.

(** [UPDATE tasks SET is_deleted = 1, updated_at = ?, sync_status = ? WHERE id = ?] *)
Definition sql_soft_delete_task (now : Z) (st : SyncStatus) (id : string)
    : Database -> Database :=
  with_tasks (map (fun r =>
    if String.eqb (TaskRow.id r) id
    then TaskRow.make (TaskRow.id r) (TaskRow.title r) (TaskRow.description r)
           (TaskRow.completed r) (TaskRow.created_at r) now true st
           (TaskRow.server_id r) (TaskRow.last_synced_at r)
    else r)).

Definition deleteTask (id : string) : Prog World bool :=
  existing <- db_query (sql_select_live_task id) ;;
  match existing with
  | None => ret false
  | Some existing =>
      now <- new_Date ;;
      db_run (sql_soft_delete_task now pending id) ;;;
      let taskData :=
        Task.set_updated_at (DateObj now)
          (Task.set_is_deleted true (mapRowToTask existing)) in
      addToSyncQueue id "delete" taskData ;;;
      ret true
  end.

(** [SELECT * FROM tasks WHERE is_deleted = 0 ORDER BY created_at DESC] *)
Definition sql_select_live_tasks (d : Database) : list TaskRow.t :=
  order_by (fun a b => iso_leb (TaskRow.created_at b) (TaskRow.created_at a))
    (filter (fun r => negb (TaskRow.is_deleted r)) (tasks d)).

Definition getAllTasks : Prog World (list Task.t) :=
  rows <- db_query sql_select_live_tasks ;;
  ret (map mapRowToTask rows).

(** [sync_status IN ('pending', 'error')] *)
Definition needs_sync (r : TaskRow.t) : bool :=
  match TaskRow.sync_status r with
  | pending | error => true
  | in_progress | synced | failed => false
  end.

(** [SELECT * FROM tasks WHERE sync_status IN ('pending', 'error')
    ORDER BY updated_at ASC] *)
Definition sql_select_tasks_needing_sync (d : Database) : list TaskRow.t :=
  order_by (fun a b => iso_leb (TaskRow.updated_at a) (TaskRow.updated_at b))
    (filter needs_sync (tasks d)).

Definition getTasksNeedingSync : Prog World (list Task.t) :=
  rows <- db_query sql_select_tasks_needing_sync ;;
  ret (map mapRowToTask rows).

End TaskService.

(* ================================================================== *)
(** ** [SyncService] (src/services/syncService.ts) *)

Module SyncService.

Definition maxRetries : Z := 3.

Definition addToSyncQueue := TaskService.addToSyncQueue.

(** The [ORDER BY task_id, created_at ASC] of the queue query.  Both
    columns hold text, which is compared byte by byte. *)
Definition queue_order (a b : SyncQueueItem.t) : bool :=
  match String.compare (SyncQueueItem.task_id a) (SyncQueueItem.task_id b) with
  | Lt => true
  | Eq => iso_leb (SyncQueueItem.created_at a) (SyncQueueItem.created_at b)
  | Gt => false
  end.

Fixpoint insert_sorted (x : SyncQueueItem.t) (l : list SyncQueueItem.t)
    : list SyncQueueItem.t :=
  match l with
  | [] => [x]
  | y :: rest => if queue_order x y then x :: l else y :: insert_sorted x rest
  end.

Definition order_by_task_and_time (l : list SyncQueueItem.t) : list SyncQueueItem.t :=
  fold_right insert_sorted [] l.

(** [SELECT * FROM sync_queue WHERE retry_count < 3 ORDER BY task_id, created_at ASC] *)
Definition sql_select_pending_queue (d : Database) : list SyncQueueItem.t :=
  order_by_task_and_time
    (filter (fun r => SyncQueueItem.retry_count r <? 3) (sync_queue d)).

Definition getSyncQueueItems : Prog World (list SyncQueueItem.t) :=
  rows <- db_query sql_select_pending_queue ;;
  ret (map (fun row =>
              SyncQueueItem.make (SyncQueueItem.id row) (SyncQueueItem.task_id row)
                (SyncQueueItem.operation row) (SyncQueueItem.data row)
                (SyncQueueItem.created_at row) (SyncQueueItem.retry_count row)
                (SyncQueueItem.error_message row))
           rows).

(** [currentBatch.length >= this.batchSize], false when the size is NaN. *)
Definition batch_is_full (size : option Z) (currentBatch : list SyncQueueItem.t) : bool :=
  match size with
  | Some n => n <=? Z.of_nat (List.length currentBatch)
  | None => false
  end.

(** One turn of the loop of [createBatches], on [batches] and [currentBatch]. *)
Definition batch_step (size : option Z)
    (acc : list (list SyncQueueItem.t) * list SyncQueueItem.t) (item : SyncQueueItem.t)
    : list (list SyncQueueItem.t) * list SyncQueueItem.t :=
  let '(batches, currentBatch) := acc in
  if batch_is_full size currentBatch
  then ((batches ++ [currentBatch])%list, [item])
  else (batches, (currentBatch ++ [item])%list).

Definition createBatches (size : option Z) (items : list SyncQueueItem.t)
    : list (list SyncQueueItem.t) :=
  let '(batches, currentBatch) := fold_left (batch_step size) items ([], []) in
  match currentBatch with
  | [] => batches
  | _ :: _ => (batches ++ [currentBatch])%list
  end.

Definition calculateChecksum (items : list SyncQueueItem.t) : string :=
  let dataString :=
    join "|"
      (map (fun item =>
              SyncQueueItem.id item ++ "-" ++ SyncQueueItem.operation item ++ "-"
                ++ JSON_stringify (SyncQueueItem.data item))
           items) in
  SHA256.hex dataString.

(** [axios.post(`${apiUrl}/batch`, {...batchRequest, checksum}, ...)] *)
Definition axios_post (req : BatchSyncRequest.t) : Prog World BatchSyncResponse.t :=
  fun w => (axios_post_batch (env w) (tick w) req, next_tick w).

Definition processBatch (items : list SyncQueueItem.t) : Prog World BatchSyncResponse.t :=
  for_each items (fun item =>
    db_run (sql_set_task_status in_progress (SyncQueueItem.task_id item))) ;;;
  let checksum := calculateChecksum items in
  client_timestamp <- new_Date ;;
  axios_post (BatchSyncRequest.make items client_timestamp checksum).

(** [UPDATE tasks SET sync_status = ?, last_synced_at = ? [, server_id = ?] WHERE id = ?] *)
Definition sql_mark_task (st : SyncStatus) (now : Z) (server_id : option string)
    (taskId : string) : Database -> Database :=
  with_tasks (map (fun r =>
    if String.eqb (TaskRow.id r) taskId
    then TaskRow.make (TaskRow.id r) (TaskRow.title r) (TaskRow.description r)
           (TaskRow.completed r) (TaskRow.created_at r) (TaskRow.updated_at r)
           (TaskRow.is_deleted r) st
           (match server_id with Some sid => Some sid | None => TaskRow.server_id r end)
           (Some now)
    else r)).

(** [DELETE FROM sync_queue WHERE task_id = ?] *)
Definition sql_delete_queue_by_task (taskId : string) : Database -> Database :=
  with_sync_queue (filter (fun r => negb (String.eqb (SyncQueueItem.task_id r) taskId))).

(** [DELETE FROM sync_queue WHERE id = ?] *)
Definition sql_delete_queue_by_id (id : string) : Database -> Database :=
  with_sync_queue (filter (fun r => negb (String.eqb (SyncQueueItem.id r) id))).

(** [UPDATE sync_queue SET retry_count = ?, error_message = ? WHERE id = ?] *)
Definition sql_set_queue_retry (retryCount : Z) (message id : string) : Database -> Database :=
  with_sync_queue (map (fun r =>
    if String.eqb (SyncQueueItem.id r) id
    then SyncQueueItem.make (SyncQueueItem.id r) (SyncQueueItem.task_id r)
           (SyncQueueItem.operation r) (SyncQueueItem.data r)
           (SyncQueueItem.created_at r) retryCount (Some message)
    else r)).

(** [serverData?.server_id], when truthy. *)
Definition server_id_of (serverData : option Task.t) : option string :=
  match serverData with
  | Some d => string_or_undefined (Task.server_id d)
  | None => None
  end.

Definition updateSyncStatus (taskId : string) (status : SyncStatus)
    (serverData : option Task.t) : Prog World unit :=
  now <- new_Date ;;
  db_run (sql_mark_task status now (server_id_of serverData) taskId) ;;;
  if SyncStatus_eqb status synced
  then db_run (sql_delete_queue_by_task taskId)
  else ret tt.

(** [CREATE TABLE IF NOT EXISTS dead_letter_queue (...)] *)
Definition sql_create_dead_letter_table (d : Database) : Database :=
  mkDatabase (tasks d) (sync_queue d)
    (match dead_letter_queue d with Some rows => Some rows | None => Some [] end).

(** [INSERT INTO dead_letter_queue (...) VALUES (?, ?, ?, ?, ?, ?, ?, ?)] *)
Definition sql_insert_dead_letter (row : DeadLetter.t) (d : Database) : Database :=
  mkDatabase (tasks d) (sync_queue d)
    (match dead_letter_queue d with
     | Some rows => Some (rows ++ [row])%list
     | None => None
     end).

Definition moveToDeadLetterQueue (item : SyncQueueItem.t) (errorMessage : string)
    : Prog World unit :=
  db_run sql_create_dead_letter_table ;;;
  dlqId <- uuidv4 ;;
  failed_at <- new_Date ;;
  db_run (sql_insert_dead_letter
            (DeadLetter.make dlqId (SyncQueueItem.id item) (SyncQueueItem.task_id item)
               (SyncQueueItem.operation item) (JSON_roundtrip (SyncQueueItem.data item))
               errorMessage (SyncQueueItem.retry_count item) failed_at)).

Definition handleSyncError (item : SyncQueueItem.t) (message : string) : Prog World unit :=
  let retryCount := SyncQueueItem.retry_count item + 1 in
  if maxRetries <=? retryCount
  then
    moveToDeadLetterQueue item message ;;;
    db_run (sql_set_task_status failed (SyncQueueItem.task_id item)) ;;;
    db_run (sql_delete_queue_by_id (SyncQueueItem.id item))
  else
    db_run (sql_set_queue_retry retryCount message (SyncQueueItem.id item)) ;;;
    db_run (sql_set_task_status error (SyncQueueItem.task_id item)).

(** [axios.get(`${apiUrl}/health`, { timeout: 5000 })] *)
Definition axios_get : Prog World unit :=
  fun w => (axios_get_health (env w) (tick w), next_tick w).

Definition checkConnectivity : Prog World bool :=
  try_catch (axios_get ;;; ret true) (fun _ => ret false).

(** The cycle runs over the world and the [result] object it fills in,
    which keeps what was counted before an exception. *)
Definition Cycle (A : Type) : Type := Prog (World * SyncResult.t) A.

Definition lift {A} (m : Prog World A) : Cycle A :=
  fun s => let '(o, w') := m (fst s) in (o, (w', snd s)).

Definition update_result (f : SyncResult.t -> SyncResult.t) : Cycle unit :=
  fun s => (Returned tt, (fst s, f (snd s))).

Definition read_result : Cycle SyncResult.t := fun s => (Returned (snd s), s).

Definition set_success (b : bool) (r : SyncResult.t) : SyncResult.t :=
  SyncResult.make b (SyncResult.synced_items r) (SyncResult.failed_items r)
    (SyncResult.errors r).

Definition count_synced (r : SyncResult.t) : SyncResult.t :=
  SyncResult.make (SyncResult.success r) (SyncResult.synced_items r + 1)
    (SyncResult.failed_items r) (SyncResult.errors r).

Definition count_failed (r : SyncResult.t) : SyncResult.t :=
  SyncResult.make (SyncResult.success r) (SyncResult.synced_items r)
    (SyncResult.failed_items r + 1) (SyncResult.errors r).

Definition push_error (e : SyncError.t) (r : SyncResult.t) : SyncResult.t :=
  SyncResult.make (SyncResult.success r) (SyncResult.synced_items r)
    (SyncResult.failed_items r) (SyncResult.errors r ++ [e])%list.

Definition report_error (task_id operation message : string) : Cycle unit :=
  timestamp <- lift new_Date ;;
  update_result (push_error (SyncError.make task_id operation message timestamp)).

Definition unknown_sync_error : string := "Unknown sync error".

(** The body of [for (const processedItem of batchResult.processed_items)]. *)
Definition applyOutcome (batch : list SyncQueueItem.t) (processedItem : ProcessedItem.t)
    : Cycle unit :=
  match ProcessedItem.status processedItem with
  | success =>
      lift (updateSyncStatus (ProcessedItem.client_id processedItem) synced
              (ProcessedItem.resolved_data processedItem)) ;;;
      update_result count_synced
  | item_error =>
      let message := string_or (ProcessedItem.error processedItem) unknown_sync_error in
      match find (fun item => String.eqb (SyncQueueItem.task_id item)
                                (ProcessedItem.client_id processedItem)) batch with
      | Some item => lift (handleSyncError item message)
      | None => throw "Cannot read properties of undefined (reading 'retry_count')"
      end ;;;
      update_result count_failed ;;;
      report_error (ProcessedItem.client_id processedItem) "sync" message
  end.

(** The body of [for (const item of batch)] in the handler of a batch that
    failed as a whole. *)
Definition failItem (message : string) (item : SyncQueueItem.t) : Cycle unit :=
  lift (handleSyncError item message) ;;;
  update_result count_failed ;;;
  report_error (SyncQueueItem.task_id item) (SyncQueueItem.operation item) message.

(** The body of [for (const batch of batches)]. *)
Definition syncBatch (batch : list SyncQueueItem.t) : Cycle unit :=
  try_catch
    (batchResult <- lift (processBatch batch) ;;
     for_each (BatchSyncResponse.processed_items batchResult) (applyOutcome batch))
    (fun message => for_each batch (failItem message)).

Definition initial_result : SyncResult.t := SyncResult.make true 0 0 [].

Definition batch_size_of : Prog World (option Z) := fun w => (Returned (batchSize (env w)), w).

Definition sync : Prog World SyncResult.t :=
  fun w =>
    let cycle : Cycle unit :=
      try_catch
        (isOnline <- lift checkConnectivity ;;
         if negb isOnline
         then
           update_result (set_success false) ;;;
           report_error "" "connectivity" "Server unreachable"
         else
           queueItems <- lift getSyncQueueItems ;;
           match queueItems with
           | [] => ret tt
           | _ :: _ =>
               size <- lift batch_size_of ;;
               for_each (createBatches size queueItems) syncBatch ;;;
               result <- read_result ;;
               update_result (set_success (SyncResult.failed_items result =? 0))
           end)
        (fun message =>
           update_result (set_success false) ;;;
           report_error "" "sync" message) in
    let '(_, (w', result)) := cycle (w, initial_result) in
    (Returned result, w').

(** What [getSyncStatus] reports. *)
Module SyncStatusReport.
Record t : Type := make {
  pending_sync_count : Z;
  last_sync_timestamp : option Z;
  is_online : bool;
  sync_queue_size : Z
}.
End SyncStatusReport.

(** [SELECT COUNT( * ) as count FROM tasks WHERE sync_status IN ('pending', 'error')] *)
Definition sql_count_pending_tasks (d : Database) : Z :=
  Z.of_nat (List.length (filter TaskService.needs_sync (tasks d))).

(** [SELECT COUNT( * ) as count FROM sync_queue] *)
Definition sql_count_queue (d : Database) : Z :=
  Z.of_nat (List.length (sync_queue d)).

(** [SELECT MAX(last_synced_at) as last_sync FROM tasks
    WHERE last_synced_at IS NOT NULL]: the greatest of the stored texts;
    [None] is the NULL of an empty selection. *)
Definition sql_max_last_synced_at (d : Database) : option Z :=
  fold_right
    (fun r acc =>
       match TaskRow.last_synced_at r, acc with
       | Some t, Some m => Some (if iso_leb t m then m else t)
       | Some t, None => Some t
       | None, _ => acc
       end)
    None (tasks d).

(** The four reads of the [Promise.all] write nothing, so they are taken
    one after the other. *)
Definition getSyncStatus : Prog World SyncStatusReport.t :=
  pendingCount <- db_query sql_count_pending_tasks ;;
  queueSize <- db_query sql_count_queue ;;
  lastSync <- db_query sql_max_last_synced_at ;;
  isOnline <- checkConnectivity ;;
  ret (SyncStatusReport.make pendingCount lastSync isOnline queueSize).

(** [db.all('SELECT * FROM dead_letter_queue ORDER BY failed_at DESC')],
    which fails while the table does not exist. *)
Definition sql_all_dead_letters : Prog World (list DeadLetter.t) :=
  fun w =>
    match dead_letter_queue (db w) with
    | Some rows =>
        (Returned (order_by (fun a b => iso_leb (DeadLetter.failed_at b)
                                          (DeadLetter.failed_at a))
                     rows), w)
    | None => (Thrown "SQLITE_ERROR: no such table: dead_letter_queue", w)
    end.

Definition getDeadLetterQueue : Prog World (list DeadLetter.t) :=
  try_catch sql_all_dead_letters (fun _ => ret []).

End SyncService.

(* ================================================================== *)
(** ** The sync routes (src/routes/sync.ts) *)

Module SyncRoutes.

(** [req.body.items] as the validation sees it: falsy or missing, truthy
    but not an array, or an array of items. *)
Inductive ItemsField : Type :=
| ItemsMissing
| ItemsNotArray
| ItemsArray (items : list SyncQueueItem.t).

Module BatchBody.
Record t : Type := make {
  items : ItemsField;
  client_timestamp : option string;
  checksum : option string
}.
End BatchBody.

Inductive ResponseBody : Type :=
| ErrorBody (error : string) (timestamp : Z) (path : string)
| ProcessedBody (processed_items : list ProcessedItem.t).

Module Response.
Record t : Type := make { status : Z; body : ResponseBody }.
End Response.

(** [res.status(code).json({ error, timestamp: new Date(), path: req.path })] *)
Definition reject (code : Z) (message path : string) : Prog World Response.t :=
  timestamp <- new_Date ;;
  ret (Response.make code (ErrorBody message timestamp path)).

Definition error_outcome (item : SyncQueueItem.t) (message : string) : ProcessedItem.t :=
  ProcessedItem.make (SyncQueueItem.task_id item) None item_error None (Some message).

Definition handleBatchCreate (item : SyncQueueItem.t) : Prog World ProcessedItem.t :=
  try_catch
    (task <- TaskService.createTask (SyncQueueItem.data item) ;;
     ret (ProcessedItem.make (SyncQueueItem.task_id item) (Task.id task) success
            (Some task) None))
    (fun message => ret (error_outcome item message)).

(** [d.getTime()] on a property expected to hold a [Date]. *)
Definition getTime (name : string) (x : option DateField) : Prog World Z :=
  match x with
  | Some (DateObj t) => ret t
  | Some (DateStr _) => throw (name ++ ".getTime is not a function")
  | None => throw ("Cannot read properties of undefined (reading 'getTime')")
  end.

(** [new Date(v).getTime()]; [None] is NaN. *)
Definition time_of (x : option DateField) : Prog World (option Z) :=
  match x with
  | Some (DateObj t) => ret (Some t)
  | Some (DateStr s) => fun w => (Returned (Date_parse (env w) s), w)
  | None => ret None
  end.

(** [serverTime > clientTime], false against NaN. *)
Definition server_is_newer (serverTime : Z) (clientTime : option Z) : bool :=
  match clientTime with
  | Some c => c <? serverTime
  | None => false
  end.

(** [finalData.server_id || finalData.id] *)
Definition server_id_or_id (finalData : Task.t) : option string :=
  match string_or_undefined (Task.server_id finalData) with
  | Some sid => Some sid
  | None => Task.id finalData
  end.

Definition handleBatchUpdate (item : SyncQueueItem.t) : Prog World ProcessedItem.t :=
  try_catch
    (existingTask <- TaskService.getTask (SyncQueueItem.task_id item) ;;
     match existingTask with
     | None =>
         task <- TaskService.createTask (SyncQueueItem.data item) ;;
         ret (ProcessedItem.make (SyncQueueItem.task_id item) (Task.id task) success
                (Some task) None)
     | Some existingTask =>
         serverTime <- getTime "existingTask.updated_at" (Task.updated_at existingTask) ;;
         clientTime <- time_of (Task.updated_at (SyncQueueItem.data item)) ;;
         finalData <-
           (if server_is_newer serverTime clientTime
            then ret existingTask
            else
              updatedTask <- TaskService.updateTask (SyncQueueItem.task_id item)
                               (SyncQueueItem.data item) ;;
              ret (match updatedTask with Some u => u | None => existingTask end)) ;;
         ret (ProcessedItem.make (SyncQueueItem.task_id item) (server_id_or_id finalData)
                success (Some finalData) None)
     end)
    (fun message => ret (error_outcome item message)).

Definition handleBatchDelete (item : SyncQueueItem.t) : Prog World ProcessedItem.t :=
  try_catch
    (TaskService.deleteTask (SyncQueueItem.task_id item) ;;;
     ret (ProcessedItem.make (SyncQueueItem.task_id item) (Some (SyncQueueItem.task_id item))
            success (Some (Task.set_is_deleted true (SyncQueueItem.data item))) None))
    (fun message => ret (error_outcome item message)).

Definition calculateChecksum (items : list SyncQueueItem.t) : string :=
  let dataString :=
    join "|"
      (map (fun item =>
              SyncQueueItem.id item ++ "-" ++ SyncQueueItem.operation item ++ "-"
                ++ JSON_stringify (SyncQueueItem.data item))
           items) in
  SHA256.hex dataString.

(** The [switch (item.operation)] of the batch loop, inside its [try]. *)
Definition processItem (item : SyncQueueItem.t) : Prog World ProcessedItem.t :=
  try_catch
    (if String.eqb (SyncQueueItem.operation item) "create" then handleBatchCreate item
     else if String.eqb (SyncQueueItem.operation item) "update" then handleBatchUpdate item
     else if String.eqb (SyncQueueItem.operation item) "delete" then handleBatchDelete item
     else ret (error_outcome item ("Unknown operation: " ++ SyncQueueItem.operation item)))
    (fun message => ret (error_outcome item message)).

(** [for (const item of items) { ... processed_items.push(result) }] *)
Fixpoint processItems (items : list SyncQueueItem.t) : Prog World (list ProcessedItem.t) :=
  match items with
  | [] => ret []
  | item :: rest =>
      result <- processItem item ;;
      results <- processItems rest ;;
      ret (result :: results)
  end.

(** [if (checksum) { ... calculatedChecksum !== checksum ... }] *)
Definition checksum_mismatch (checksum : option string) (items : list SyncQueueItem.t) : bool :=
  match checksum with
  | Some c => truthy c && negb (String.eqb (calculateChecksum items) c)
  | None => false
  end.

Definition falsy (x : option string) : bool :=
  match x with
  | Some s => negb (truthy s)
  | None => true
  end.

(** [router.post('/batch', ...)] *)
Definition postBatch (path : string) (body : BatchBody.t) : Prog World Response.t :=
  try_catch
    (match BatchBody.items body with
     | ItemsMissing | ItemsNotArray | ItemsArray [] =>
         reject 400 "Invalid batch request - items array is required" path
     | ItemsArray items =>
         if falsy (BatchBody.client_timestamp body)
         then reject 400 "Client timestamp is required" path
         else if checksum_mismatch (BatchBody.checksum body) items
         then reject 400 "Batch integrity check failed - checksum mismatch" path
         else
           processed_items <- processItems items ;;
           ret (Response.make 200 (ProcessedBody processed_items))
     end)
    (fun _ => reject 500 "Batch sync failed" path).

(** The answer of the other routes: a JSON body under a status, or the
    error body [{ error, timestamp, path }]. *)
Inductive Reply (A : Type) : Type :=
| Json (status : Z) (body : A)
| Failure (status : Z) (error : string) (timestamp : Z) (path : string).
Arguments Json {A} status body.
Arguments Failure {A} status error timestamp path.

Definition fail_with {A} (code : Z) (message path : string) : Prog World (Reply A) :=
  timestamp <- new_Date ;;
  ret (Failure code message timestamp path).

(** [router.post('/sync', ...)] *)
Definition postSync (path : string) : Prog World (Reply SyncResult.t) :=
  try_catch
    (isOnline <- SyncService.checkConnectivity ;;
     if negb isOnline
     then fail_with 503 "Server unavailable - cannot sync while offline" path
     else
       syncResult <- SyncService.sync ;;
       ret (Json 200 syncResult))
    (fun _ => fail_with 500 "Sync operation failed" path).

(** [router.get('/status', ...)] *)
Definition getStatus (path : string) : Prog World (Reply SyncService.SyncStatusReport.t) :=
  try_catch
    (status <- SyncService.getSyncStatus ;;
     ret (Json 200 status))
    (fun _ => fail_with 500 "Failed to get sync status" path).

(** [router.get('/dead-letter-queue', ...)]: [{ count, items }]. *)
Definition getDeadLetters (path : string) : Prog World (Reply (Z * list DeadLetter.t)) :=
  try_catch
    (dlqItems <- SyncService.getDeadLetterQueue ;;
     ret (Json 200 (Z.of_nat (List.length dlqItems), dlqItems)))
    (fun _ => fail_with 500 "Failed to get dead letter queue" path).

End SyncRoutes.

(* ================================================================== *)
(** ** The task routes (src/routes/tasks.ts) *)

(** The routes that take no request body.  ([POST /] and [PUT /:id] inspect
    a body of arbitrary shape and are not modelled.) *)
Module TaskRoutes.

(** [router.get('/', ...)] *)
Definition listTasks (path : string) : Prog World (SyncRoutes.Reply (list Task.t)) :=
  try_catch
    (tasks <- TaskService.getAllTasks ;;
     ret (SyncRoutes.Json 200 tasks))
    (fun _ => SyncRoutes.fail_with 500 "Failed to fetch tasks" path).

(** [router.get('/:id', ...)] *)
Definition getTaskById (path id : string) : Prog World (SyncRoutes.Reply Task.t) :=
  try_catch
    (task <- TaskService.getTask id ;;
     match task with
     | None => SyncRoutes.fail_with 404 "Task not found" path
     | Some t => ret (SyncRoutes.Json 200 t)
     end)
    (fun _ => SyncRoutes.fail_with 500 "Failed to fetch task" path).

(** [router.delete('/:id', ...)]; the body of a 204 is empty. *)
Definition deleteTaskById (path id : string) : Prog World (SyncRoutes.Reply unit) :=
  try_catch
    (ok <- TaskService.deleteTask id ;;
     if negb ok
     then SyncRoutes.fail_with 404 "Task not found" path
     else ret (SyncRoutes.Json 204 tt))
    (fun _ => SyncRoutes.fail_with 500 "Failed to delete task" path).

End TaskRoutes.

(* ================================================================== *)
(** ** A concrete world for running the model *)

Module Demo.

Definition digit_value (c : ascii) : option Z :=
  let n := Z.of_N (N_of_ascii c) in
  if (48 <=? n) && (n <=? 57) then Some (n - 48) else None.

Fixpoint number_of (cs : list ascii) (acc : Z) : option Z :=
  match cs with
  | [] => Some acc
  | c :: rest =>
      match digit_value c with
      | Some d => number_of rest (acc * 10 + d)
      | None => None
      end
  end.

Definition days_from_civil (y m d : Z) : Z :=
  let y' := if m <=? 2 then y - 1 else y in
  let era := y' / 400 in
  let yoe := y' - era * 400 in
  let doy := (153 * (if 2 <? m then m - 3 else m + 9) + 2) / 5 + d - 1 in
  let doe := yoe * 365 + yoe / 4 - yoe / 100 + doy in
  era * 146097 + doe - 719468.

(** Reads back the text [toISOString] writes for a four-digit year; NaN
    ([None]) for any other text.  One possible [Date.parse]. *)
Definition parse_iso (s : string) : option Z :=
  match list_ascii_of_string s with
  | [y1; y2; y3; y4; d1; m1; m2; d2; a1; a2; t; h1; h2; c1; n1; n2; c2; s1; s2; p; f1; f2; f3; z] =>
      if (String.eqb (string_of_list_ascii [d1; d2; t; c1; c2; p; z]) "--T::.Z")
      then
        match number_of [y1; y2; y3; y4] 0, number_of [m1; m2] 0, number_of [a1; a2] 0,
              number_of [h1; h2] 0, number_of [n1; n2] 0, number_of [s1; s2] 0,
              number_of [f1; f2; f3] 0 with
        | Some y, Some m, Some d, Some h, Some n, Some sec, Some ms =>
            Some (days_from_civil y m d * 86400000 + h * 3600000 + n * 60000
                  + sec * 1000 + ms)
        | _, _, _, _, _, _, _ => None
        end
      else None
  | _ => None
  end.

Fixpoint decimal_digits (fuel : nat) (n : Z) : string :=
  match fuel with
  | O => ""
  | S k =>
      (if n <? 10 then "" else decimal_digits k (n / 10))
        ++ String (ascii_of_N (Z.to_N (48 + n mod 10))) ""
  end.

Definition uuid (n : nat) : string := "uuid-" ++ decimal_digits 20 (Z.of_nat n).

Definition clock (n : nat) : Z := 1700000000000 + Z.of_nat n.

(** A remote that is down: both calls fail at the transport. *)
Definition offline : Env :=
  mkEnv uuid clock parse_iso
    (fun _ => Thrown "connect ECONNREFUSED")
    (fun _ _ => Thrown "connect ECONNREFUSED")
    (Some 50).

(** A remote that answers the probe and acknowledges every item. *)
Definition acknowledging : Env :=
  mkEnv uuid clock parse_iso
    (fun _ => Returned tt)
    (fun _ req =>
       Returned (BatchSyncResponse.make
         (map (fun item =>
                 ProcessedItem.make (SyncQueueItem.task_id item)
                   (Some ("srv-" ++ SyncQueueItem.task_id item)) success
                   (Some (SyncQueueItem.data item)) None)
              (BatchSyncRequest.items req))))
    (Some 50).

(** A remote that answers the probe and fails every batch request. *)
Definition rejecting : Env :=
  mkEnv uuid clock parse_iso
    (fun _ => Returned tt)
    (fun _ _ => Thrown "Request failed")
    (Some 50).

Definition empty_db : Database := mkDatabase [] [] None.

Definition fresh (e : Env) : World := mkWorld e empty_db 0.

Definition titled (title : string) : Task.t :=
  Task.make None (Some title) None None None None None None None None.

(** The snapshot an update of a task that was synced before carries: its
    [last_synced_at] arrives as text. *)
Definition synced_snapshot : Task.t :=
  Task.make (Some "t1") (Some "groceries") (Some "") (Some false)
    (Some (DateStr "2024-01-01T00:00:00.000Z")) (Some (DateStr "2024-01-02T00:00:00.000Z"))
    (Some false) (Some pending) None (Some (DateStr "2024-01-01T12:00:00.000Z")).

Definition item (id task_id operation : string) (data : Task.t) : SyncQueueItem.t :=
  SyncQueueItem.make id task_id operation data 1700000000000 0 None.

Definition task_row (id title : string) (updated_at : Z) : TaskRow.t :=
  TaskRow.make id title "" false 1600000000000 updated_at false pending None None.

(** A client store with two pending mutations of task [t1] and one of [t2]. *)
Definition client_db : Database :=
  mkDatabase
    [task_row "t1" "groceries" 1700000000000; task_row "t2" "laundry" 1700000000000]
    [item "q1" "t1" "create" (titled "groceries");
     item "q2" "t1" "update" (titled "more groceries");
     item "q3" "t2" "create" (titled "laundry")]
    None.

Definition client (e : Env) : World := mkWorld e client_db 0.

(** A client store with a single pending mutation. *)
Definition one_entry_db : Database :=
  mkDatabase [task_row "t1" "groceries" 1700000000000]
    [item "q1" "t1" "create" (titled "groceries")] None.

(** A client store whose task [t1] was synced on 2024-01-01 at noon. *)
Definition synced_client_db : Database :=
  mkDatabase
    [TaskRow.make "t1" "groceries" "" false 1600000000000 1700000000000 false synced None
       (Some 1704110400000)]
    [] None.

(** A server store that holds task [t1], last updated in November 2023. *)
Definition server_db : Database :=
  mkDatabase [task_row "t1" "groceries" 1700000000000] [] None.

Definition server : World := mkWorld offline server_db 0.

End Demo.

(* ================================================================== *)
(** ** Vocabulary of the properties *)

Import SyncService.
Import SyncRoutes.

(** [a] may stand before [b] in the fetched list: its task id is smaller
    (byte-wise), or the ids are equal and the stored text of its creation
    time is not greater (byte-wise). *)
Definition ordered_before (a b : SyncQueueItem.t) : Prop :=
  String.compare (SyncQueueItem.task_id a) (SyncQueueItem.task_id b) = Lt \/
  (SyncQueueItem.task_id a = SyncQueueItem.task_id b /\
   iso_leb (SyncQueueItem.created_at a) (SyncQueueItem.created_at b) = true).

(** The same with the creation times themselves: [a] was not created
    later. *)
Definition chronological_before (a b : SyncQueueItem.t) : Prop :=
  String.compare (SyncQueueItem.task_id a) (SyncQueueItem.task_id b) = Lt \/
  (SyncQueueItem.task_id a = SyncQueueItem.task_id b /\
   SyncQueueItem.created_at a <= SyncQueueItem.created_at b).

(** The time values whose ISO text has a four-digit year:
    0000-01-01T00:00:00.000Z to 9999-12-31T23:59:59.999Z. *)
Definition iso_first : Z := -62167219200000.
Definition iso_last : Z := 253402300799999.

Definition four_digit_year (t : Z) : Prop := iso_first <= t <= iso_last.

(** Year, month and day of a day of the 400-year era that starts on the
    first of March of a year divisible by 400, the year counted from the
    start of the era. *)
Definition civil_in_era (doe : Z) : Z * Z * Z :=
  let yoe := (doe - doe / 1460 + doe / 36524 - doe / 146096) / 365 in
  let doy := doe - (365 * yoe + yoe / 4 - yoe / 100) in
  let mp := (5 * doy + 2) / 153 in
  let d := doy - (153 * mp + 2) / 5 + 1 in
  let m := if mp <? 10 then mp + 3 else mp - 9 in
  (yoe + (if m <=? 2 then 1 else 0), m, d).

(** A date as one number, year, month and day in decimal. *)
Definition date_key (ymd : Z * Z * Z) : Z :=
  let '(y, m, d) := ymd in y * 10000 + m * 100 + d.

Definition era_key (doe : Z) : Z := date_key (civil_in_era doe).

(** A day of the era gives a valid date, later than the day before. *)
Definition era_day_ok (prev doe : Z) : bool :=
  let '(y, m, d) := civil_in_era doe in
  (prev <? date_key (y, m, d)) && (301 <=? date_key (y, m, d))
  && (date_key (y, m, d) <=? 4000229)
  && (1 <=? m) && (m <=? 12) && (1 <=? d) && (d <=? 31).

(** The same of [fuel] days in a row, from [doe] on, [prev] being the
    key of the day before. *)
Fixpoint era_days_ok (fuel : nat) (prev doe : Z) : bool :=
  match fuel with
  | O => true
  | S k => if era_day_ok prev doe then era_days_ok k (era_key doe) (doe + 1) else false
  end.

(** Two entries of one task, the second created in the first millisecond
    of the year 10000, and a store whose queue holds them. *)
Definition entry_of_2023 : SyncQueueItem.t :=
  SyncQueueItem.make "b1" "t1" "create" (Demo.titled "groceries") 1700000000000 0 None.

Definition entry_of_10000 : SyncQueueItem.t :=
  SyncQueueItem.make "b2" "t1" "update" (Demo.titled "more groceries") 253402300800000 0 None.

Definition year_10000_db : Database :=
  mkDatabase [Demo.task_row "t1" "groceries" 1700000000000]
    [entry_of_2023; entry_of_10000] None.


(** The queue row a non-terminal failure leaves of [e]. *)
Definition failed_once (message : string) (e : SyncQueueItem.t) : SyncQueueItem.t :=
  SyncQueueItem.make (SyncQueueItem.id e) (SyncQueueItem.task_id e)
    (SyncQueueItem.operation e) (SyncQueueItem.data e) (SyncQueueItem.created_at e)
    (SyncQueueItem.retry_count e + 1) (Some message).

(** The dead-letter row [moveToDeadLetterQueue] writes for [e]. *)
Definition dead_letter_of (dlqId message : string) (failed_at : Z) (e : SyncQueueItem.t)
    : DeadLetter.t :=
  DeadLetter.make dlqId (SyncQueueItem.id e) (SyncQueueItem.task_id e)
    (SyncQueueItem.operation e) (JSON_roundtrip (SyncQueueItem.data e)) message
    (SyncQueueItem.retry_count e) failed_at.


(** The task object [createTask] builds from a payload. *)
Definition created_task (new_id : string) (created updated : Z) (taskData : Task.t) : Task.t :=
  Task.make (Some new_id)
    (Some (string_or (Task.title taskData) ""))
    (Some (string_or (Task.description taskData) ""))
    (Some (bool_or_false (Task.completed taskData)))
    (Some (DateObj created)) (Some (DateObj updated))
    (Some false) (Some pending)
    (string_or_undefined (Task.server_id taskData))
    (TaskService.date_or_undefined (Task.last_synced_at taskData)).

(** The payload's [last_synced_at], if any, is a [Date] (or the empty
    string, which [||] drops): what [createTask] can store. *)
Definition storable_last_synced_at (taskData : Task.t) : option (option Z) :=
  match Task.last_synced_at taskData with
  | None => Some None
  | Some (DateObj t) => Some (Some t)
  | Some (DateStr s) => if truthy s then None else Some None
  end.

(** The object [updateTask] builds from the stored task and the payload. *)
Definition updated_task (now : Z) (row : TaskRow.t) (updates : Task.t) : Task.t :=
  Task.set_sync_status pending
    (Task.set_updated_at (DateObj now)
       (Task.spread (TaskService.mapRowToTask row) updates)).

(** What [updateTask] can store as [last_synced_at]: the payload's when it
    is a [Date], the stored one when the payload has none. *)
Definition storable_merged_last_synced_at (row : TaskRow.t) (updates : Task.t)
    : option (option Z) :=
  match Task.last_synced_at updates with
  | None => Some (TaskRow.last_synced_at row)
  | Some (DateObj t) => Some (Some t)
  | Some (DateStr _) => None
  end.

(** [new Date(item.data.updated_at).getTime()]; [None] is NaN. *)
Definition client_time (e : Env) (data : Task.t) : option Z :=
  match Task.updated_at data with
  | Some (DateObj t) => Some t
  | Some (DateStr s) => Date_parse e s
  | None => None
  end.



Definition one_create : list SyncQueueItem.t :=
  [Demo.item "q1" "t1" "create" (Demo.titled "groceries")].



(** [item] with its data replaced. *)
Definition with_data (data : Task.t) (item : SyncQueueItem.t) : SyncQueueItem.t :=
  SyncQueueItem.make (SyncQueueItem.id item) (SyncQueueItem.task_id item)
    (SyncQueueItem.operation item) data (SyncQueueItem.created_at item)
    (SyncQueueItem.retry_count item) (SyncQueueItem.error_message item).


Definition text_after (sep : string) (parts : list string) : string :=
  match parts with
  | [] => ""
  | _ :: _ => sep ++ join sep parts
  end.




Definition hex_value (c : ascii) : N :=
  let n := N_of_ascii c in
  if (n <=? 57)%N then (n - 48)%N else (n - 87)%N.

(** Reads one escaped character back from the front of a JSON string body;
    nothing at the closing quote. *)
Definition unescape_head (s : string) : option (ascii * string) :=
  match s with
  | EmptyString => None
  | String c rest =>
      let n := N_of_ascii c in
      if (n =? 34)%N then None
      else if (n =? 92)%N then
        match rest with
        | EmptyString => None
        | String e rest' =>
            let m := N_of_ascii e in
            if (m =? 34)%N then Some (quote_char, rest')
            else if (m =? 92)%N then Some (backslash_char, rest')
            else if (m =? 98)%N then Some (ascii_of_N 8, rest')
            else if (m =? 102)%N then Some (ascii_of_N 12, rest')
            else if (m =? 110)%N then Some (ascii_of_N 10, rest')
            else if (m =? 114)%N then Some (ascii_of_N 13, rest')
            else if (m =? 116)%N then Some (ascii_of_N 9, rest')
            else
              match rest' with
              | String _ (String _ (String h1 (String h2 rest''))) =>
                  Some (ascii_of_N (16 * hex_value h1 + hex_value h2), rest'')
              | _ => None
              end
        end
      else Some (c, rest)
  end.

(** The members of the JSON object, by key, and the ones that are written. *)
Definition rendered_fields (d : Task.t) : list (string * option string) :=
  [("id", option_map json_string (Task.id d));
   ("title", option_map json_string (Task.title d));
   ("description", option_map json_string (Task.description d));
   ("completed", option_map json_bool (Task.completed d));
   ("created_at", option_map json_date (Task.created_at d));
   ("updated_at", option_map json_date (Task.updated_at d));
   ("is_deleted", option_map json_bool (Task.is_deleted d));
   ("sync_status", option_map (fun s => json_string (SyncStatus_text s)) (Task.sync_status d));
   ("server_id", option_map json_string (Task.server_id d));
   ("last_synced_at", option_map json_date (Task.last_synced_at d))].

Definition present (fields : list (string * option string)) : list (string * string) :=
  flat_map (fun p => match snd p with Some v => [(fst p, v)] | None => [] end) fields.

Definition render (member : string * string) : string :=
  json_string (fst member) ++ ":" ++ snd member.

(** A JSON value as the serialiser writes it: a string or a boolean. *)
Definition value_text (v : string) : Prop :=
  (exists s, v = json_string s) \/ v = "true" \/ v = "false".

(** What follows a member: the separator or the closing brace. *)
Definition delimited (r : string) : Prop :=
  exists r0, r = String "," r0 \/ r = String "}" r0.

(** The data is as JSON transport leaves it: no [Date] object inside. *)
Definition on_the_wire (d : Task.t) : Prop := JSON_roundtrip d = d.

(** A family of items that differ in their data only: the title is [n]
    letters long. *)
Fixpoint letters (n : nat) : string :=
  match n with
  | O => ""
  | S k => String "a" (letters k)
  end.


(** A batch as the batcher may emit it for a size [n]. *)
Definition well_sized (n : Z) (batch : list SyncQueueItem.t) : Prop :=
  batch <> [] /\ Z.of_nat (List.length batch) <= n.

(** What failing one item of a batch that failed as a whole does to the
    world and to the result of the cycle. *)
Definition fail_step (message : string) (s : World * SyncResult.t) (item : SyncQueueItem.t)
    : World * SyncResult.t :=
  let w1 := snd (handleSyncError item message (fst s)) in
  (next_tick w1,
   push_error (SyncError.make (SyncQueueItem.task_id item) (SyncQueueItem.operation item)
                 message (clock_src (env w1) (tick w1)))
     (count_failed (snd s))).

(** The remote answers every probe and fails every batch request with the
    same transport error. *)
Definition remote_rejects_batches (message : string) (e : Env) : Prop :=
  (forall t, axios_get_health e t = Returned tt) /\
  (forall t req, axios_post_batch e t req = Thrown message).

(** What [handleSyncError] does to the store, for the id and the time the
    dead-letter record would get. *)
Definition fail_db (dlqId : string) (failed_at : Z) (item : SyncQueueItem.t)
    (message : string) (d : Database) : Database :=
  if 3 <=? SyncQueueItem.retry_count item + 1
  then sql_delete_queue_by_id (SyncQueueItem.id item)
         (sql_set_task_status failed (SyncQueueItem.task_id item)
            (sql_insert_dead_letter (dead_letter_of dlqId message failed_at item)
               (sql_create_dead_letter_table d)))
  else sql_set_task_status error (SyncQueueItem.task_id item)
         (sql_set_queue_retry (SyncQueueItem.retry_count item + 1) message
            (SyncQueueItem.id item) d).

(** An item as the request body delivers it: its data through JSON. *)
Definition over_the_wire (item : SyncQueueItem.t) : SyncQueueItem.t :=
  with_data (JSON_roundtrip (SyncQueueItem.data item)) item.

(** [m] keeps [R]: the state a run ends in is related by [R] to the state
    it started from, whether the run returns or throws. *)
Definition keeps {S A} (R : S -> S -> Prop) (m : Prog S A) : Prop :=
  forall s, R s (snd (m s)).

(** A relation between stores, as a relation between worlds with the same
    environment, and between the states of a cycle. *)
Definition between_stores (D : Database -> Database -> Prop) (w w' : World) : Prop :=
  env w' = env w /\ D (db w) (db w').

Definition on_world (R : World -> World -> Prop) (s s' : World * SyncResult.t) : Prop :=
  R (fst s) (fst s').

(** What a task row says about the task itself, as opposed to the state of
    its synchronisation. *)
Definition task_content (r : TaskRow.t) : string * string * string * bool * Z * Z * bool :=
  (TaskRow.id r, TaskRow.title r, TaskRow.description r, TaskRow.completed r,
   TaskRow.created_at r, TaskRow.updated_at r, TaskRow.is_deleted r).

(** The mutation a queue row records, as opposed to its retry state. *)
Definition queue_content (q : SyncQueueItem.t) : string * string * string * Task.t * Z :=
  (SyncQueueItem.id q, SyncQueueItem.task_id q, SyncQueueItem.operation q,
   SyncQueueItem.data q, SyncQueueItem.created_at q).

Definition dead_rows (d : Database) : list DeadLetter.t :=
  match dead_letter_queue d with
  | Some rows => rows
  | None => []
  end.

(** What a cycle of the client may do to its store: task rows keep their
    number, order and content; every queue row that is left records a
    mutation that was queued before; dead-letter rows are only added. *)
Definition synchronised_from (d d' : Database) : Prop :=
  map task_content (tasks d') = map task_content (tasks d) /\
  (forall q', In q' (sync_queue d') ->
     exists q, In q (sync_queue d) /\ queue_content q' = queue_content q) /\
  (exists more, dead_rows d' = (dead_rows d ++ more)%list).

(** A stored task row and what a later store holds in its place. *)
Definition same_task (r r' : TaskRow.t) : Prop :=
  TaskRow.id r' = TaskRow.id r /\
  TaskRow.created_at r' = TaskRow.created_at r /\
  (TaskRow.is_deleted r = true -> TaskRow.is_deleted r' = true).

(** What the task service may do to its store: every task row stays in
    place, with its id and creation time, and stays deleted once deleted;
    new rows come after; the mutation log only grows at its end; the
    dead-letter table is left alone. *)
Definition served_from (d d' : Database) : Prop :=
  (exists kept more, tasks d' = (kept ++ more)%list /\ Forall2 same_task (tasks d) kept) /\
  (exists more, sync_queue d' = (sync_queue d ++ more)%list) /\
  dead_letter_queue d' = dead_letter_queue d.

(** [m] returns from every state, in a state related by [R] to the one it
    started from. *)
Definition returns_keeping {S A} (R : S -> S -> Prop) (m : Prog S A) : Prop :=
  forall s, exists a s', m s = (Returned a, s') /\ R s s'.

(** The result of a cycle after some more of it has run: errors were only
    appended, each counted as a failed item, and the count of synced items
    did not go down. *)
Definition tallied (r r' : SyncResult.t) : Prop :=
  exists new_errors,
    SyncResult.errors r' = (SyncResult.errors r ++ new_errors)%list /\
    SyncResult.failed_items r' = SyncResult.failed_items r + Z.of_nat (List.length new_errors) /\
    SyncResult.synced_items r <= SyncResult.synced_items r'.

Definition on_result (R : SyncResult.t -> SyncResult.t -> Prop) (s s' : World * SyncResult.t)
    : Prop :=
  R (snd s) (snd s').

(** The remote answers every probe, and every batch request with one
    outcome per item, in order, under the item's task id, each of them a
    success: what [POST /batch] answers when no item fails. *)
Definition remote_acknowledges (e : Env) : Prop :=
  (forall t, axios_get_health e t = Returned tt) /\
  (forall t req, exists outcomes,
      axios_post_batch e t req = Returned (BatchSyncResponse.make outcomes) /\
      map ProcessedItem.client_id outcomes
      = map SyncQueueItem.task_id (BatchSyncRequest.items req) /\
      Forall (fun p => ProcessedItem.status p = success) outcomes).

(** [id] is one of [ids]. *)
Definition mentions (ids : list string) (id : string) : bool :=
  existsb (String.eqb id) ids.

(** A task row before and after the tasks [ids] were taken up by a batch:
    its content is the same, and it is the same row altogether unless its
    task is one of [ids]. *)
Definition taken_up_row (ids : list string) (r r' : TaskRow.t) : Prop :=
  task_content r' = task_content r /\
  (mentions ids (TaskRow.id r) = false -> r' = r).

(** A task row before and after the tasks [ids] were acknowledged: in
    addition, the row of an acknowledged task is [synced]. *)
Definition acknowledged_row (ids : list string) (r r' : TaskRow.t) : Prop :=
  taken_up_row ids r r' /\
  (mentions ids (TaskRow.id r) = true -> TaskRow.sync_status r' = synced).

(** The store before and after the tasks [ids] were acknowledged: no queue
    row of these tasks is left, the other queue rows are as they were. *)
Definition acknowledged (ids : list string) (d d' : Database) : Prop :=
  Forall2 (acknowledged_row ids) (tasks d) (tasks d') /\
  sync_queue d'
  = filter (fun q => negb (mentions ids (SyncQueueItem.task_id q))) (sync_queue d) /\
  dead_letter_queue d' = dead_letter_queue d.

(** The state of a cycle before and after the tasks [ids] were
    acknowledged, one item each. *)
Definition acknowledged_state (ids : list string) (s s' : World * SyncResult.t) : Prop :=
  env (fst s') = env (fst s) /\
  acknowledged ids (db (fst s)) (db (fst s')) /\
  SyncResult.synced_items (snd s')
  = SyncResult.synced_items (snd s) + Z.of_nat (List.length ids) /\
  SyncResult.failed_items (snd s') = SyncResult.failed_items (snd s) /\
  SyncResult.errors (snd s') = SyncResult.errors (snd s).

(** The snapshot [deleteTask] queues for a stored row. *)
Definition deleted_snapshot (now : Z) (row : TaskRow.t) : Task.t :=
  Task.set_updated_at (DateObj now) (Task.set_is_deleted true (TaskService.mapRowToTask row)).

(** The queue row [addToSyncQueue] writes. *)
Definition queued (queueId taskId operation : string) (data : Task.t) (now : Z)
    : SyncQueueItem.t :=
  SyncQueueItem.make queueId taskId operation (JSON_roundtrip data) now 0 None.

(** The body the batch route receives when the client posts a request:
    each item's data and the timestamp have gone through JSON. *)
Definition posted_body (req : BatchSyncRequest.t) : BatchBody.t :=
  BatchBody.make (ItemsArray (map over_the_wire (BatchSyncRequest.items req)))
    (Some (toISOString (BatchSyncRequest.client_timestamp req)))
    (Some (BatchSyncRequest.checksum req)).

(** The request [processBatch] builds for a batch at a given time. *)
Definition request_of (batch : list SyncQueueItem.t) (client_timestamp : Z)
    : BatchSyncRequest.t :=
  BatchSyncRequest.make batch client_timestamp (SyncService.calculateChecksum batch).

(** The [TypeError] of [handleSyncError(undefined, ...)]. *)
Definition no_such_entry_message : string :=
  "Cannot read properties of undefined (reading 'retry_count')".

(** A remote that answers the probe, and every batch request with the
    given outcomes. *)
Definition remote_answering (outcomes : list ProcessedItem.t) : Env :=
  mkEnv Demo.uuid Demo.clock Demo.parse_iso
    (fun _ => Returned tt)
    (fun _ _ => Returned (BatchSyncResponse.make outcomes))
    (Some 50).

(** What [createBatches] returns from the state of its loop. *)
Definition close_batches (acc : list (list SyncQueueItem.t) * list SyncQueueItem.t)
    : list (list SyncQueueItem.t) :=
  match snd acc with
  | [] => fst acc
  | _ :: _ => (fst acc ++ [snd acc])%list
  end.

(** The orders of the three sorted listings, on the stored texts. *)
Definition newer_text_first (a b : TaskRow.t) : Prop :=
  iso_leb (TaskRow.created_at b) (TaskRow.created_at a) = true.

Definition longest_untouched_text_first (a b : TaskRow.t) : Prop :=
  iso_leb (TaskRow.updated_at a) (TaskRow.updated_at b) = true.

Definition latest_failure_text_first (a b : DeadLetter.t) : Prop :=
  iso_leb (DeadLetter.failed_at b) (DeadLetter.failed_at a) = true.

(** The same orders on the times themselves. *)
Definition newer_first (a b : TaskRow.t) : Prop := TaskRow.created_at b <= TaskRow.created_at a.

Definition longest_untouched_first (a b : TaskRow.t) : Prop :=
  TaskRow.updated_at a <= TaskRow.updated_at b.

Definition latest_failure_first (a b : DeadLetter.t) : Prop :=
  DeadLetter.failed_at b <= DeadLetter.failed_at a.

Definition task_not_found : string := "Task not found".

Definition offline_message : string := "Server unavailable - cannot sync while offline".

(* ================================================================== *)
(** * Properties *)

Example sha256_empty :
  SHA256.hex "" = "e3b0c44298fc1c149afbf4c8996fb92427ae41e4649b934ca495991b7852b855".
Proof. vm_compute. reflexivity. Qed.

Example sha256_abc :
  SHA256.hex "abc" = "ba7816bf8f01cfea414140de5dae2223b00361a396177a9cb410ff61f20015ad".
Proof. vm_compute. reflexivity. Qed.

Example sha256_two_blocks :
  SHA256.hex "abcdbcdecdefdefgefghfghighijhijkijkljklmklmnlmnomnopnopq"
  = "248d6a61d20638b8e5c026930c3e6039a33ce45964ff2167f6ecedd419db06c1".
Proof. vm_compute. reflexivity. Qed.

Example toISOString_epoch : toISOString 0 = "1970-01-01T00:00:00.000Z".
Proof. vm_compute. reflexivity. Qed.

Example toISOString_2023 : toISOString 1700000000123 = "2023-11-14T22:13:20.123Z".
Proof. vm_compute. reflexivity. Qed.

Example toISOString_leap_day : toISOString 1709210096789 = "2024-02-29T12:34:56.789Z".
Proof. vm_compute. reflexivity. Qed.

Example toISOString_before_epoch : toISOString (-1) = "1969-12-31T23:59:59.999Z".
Proof. vm_compute. reflexivity. Qed.

Example parse_iso_reads_toISOString :
  map (fun t => Demo.parse_iso (toISOString t)) [0; 1700000000123; 1709210096789; -1]
  = map Some [0; 1700000000123; 1709210096789; -1].
Proof. vm_compute. reflexivity. Qed.

Example demo_uuid : Demo.uuid 12 = "uuid-12".
Proof. vm_compute. reflexivity. Qed.

(** The digest and the checksums are never unfolded by simplification. *)
Arguments SHA256.hex : simpl never.
Arguments SyncService.calculateChecksum : simpl never.
Arguments SyncRoutes.calculateChecksum : simpl never.
Arguments JSON_stringify : simpl never.
Arguments toISOString : simpl never.

(* ------------------------------------------------------------------ *)
(** ** Running programs *)

(** Unfolds the monadic plumbing so that a program applied to a world
    computes to its outcome and final world. *)
Ltac run :=
  repeat (progress (cbv beta iota delta
    [bind ret throw try_catch db_run db_query uuidv4 new_Date next_tick
     TaskService.addToSyncQueue TaskService.toISOString_opt SyncService.addToSyncQueue
     SyncService.lift SyncService.update_result SyncService.read_result
     SyncService.report_error SyncService.axios_get SyncService.axios_post
     SyncService.batch_size_of SyncRoutes.reject SyncRoutes.getTime SyncRoutes.time_of]);
    cbn [fst snd env db tick]).

(* ------------------------------------------------------------------ *)
(** ** Server-side delete *)

Lemma deleteTask_missing (id : string) (w : World) :
  TaskService.sql_select_live_task id (db w) = None ->
  TaskService.deleteTask id w = (Returned false, w).
Proof.
  intros H. unfold TaskService.deleteTask. run. rewrite H. reflexivity.
Qed.

Lemma deleteTask_returns (id : string) (w : World) :
  exists b w', TaskService.deleteTask id w = (Returned b, w').
Proof.
  unfold TaskService.deleteTask. run.
  destruct (TaskService.sql_select_live_task id (db w)); eauto.
Qed.

Lemma select_live_after_soft_delete (now : Z) (st : SyncStatus) (id : string) (d : Database) :
  TaskService.sql_select_live_task id (TaskService.sql_soft_delete_task now st id d) = None.
Proof.
  unfold TaskService.sql_select_live_task, TaskService.sql_soft_delete_task, with_tasks.
  cbn [tasks]. induction (tasks d) as [|r rest IH]; cbn [map find]; [reflexivity|].
  destruct (String.eqb (TaskRow.id r) id) eqn:E; cbn [TaskRow.id TaskRow.is_deleted].
  - rewrite E. cbn. exact IH.
  - rewrite E. cbn. exact IH.
Qed.

Lemma select_live_ignores_queue (id : string) (f : list SyncQueueItem.t -> list SyncQueueItem.t)
    (d : Database) :
  TaskService.sql_select_live_task id (with_sync_queue f d)
  = TaskService.sql_select_live_task id d.
Proof. reflexivity. Qed.

(** After [deleteTask] no live row with that id is left, whatever it found. *)
Lemma deleteTask_leaves_none (id : string) (w : World) :
  exists b w', TaskService.deleteTask id w = (Returned b, w') /\
               TaskService.sql_select_live_task id (db w') = None.
Proof.
  unfold TaskService.deleteTask. run.
  destruct (TaskService.sql_select_live_task id (db w)) eqn:E.
  - eexists _, _. split; [reflexivity|]. cbn [db].
    unfold sql_insert_queue. rewrite select_live_ignores_queue.
    apply select_live_after_soft_delete.
  - eexists _, _. split; [reflexivity|]. exact E.
Qed.

Lemma select_live_none_iff (id : string) (d : Database) :
  TaskService.sql_select_live_task id d = None <->
  (forall r, In r (tasks d) -> TaskRow.id r = id -> TaskRow.is_deleted r = true).
Proof.
  unfold TaskService.sql_select_live_task. split.
  - intros H r Hin Hid.
    pose proof (find_none _ _ H r Hin) as Hn. cbn in Hn.
    subst id. rewrite String.eqb_refl in Hn. cbn in Hn.
    destruct (TaskRow.is_deleted r); [reflexivity|discriminate].
  - intros H. induction (tasks d) as [|r rest IH]; [reflexivity|].
    cbn [find]. destruct (String.eqb (TaskRow.id r) id) eqn:E.
    + apply String.eqb_eq in E. rewrite (H r (or_introl eq_refl) E). cbn.
      apply IH. intros r' Hin. apply H. right. exact Hin.
    + cbn. apply IH. intros r' Hin. apply H. right. exact Hin.
Qed.

Lemma handleBatchDelete_outcome (item : SyncQueueItem.t) (w : World) :
  exists b w',
    TaskService.deleteTask (SyncQueueItem.task_id item) w = (Returned b, w') /\
    handleBatchDelete item w
    = (Returned (ProcessedItem.make (SyncQueueItem.task_id item)
                   (Some (SyncQueueItem.task_id item)) success
                   (Some (Task.set_is_deleted true (SyncQueueItem.data item))) None), w').
Proof.
  destruct (deleteTask_returns (SyncQueueItem.task_id item) w) as (b & w' & H).
  exists b, w'. split; [exact H|].
  unfold handleBatchDelete. run. rewrite H. reflexivity.
Qed.

(** C8. Server-side delete is idempotent: a delete item applied twice in a
    row answers [success] both times, each time with a payload whose
    [is_deleted] flag is true and with no error; the second application
    leaves the store as the first one left it. *)
Theorem C8_delete_twice_succeeds (item : SyncQueueItem.t) (w : World) :
  exists r1 w1 r2 w2,
    handleBatchDelete item w = (Returned r1, w1) /\
    handleBatchDelete item w1 = (Returned r2, w2) /\
    ProcessedItem.status r1 = success /\
    ProcessedItem.status r2 = success /\
    (exists d, ProcessedItem.resolved_data r1 = Some d /\ Task.is_deleted d = Some true) /\
    (exists d, ProcessedItem.resolved_data r2 = Some d /\ Task.is_deleted d = Some true) /\
    ProcessedItem.error r1 = None /\
    ProcessedItem.error r2 = None /\
    db w2 = db w1.
Proof.
  destruct (handleBatchDelete_outcome item w) as (b1 & w1 & Hd1 & H1).
  destruct (handleBatchDelete_outcome item w1) as (b2 & w2 & Hd2 & H2).
  destruct (deleteTask_leaves_none (SyncQueueItem.task_id item) w) as (b & w' & Hd & Hnone).
  rewrite Hd in Hd1. injection Hd1 as -> ->.
  rewrite (deleteTask_missing _ _ Hnone) in Hd2. injection Hd2 as <- <-.
  eexists _, w1, _, w1. repeat split; try eassumption; cbn; eauto.
Qed.

(** C10. A delete item is always answered [success] with [server_id] equal
    to the client's task id; in particular when the server holds no live
    task with that id (none at all, or only deleted ones), [deleteTask]
    returns [false], nothing is written, and the outcome is the same. *)
Theorem C10_delete_of_missing_task_reports_success (item : SyncQueueItem.t) (w : World) :
  exists r w',
    handleBatchDelete item w = (Returned r, w') /\
    ProcessedItem.status r = success /\
    ProcessedItem.client_id r = SyncQueueItem.task_id item /\
    ProcessedItem.server_id r = Some (SyncQueueItem.task_id item) /\
    ((forall row, In row (tasks (db w)) ->
        TaskRow.id row = SyncQueueItem.task_id item -> TaskRow.is_deleted row = true) ->
     TaskService.deleteTask (SyncQueueItem.task_id item) w = (Returned false, w) /\
     w' = w).
Proof.
  destruct (handleBatchDelete_outcome item w) as (b & w' & Hd & H).
  eexists _, w'. split; [exact H|]. cbn. repeat split.
  - apply deleteTask_missing. apply select_live_none_iff. assumption.
  - apply select_live_none_iff in H0.
    rewrite (deleteTask_missing _ _ H0) in Hd. congruence.
Qed.

(** A delete for a task the server never saw, on an empty store. *)
Lemma C10_witness :
  exists r w',
    handleBatchDelete (Demo.item "q1" "never-created" "delete" Demo.synced_snapshot)
      (Demo.fresh Demo.offline) = (Returned r, w') /\
    ProcessedItem.status r = success /\
    ProcessedItem.server_id r = Some "never-created" /\
    TaskService.deleteTask "never-created" (Demo.fresh Demo.offline)
    = (Returned false, Demo.fresh Demo.offline) /\
    w' = Demo.fresh Demo.offline.
Proof.
  destruct (C10_delete_of_missing_task_reports_success
              (Demo.item "q1" "never-created" "delete" Demo.synced_snapshot)
              (Demo.fresh Demo.offline)) as (r & w' & H & Hs & _ & Hsid & Hmiss).
  exists r, w'. destruct Hmiss as [Hd Hw]; [intros row []|].
  repeat split; assumption.
Defined.

Example delete_of_missing_task_outcome :
  handleBatchDelete (Demo.item "q1" "never-created" "delete" (Demo.titled "x"))
    (Demo.fresh Demo.offline)
  = (Returned (ProcessedItem.make "never-created" (Some "never-created") success
                 (Some (Task.set_is_deleted true (Demo.titled "x"))) None),
     Demo.fresh Demo.offline).
Proof. reflexivity. Qed.

(* ------------------------------------------------------------------ *)
(** ** The order of ISO texts *)

Lemma compare_refl (s : string) : String.compare s s = Eq.
Proof. apply OrderedTypeEx.String_as_OT.cmp_eq. reflexivity. Qed.

Lemma string_leb_spec (a b : string) :
  String.leb a b = true <-> a = b \/ String.compare a b = Lt.
Proof.
  unfold String.leb. destruct (String.compare a b) eqn:E.
  - apply String.compare_eq_iff in E. intuition.
  - intuition.
  - split; [discriminate |]. intros [-> | H]; [| discriminate].
    rewrite compare_refl in E. discriminate.
Qed.

Lemma string_leb_trans (a b c : string) :
  String.leb a b = true -> String.leb b c = true -> String.leb a c = true.
Proof.
  rewrite !string_leb_spec. intros [-> | Hab] [-> | Hbc]; auto.
  right. apply OrderedTypeEx.String_as_OT.cmp_lt.
  apply OrderedTypeEx.String_as_OT.cmp_lt in Hab, Hbc.
  eapply OrderedTypeEx.String_as_OT.lt_trans; eassumption.
Qed.

Lemma iso_leb_total (a b : Z) : iso_leb a b = true \/ iso_leb b a = true.
Proof. apply String.leb_total. Qed.

Lemma iso_leb_trans (a b c : Z) :
  iso_leb a b = true -> iso_leb b c = true -> iso_leb a c = true.
Proof. apply string_leb_trans. Qed.

Lemma compare_app (a b r r' : string) :
  String.length a = String.length b ->
  String.compare (a ++ r) (b ++ r')
  = match String.compare a b with
    | Eq => String.compare r r'
    | c => c
    end.
Proof.
  revert b. induction a as [| c a IH]; intros [| c' b] H; try discriminate.
  - reflexivity.
  - cbn [append String.compare]. destruct (Ascii.compare c c'); try reflexivity.
    apply IH. cbn in H. congruence.
Qed.

Lemma dec_fixed_length (n : nat) (x : Z) : String.length (dec_fixed n x) = n.
Proof. induction n; cbn [dec_fixed String.length]; congruence. Qed.

Lemma digit_compare (a b : Z) :
  0 <= a < 10 -> 0 <= b < 10 ->
  Ascii.compare (ascii_of_N (Z.to_N (48 + a))) (ascii_of_N (Z.to_N (48 + b))) = Z.compare a b.
Proof.
  intros Ha Hb. unfold Ascii.compare.
  rewrite !N_ascii_embedding by lia.
  rewrite Z2N.inj_compare by lia. apply Z.add_compare_mono_l.
Qed.

Lemma dec_fixed_compare (n : nat) (x y : Z) :
  0 <= x -> 0 <= y ->
  String.compare (dec_fixed n x) (dec_fixed n y)
  = Z.compare (x mod 10 ^ Z.of_nat n) (y mod 10 ^ Z.of_nat n).
Proof.
  intros Hx Hy. induction n as [| k IH].
  - cbn. rewrite !Z.mod_1_r. reflexivity.
  - cbn [dec_fixed String.compare].
    assert (P : 0 < 10 ^ Z.of_nat k) by (apply Z.pow_pos_nonneg; lia).
    rewrite digit_compare by (apply Z.mod_pos_bound; lia).
    rewrite IH.
    replace (Z.of_nat (S k)) with (Z.of_nat k + 1) by lia.
    rewrite Z.pow_add_r, Z.pow_1_r by lia.
    rewrite !(Z.rem_mul_r _ (10 ^ Z.of_nat k) 10) by lia.
    set (p := 10 ^ Z.of_nat k) in *.
    pose proof (Z.mod_pos_bound x p P). pose proof (Z.mod_pos_bound y p P).
    pose proof (Z.mod_pos_bound (x / p) 10 ltac:(lia)).
    pose proof (Z.mod_pos_bound (y / p) 10 ltac:(lia)).
    set (rx := x mod p) in *. set (ry := y mod p) in *.
    set (dx := (x / p) mod 10) in *. set (dy := (y / p) mod 10) in *.
    destruct (Z.compare_spec dx dy) as [E | L | G].
    + subst dy. destruct (Z.compare_spec rx ry); symmetry;
        [apply Z.compare_eq_iff | apply Z.compare_lt_iff | apply Z.compare_gt_iff]; nia.
    + symmetry. apply Z.compare_lt_iff. nia.
    + symmetry. apply Z.compare_gt_iff. nia.
Qed.

Lemma dec_fixed_compare_small (n : nat) (x y : Z) :
  0 <= x < 10 ^ Z.of_nat n -> 0 <= y < 10 ^ Z.of_nat n ->
  String.compare (dec_fixed n x) (dec_fixed n y) = Z.compare x y.
Proof.
  intros Hx Hy. rewrite dec_fixed_compare by lia. rewrite !Z.mod_small by lia. reflexivity.
Qed.

Lemma compare_same_head (c : ascii) (r r' : string) :
  String.compare (String c r) (String c r') = String.compare r r'.
Proof.
  cbn [String.compare]. unfold Ascii.compare. rewrite N.compare_refl. reflexivity.
Qed.

Lemma era_days_ok_spec (fuel : nat) (prev doe : Z) :
  era_days_ok fuel prev doe = true ->
  forall i, doe <= i < doe + Z.of_nat fuel ->
    era_day_ok (if i =? doe then prev else era_key (i - 1)) i = true.
Proof.
  revert prev doe. induction fuel as [| k IH]; intros prev doe H i Hi; [lia |].
  cbn [era_days_ok] in H. destruct (era_day_ok prev doe) eqn:E; [| discriminate].
  destruct (Z.eqb_spec i doe) as [Ei | N]; [subst i; exact E |].
  specialize (IH _ _ H i ltac:(lia)).
  destruct (Z.eqb_spec i (doe + 1)) as [Ei | N']; [| exact IH].
  subst i. replace (doe + 1 - 1) with doe by lia. exact IH.
Qed.

Lemma era_checked : era_days_ok (Z.to_nat 146097) 300 0 = true.
Proof. vm_cast_no_check (eq_refl true). Qed.

Lemma era_day (doe : Z) :
  0 <= doe < 146097 ->
  let '(y, m, d) := civil_in_era doe in
  301 <= era_key doe <= 4000229 /\ 1 <= m <= 12 /\ 1 <= d <= 31 /\
  (0 < doe -> era_key (doe - 1) < era_key doe).
Proof.
  intros H. pose proof (era_days_ok_spec _ _ _ era_checked doe) as E.
  rewrite Z2Nat.id in E by lia. specialize (E ltac:(lia)).
  unfold era_day_ok, era_key in *. destruct (civil_in_era doe) as [[y m] d].
  repeat (apply andb_true_iff in E; destruct E as [E ?]).
  destruct (Z.eqb_spec doe 0); repeat split; try lia.
Qed.

Lemma era_key_mono (i j : Z) : 0 <= i -> i < j -> j < 146097 -> era_key i < era_key j.
Proof.
  intros Hi Hij Hj.
  assert (G : forall k, 0 <= k -> i + 1 + k < 146097 -> era_key i < era_key (i + 1 + k)).
  { intros k Hk. pattern k. apply natlike_ind; [| | exact Hk].
    - intros H. pose proof (era_day (i + 1 + 0) ltac:(lia)) as D.
      destruct (civil_in_era (i + 1 + 0)) as [[y m] d]. destruct D as (_ & _ & _ & S).
      specialize (S ltac:(lia)). replace (i + 1 + 0 - 1) with i in S by lia. exact S.
    - intros x Hx IH H. specialize (IH ltac:(lia)).
      pose proof (era_day (i + 1 + Z.succ x) ltac:(lia)) as D.
      destruct (civil_in_era (i + 1 + Z.succ x)) as [[y m] d].
      destruct D as (_ & _ & _ & S). specialize (S ltac:(lia)).
      replace (i + 1 + Z.succ x - 1) with (i + 1 + x) in S by lia. lia. }
  specialize (G (j - i - 1) ltac:(lia)).
  replace (i + 1 + (j - i - 1)) with j in G by lia. apply G. lia.
Qed.

Lemma civil_from_days_in_era (days : Z) :
  let z := days + 719468 in
  civil_from_days days
  = (let '(y, m, d) := civil_in_era (z mod 146097) in (y + z / 146097 * 400, m, d)).
Proof.
  cbn zeta. unfold civil_from_days, civil_in_era. cbn zeta.
  replace (days + 719468 - (days + 719468) / 146097 * 146097)
    with ((days + 719468) mod 146097)
    by (rewrite Z.mod_eq by lia; ring).
  f_equal. f_equal. ring.
Qed.

Lemma civil_key (days : Z) :
  date_key (civil_from_days days)
  = era_key ((days + 719468) mod 146097) + 4000000 * ((days + 719468) / 146097).
Proof.
  rewrite civil_from_days_in_era. cbn zeta. unfold era_key.
  destruct (civil_in_era ((days + 719468) mod 146097)) as [[y m] d].
  unfold date_key. lia.
Qed.

Lemma civil_month_day (days : Z) :
  let '(y, m, d) := civil_from_days days in 1 <= m <= 12 /\ 1 <= d <= 31.
Proof.
  rewrite civil_from_days_in_era. cbn zeta.
  pose proof (era_day ((days + 719468) mod 146097)
                ltac:(apply Z.mod_pos_bound; lia)) as D.
  destruct (civil_in_era ((days + 719468) mod 146097)) as [[y m] d].
  destruct D as (_ & Hm & Hd & _). split; assumption.
Qed.

Lemma civil_key_mono (d1 d2 : Z) :
  d1 < d2 -> date_key (civil_from_days d1) < date_key (civil_from_days d2).
Proof.
  intros H. rewrite (civil_key d1), (civil_key d2).
  set (z1 := d1 + 719468). set (z2 := d2 + 719468).
  assert (Hz : z1 < z2) by (unfold z1, z2; lia).
  pose proof (Z.mod_pos_bound z1 146097 ltac:(lia)) as B1.
  pose proof (Z.mod_pos_bound z2 146097 ltac:(lia)) as B2.
  pose proof (Z.div_mod z1 146097 ltac:(lia)) as E1.
  pose proof (Z.div_mod z2 146097 ltac:(lia)) as E2.
  destruct (Z.eq_dec (z1 / 146097) (z2 / 146097)) as [E | N].
  - rewrite E. pose proof (era_key_mono (z1 mod 146097) (z2 mod 146097)). lia.
  - assert (L : z1 / 146097 < z2 / 146097).
    { pose proof (Z.div_le_mono z1 z2 146097 ltac:(lia) ltac:(lia)). lia. }
    pose proof (era_day (z1 mod 146097) B1) as D1.
    pose proof (era_day (z2 mod 146097) B2) as D2.
    destruct (civil_in_era (z1 mod 146097)) as [[y1 m1] dd1].
    destruct (civil_in_era (z2 mod 146097)) as [[y2 m2] dd2].
    lia.
Qed.

Lemma four_digit_civil (t : Z) :
  four_digit_year t ->
  let '(y, m, d) := civil_from_days (t / 86400000) in
  0 <= y <= 9999 /\ 1 <= m <= 12 /\ 1 <= d <= 31.
Proof.
  unfold four_digit_year, iso_first, iso_last. intros H.
  assert (Hd : -719528 <= t / 86400000 <= 2932896).
  { Z.to_euclidean_division_equations. lia. }
  pose proof (civil_month_day (t / 86400000)) as B.
  assert (L : date_key (civil_from_days (-719528)) <= date_key (civil_from_days (t / 86400000))).
  { destruct (Z.eq_dec (t / 86400000) (-719528)) as [-> | N]; [lia |].
    apply Z.lt_le_incl, civil_key_mono. lia. }
  assert (U : date_key (civil_from_days (t / 86400000)) <= date_key (civil_from_days 2932896)).
  { destruct (Z.eq_dec (t / 86400000) 2932896) as [-> | N]; [lia |].
    apply Z.lt_le_incl, civil_key_mono. lia. }
  change (date_key (civil_from_days (-719528))) with 101 in L.
  change (date_key (civil_from_days 2932896)) with 99991231 in U.
  destruct (civil_from_days (t / 86400000)) as [[y m] d]. unfold date_key in L, U.
  cbv beta iota in B |- *. lia.
Qed.

Lemma clock_compare (a b : Z) :
  0 <= a < 86400000 -> a < b -> b < 86400000 ->
  match a / 3600000 ?= b / 3600000 with
  | Eq =>
      match a / 60000 mod 60 ?= b / 60000 mod 60 with
      | Eq =>
          match a / 1000 mod 60 ?= b / 1000 mod 60 with
          | Eq => a mod 1000 ?= b mod 1000
          | c => c
          end
      | c => c
      end
  | c => c
  end = Lt.
Proof.
  intros Ha Hab Hb.
  destruct (Z.compare_spec (a / 3600000) (b / 3600000)) as [E1 | L1 | G1];
    [| reflexivity | exfalso; Z.to_euclidean_division_equations; lia].
  destruct (Z.compare_spec (a / 60000 mod 60) (b / 60000 mod 60)) as [E2 | L2 | G2];
    [| reflexivity | exfalso; Z.to_euclidean_division_equations; lia].
  destruct (Z.compare_spec (a / 1000 mod 60) (b / 1000 mod 60)) as [E3 | L3 | G3];
    [| reflexivity | exfalso; Z.to_euclidean_division_equations; lia].
  apply Z.compare_lt_iff. Z.to_euclidean_division_equations. lia.
Qed.

Lemma toISOString_four_digit (t : Z) :
  four_digit_year t ->
  toISOString t
  = let '(y, m, d) := civil_from_days (t / 86400000) in
    let ms := t mod 86400000 in
    dec_fixed 4 y ++ "-" ++ dec_fixed 2 m ++ "-" ++ dec_fixed 2 d ++ "T"
      ++ dec_fixed 2 (ms / 3600000) ++ ":" ++ dec_fixed 2 (ms / 60000 mod 60) ++ ":"
      ++ dec_fixed 2 (ms / 1000 mod 60) ++ "." ++ dec_fixed 3 (ms mod 1000) ++ "Z".
Proof.
  intros H. pose proof (four_digit_civil t H) as B. unfold toISOString.
  destruct (civil_from_days (t / 86400000)) as [[y m] d]. destruct B as (Hy & _).
  replace ((0 <=? y) && (y <=? 9999)) with true; [reflexivity |].
  symmetry. apply andb_true_iff. split; apply Z.leb_le; lia.
Qed.

Lemma iso_compare_lt (a b : Z) :
  four_digit_year a -> four_digit_year b -> a < b ->
  String.compare (toISOString a) (toISOString b) = Lt.
Proof.
  intros Ha Hb Hab.
  rewrite (toISOString_four_digit a Ha), (toISOString_four_digit b Hb).
  pose proof (four_digit_civil a Ha) as Ba. pose proof (four_digit_civil b Hb) as Bb.
  assert (K : a / 86400000 < b / 86400000 ->
              date_key (civil_from_days (a / 86400000))
              < date_key (civil_from_days (b / 86400000))) by apply civil_key_mono.
  assert (D : a / 86400000 <= b / 86400000) by (apply Z.div_le_mono; lia).
  assert (E : a / 86400000 = b / 86400000 ->
              civil_from_days (a / 86400000) = civil_from_days (b / 86400000))
    by (intros ->; reflexivity).
  pose proof (Z.mod_pos_bound a 86400000 ltac:(lia)) as Ma.
  pose proof (Z.mod_pos_bound b 86400000 ltac:(lia)) as Mb.
  pose proof (Z.div_mod a 86400000 ltac:(lia)) as Ea.
  pose proof (Z.div_mod b 86400000 ltac:(lia)) as Eb.
  assert (C : a / 86400000 = b / 86400000 -> a mod 86400000 < b mod 86400000) by lia.
  destruct (civil_from_days (a / 86400000)) as [[y1 m1] d1].
  destruct (civil_from_days (b / 86400000)) as [[y2 m2] d2].
  cbn zeta. unfold date_key in K.
  assert (E' : a / 86400000 = b / 86400000 -> y1 = y2 /\ m1 = m2 /\ d1 = d2).
  { intros S. specialize (E S). injection E as -> -> ->. repeat split. }
  cbv beta iota in Ba, Bb.
  rewrite compare_app by (rewrite !dec_fixed_length; reflexivity).
  rewrite dec_fixed_compare_small by (cbn; lia).
  cbn [append]. rewrite compare_same_head.
  rewrite compare_app by (rewrite !dec_fixed_length; reflexivity).
  rewrite dec_fixed_compare_small by (cbn; lia).
  cbn [append]. rewrite compare_same_head.
  rewrite compare_app by (rewrite !dec_fixed_length; reflexivity).
  rewrite dec_fixed_compare_small by (cbn; lia).
  destruct (Z.compare_spec y1 y2) as [Ey | Ly | Gy]; [| reflexivity | exfalso; lia].
  destruct (Z.compare_spec m1 m2) as [Em | Lm | Gm]; [| reflexivity | exfalso; lia].
  destruct (Z.compare_spec d1 d2) as [Ed | Ld | Gd]; [| reflexivity | exfalso; lia].
  assert (S : a / 86400000 = b / 86400000) by lia.
  specialize (C S).
  cbn [append]. rewrite compare_same_head.
  rewrite compare_app by (rewrite !dec_fixed_length; reflexivity).
  rewrite dec_fixed_compare_small
    by (cbn; split; Z.to_euclidean_division_equations; lia).
  cbn [append]. rewrite compare_same_head.
  rewrite compare_app by (rewrite !dec_fixed_length; reflexivity).
  rewrite dec_fixed_compare_small
    by (cbn; split; Z.to_euclidean_division_equations; lia).
  cbn [append]. rewrite compare_same_head.
  rewrite compare_app by (rewrite !dec_fixed_length; reflexivity).
  rewrite dec_fixed_compare_small
    by (cbn; split; Z.to_euclidean_division_equations; lia).
  cbn [append]. rewrite compare_same_head.
  rewrite compare_app by (rewrite !dec_fixed_length; reflexivity).
  rewrite dec_fixed_compare_small
    by (cbn; split; Z.to_euclidean_division_equations; lia).
  pose proof (clock_compare (a mod 86400000) (b mod 86400000) Ma C ltac:(lia)) as T.
  destruct (a mod 86400000 / 3600000 ?= b mod 86400000 / 3600000); try exact T.
  destruct (a mod 86400000 / 60000 mod 60 ?= b mod 86400000 / 60000 mod 60); try exact T.
  destruct (a mod 86400000 / 1000 mod 60 ?= b mod 86400000 / 1000 mod 60); try exact T.
  rewrite T. reflexivity.
Qed.

Lemma iso_leb_refl (a : Z) : iso_leb a a = true.
Proof. unfold iso_leb, String.leb. rewrite compare_refl. reflexivity. Qed.

(** Within the four-digit years, the texts are ordered as the times are. *)
Lemma iso_leb_le (a b : Z) :
  four_digit_year a -> four_digit_year b -> (iso_leb a b = true <-> a <= b).
Proof.
  intros Ha Hb. unfold iso_leb, String.leb. split.
  - intros H. destruct (Z.lt_ge_cases b a) as [L | G]; [| lia].
    pose proof (iso_compare_lt b a Hb Ha L) as C.
    rewrite String.compare_antisym, C in H. discriminate.
  - intros H. destruct (Z.eq_dec a b) as [-> | N].
    + rewrite compare_refl. reflexivity.
    + rewrite (iso_compare_lt a b Ha Hb ltac:(lia)). reflexivity.
Qed.

(* ------------------------------------------------------------------ *)
(** ** The pending entries of the mutation log *)

Lemma queue_order_spec (a b : SyncQueueItem.t) :
  queue_order a b = true <-> ordered_before a b.
Proof.
  unfold queue_order, ordered_before.
  destruct (String.compare (SyncQueueItem.task_id a) (SyncQueueItem.task_id b)) eqn:E.
  - apply String.compare_eq_iff in E. split.
    + intros H. right. split; assumption.
    + intros [H|[_ H]]; [discriminate|exact H].
  - split; [intros _; left; reflexivity|reflexivity].
  - split; [discriminate|].
    intros [H|[H _]]; [discriminate|].
    rewrite H, compare_refl in E. discriminate.
Qed.

Lemma queue_order_total (a b : SyncQueueItem.t) :
  queue_order a b = false -> queue_order b a = true.
Proof.
  unfold queue_order. rewrite (String.compare_antisym (SyncQueueItem.task_id a)).
  destruct (String.compare (SyncQueueItem.task_id b) (SyncQueueItem.task_id a));
    cbn [CompOpp]; intros H; try discriminate; try reflexivity.
  destruct (iso_leb_total (SyncQueueItem.created_at a) (SyncQueueItem.created_at b));
    congruence.
Qed.

Lemma ordered_before_trans (a b c : SyncQueueItem.t) :
  ordered_before a b -> ordered_before b c -> ordered_before a c.
Proof.
  unfold ordered_before. intros [Hab|[Hab Tab]] [Hbc|[Hbc Tbc]].
  - left. apply OrderedTypeEx.String_as_OT.cmp_lt.
    apply OrderedTypeEx.String_as_OT.cmp_lt in Hab, Hbc.
    eapply OrderedTypeEx.String_as_OT.lt_trans; eassumption.
  - left. rewrite <- Hbc. exact Hab.
  - left. rewrite Hab. exact Hbc.
  - right. split; [congruence | eapply iso_leb_trans; eassumption].
Qed.

Lemma ordered_before_chronological (a b : SyncQueueItem.t) :
  four_digit_year (SyncQueueItem.created_at a) ->
  four_digit_year (SyncQueueItem.created_at b) ->
  ordered_before a b -> chronological_before a b.
Proof.
  intros Ha Hb [H | [H T]]; [left; exact H | right]. split; [exact H |].
  apply iso_leb_le; assumption.
Qed.

Lemma StronglySorted_within {A} (R R' : A -> A -> Prop) (l : list A) :
  (forall a b, In a l -> In b l -> R a b -> R' a b) ->
  StronglySorted R l -> StronglySorted R' l.
Proof.
  intros H S. induction S as [| x l S IH F]; constructor.
  - apply IH. intros a b Ha Hb. apply H; right; assumption.
  - apply Forall_forall. intros y Hy. apply H; [left; reflexivity | right; exact Hy |].
    rewrite Forall_forall in F. apply F. exact Hy.
Qed.

Lemma insert_sorted_perm (x : SyncQueueItem.t) (l : list SyncQueueItem.t) :
  Permutation (insert_sorted x l) (x :: l).
Proof.
  induction l as [|y rest IH]; cbn; [reflexivity|].
  destruct (queue_order x y); [reflexivity|].
  rewrite IH. apply perm_swap.
Qed.

Lemma order_by_task_and_time_perm (l : list SyncQueueItem.t) :
  Permutation (order_by_task_and_time l) l.
Proof.
  induction l as [|x rest IH]; cbn; [reflexivity|].
  rewrite insert_sorted_perm. constructor. exact IH.
Qed.

Lemma insert_sorted_sorted (x : SyncQueueItem.t) (l : list SyncQueueItem.t) :
  StronglySorted ordered_before l -> StronglySorted ordered_before (insert_sorted x l).
Proof.
  induction 1 as [|y rest Hs IH Hall]; cbn.
  - repeat constructor.
  - destruct (queue_order x y) eqn:E.
    + apply queue_order_spec in E. constructor.
      * constructor; assumption.
      * constructor; [exact E|].
        eapply Forall_impl; [|exact Hall].
        intros z Hz. eapply ordered_before_trans; eassumption.
    + apply queue_order_total, queue_order_spec in E. constructor; [exact IH|].
      eapply Permutation_Forall; [symmetry; apply insert_sorted_perm|].
      constructor; assumption.
Qed.

Lemma order_by_task_and_time_sorted (l : list SyncQueueItem.t) :
  StronglySorted ordered_before (order_by_task_and_time l).
Proof.
  induction l as [|x rest IH]; cbn; [constructor|].
  apply insert_sorted_sorted. exact IH.
Qed.

Lemma rebuild_queue_rows (rows : list SyncQueueItem.t) :
  map (fun row =>
         SyncQueueItem.make (SyncQueueItem.id row) (SyncQueueItem.task_id row)
           (SyncQueueItem.operation row) (SyncQueueItem.data row)
           (SyncQueueItem.created_at row) (SyncQueueItem.retry_count row)
           (SyncQueueItem.error_message row)) rows
  = rows.
Proof.
  induction rows as [|[] rest IH]; cbn; [reflexivity|]. rewrite IH. reflexivity.
Qed.

Lemma getSyncQueueItems_run (w : World) :
  getSyncQueueItems w = (Returned (sql_select_pending_queue (db w)), w).
Proof. unfold getSyncQueueItems. run. rewrite rebuild_queue_rows. reflexivity. Qed.

Lemma pending_queue_perm (d : Database) :
  Permutation (sql_select_pending_queue d)
    (filter (fun r => SyncQueueItem.retry_count r <? 3) (sync_queue d)).
Proof. apply order_by_task_and_time_perm. Qed.

Lemma in_pending_queue (d : Database) (x : SyncQueueItem.t) :
  In x (sql_select_pending_queue d) <->
  In x (sync_queue d) /\ SyncQueueItem.retry_count x < 3.
Proof.
  rewrite <- Z.ltb_lt.
  rewrite <- (filter_In (fun r => SyncQueueItem.retry_count r <? 3)).
  split; apply Permutation_in; [|symmetry]; apply pending_queue_perm.
Qed.

(** C9 (amended).  [getSyncQueueItems] returns, without touching the
    store, exactly the queue entries whose retry count is below 3 (each as
    often as the queue holds it), ordered by task id and, within a task, by
    the stored text of the creation time, byte-wise ascending; that is by
    creation time ascending when the creation times of the fetched entries
    lie in the years 0000 to 9999, whose texts are ordered as the times
    are. *)
Theorem C9_pending_entries_filtered_and_ordered (w : World) :
  exists items,
    getSyncQueueItems w = (Returned items, w) /\
    Permutation items
      (filter (fun r => SyncQueueItem.retry_count r <? maxRetries) (sync_queue (db w))) /\
    (forall x, In x items <->
               In x (sync_queue (db w)) /\ SyncQueueItem.retry_count x < 3) /\
    StronglySorted ordered_before items /\
    ((forall q, In q (sync_queue (db w)) -> SyncQueueItem.retry_count q < 3 ->
                four_digit_year (SyncQueueItem.created_at q)) ->
     StronglySorted chronological_before items).
Proof.
  exists (sql_select_pending_queue (db w)).
  split; [apply getSyncQueueItems_run|]. split; [apply pending_queue_perm|]. split.
  - intros x. apply in_pending_queue.
  - split; [apply order_by_task_and_time_sorted |].
    intros H. eapply StronglySorted_within; [| apply order_by_task_and_time_sorted].
    intros a b Ha Hb. apply in_pending_queue in Ha, Hb.
    apply ordered_before_chronological; apply H; tauto.
Qed.

Lemma C9_witness :
  exists items,
    getSyncQueueItems (Demo.client Demo.offline) = (Returned items, Demo.client Demo.offline) /\
    map SyncQueueItem.id items = ["q1"; "q2"; "q3"] /\
    StronglySorted chronological_before items.
Proof.
  destruct (C9_pending_entries_filtered_and_ordered (Demo.client Demo.offline))
    as (items & E & _ & _ & _ & S).
  exists items. split; [exact E |]. split.
  - rewrite getSyncQueueItems_run in E. injection E as <-. reflexivity.
  - apply S. intros q [<- | [<- | [<- | []]]] _;
      unfold four_digit_year, iso_first, iso_last; cbn; lia.
Defined.

Example toISOString_year_10000 :
  toISOString 253402300799999 = "9999-12-31T23:59:59.999Z" /\
  toISOString 253402300800000 = "+010000-01-01T00:00:00.000Z" /\
  toISOString (-62167219200000) = "0000-01-01T00:00:00.000Z" /\
  toISOString (-62167219200001) = "-000001-12-31T23:59:59.999Z".
Proof. vm_compute. repeat split. Qed.

(** An entry created in the year 10000 is fetched before an entry of the
    same task created in 2023: its text starts with a plus sign, which
    sorts before every digit. *)
Lemma C9_entry_created_in_year_10000_comes_first :
  getSyncQueueItems (mkWorld Demo.offline year_10000_db 0)
  = (Returned [entry_of_10000; entry_of_2023], mkWorld Demo.offline year_10000_db 0) /\
  SyncQueueItem.task_id entry_of_10000 = SyncQueueItem.task_id entry_of_2023 /\
  SyncQueueItem.created_at entry_of_2023 < SyncQueueItem.created_at entry_of_10000 /\
  ~ StronglySorted chronological_before [entry_of_10000; entry_of_2023].
Proof.
  split; [reflexivity |]. split; [reflexivity |]. split; [reflexivity |].
  intros S. inversion S as [| x l _ F]; subst. inversion F as [| y l' H _]; subst.
  destruct H as [H | [_ H]]; [discriminate |]. cbn in H. lia.
Qed.

(* ------------------------------------------------------------------ *)
(** ** Acknowledged entries *)

Lemma updateSyncStatus_synced_run (taskId : string) (serverData : option Task.t) (w : World) :
  updateSyncStatus taskId synced serverData w
  = (Returned tt,
     mkWorld (env w)
       (sql_delete_queue_by_task taskId
          (sql_mark_task synced (clock_src (env w) (tick w)) (server_id_of serverData)
             taskId (db w)))
       (S (tick w))).
Proof. reflexivity. Qed.

Lemma in_delete_queue_by_task (taskId : string) (d : Database) (q : SyncQueueItem.t) :
  In q (sync_queue (sql_delete_queue_by_task taskId d)) <->
  In q (sync_queue d) /\ SyncQueueItem.task_id q <> taskId.
Proof.
  unfold sql_delete_queue_by_task, with_sync_queue. cbn [sync_queue].
  rewrite filter_In, negb_true_iff, String.eqb_neq. reflexivity.
Qed.

Lemma applyOutcome_success_run
    (batch : list SyncQueueItem.t) (p : ProcessedItem.t) (w : World) (r : SyncResult.t) :
  ProcessedItem.status p = success ->
  applyOutcome batch p (w, r)
  = (Returned tt,
     (mkWorld (env w)
        (sql_delete_queue_by_task (ProcessedItem.client_id p)
           (sql_mark_task synced (clock_src (env w) (tick w))
              (server_id_of (ProcessedItem.resolved_data p))
              (ProcessedItem.client_id p) (db w)))
        (S (tick w)),
      count_synced r)).
Proof. intros Hs. unfold applyOutcome. rewrite Hs. reflexivity. Qed.



(** The outcome's own [server_id] field is not consulted: when the resolved
    data carries none, the task row keeps the [server_id] it had. *)
Example outcome_server_id_field_is_not_read :
  exists w',
    applyOutcome [] (ProcessedItem.make "t1" (Some "srv-1") success
                       (Some (Demo.titled "groceries")) None)
      (Demo.client Demo.acknowledging, initial_result)
    = (Returned tt, (w', count_synced initial_result)) /\
    map TaskRow.server_id (tasks (db w')) = [None; None].
Proof. eexists. split; reflexivity. Qed.

(* ------------------------------------------------------------------ *)
(** ** Retries and the dead-letter queue *)


Lemma handleSyncError_retry_run (item : SyncQueueItem.t) (message : string) (w : World) :
  SyncQueueItem.retry_count item + 1 < 3 ->
  handleSyncError item message w
  = (Returned tt,
     mkWorld (env w)
       (sql_set_task_status error (SyncQueueItem.task_id item)
          (sql_set_queue_retry (SyncQueueItem.retry_count item + 1) message
             (SyncQueueItem.id item) (db w)))
       (tick w)).
Proof.
  intros H. unfold handleSyncError, maxRetries.
  destruct (3 <=? SyncQueueItem.retry_count item + 1) eqn:E; [apply Z.leb_le in E; lia|].
  reflexivity.
Qed.

Lemma handleSyncError_terminal_run (item : SyncQueueItem.t) (message : string) (w : World) :
  3 <= SyncQueueItem.retry_count item + 1 ->
  handleSyncError item message w
  = (Returned tt,
     mkWorld (env w)
       (sql_delete_queue_by_id (SyncQueueItem.id item)
          (sql_set_task_status failed (SyncQueueItem.task_id item)
             (sql_insert_dead_letter
                (dead_letter_of (uuid_src (env w) (tick w)) message
                   (clock_src (env w) (S (tick w))) item)
                (sql_create_dead_letter_table (db w)))))
       (S (S (tick w)))).
Proof.
  intros H. unfold handleSyncError, maxRetries.
  destruct (3 <=? SyncQueueItem.retry_count item + 1) eqn:E; [|apply Z.leb_gt in E; lia].
  reflexivity.
Qed.

Lemma in_queue_after_retry (e : SyncQueueItem.t) (message : string) (d : Database) :
  In e (sync_queue d) ->
  In (failed_once message e)
     (sync_queue (sql_set_task_status error (SyncQueueItem.task_id e)
        (sql_set_queue_retry (SyncQueueItem.retry_count e + 1) message
           (SyncQueueItem.id e) d))).
Proof.
  intros H. cbn. apply in_map_iff. exists e. split; [|exact H].
  rewrite String.eqb_refl. reflexivity.
Qed.

Lemma status_after_set_task_status (st : SyncStatus) (task_id : string) (d : Database)
    (t : TaskRow.t) :
  In t (tasks (sql_set_task_status st task_id d)) -> TaskRow.id t = task_id ->
  TaskRow.sync_status t = st.
Proof.
  cbn. intros H Hid. apply in_map_iff in H. destruct H as (t0 & <- & _).
  destruct (String.eqb (TaskRow.id t0) task_id) eqn:E; [reflexivity|].
  apply String.eqb_neq in E. contradiction.
Qed.



Example three_failures_final_store :
  exists w1 w2 w3,
    handleSyncError (Demo.item "q1" "t1" "create" (Demo.titled "groceries")) "timeout"
      (Demo.client Demo.offline) = (Returned tt, w1) /\
    handleSyncError
      (failed_once "timeout" (Demo.item "q1" "t1" "create" (Demo.titled "groceries")))
      "timeout again" w1 = (Returned tt, w2) /\
    handleSyncError
      (failed_once "timeout again"
         (failed_once "timeout" (Demo.item "q1" "t1" "create" (Demo.titled "groceries"))))
      "gave up" w2 = (Returned tt, w3) /\
    map SyncQueueItem.id (sync_queue (db w3)) = ["q2"; "q3"] /\
    map TaskRow.sync_status (tasks (db w3)) = [failed; pending] /\
    dead_letter_queue (db w3)
    = Some [DeadLetter.make "uuid-0" "q1" "t1" "create" (Demo.titled "groceries") "gave up" 2
              1700000000001].
Proof.
  eexists _, _, _.
  split; [apply handleSyncError_retry_run; cbn; lia|].
  split; [apply handleSyncError_retry_run; cbn; lia|].
  split; [apply handleSyncError_terminal_run; cbn; lia|].
  cbn [db]. repeat split.
Qed.

(* ------------------------------------------------------------------ *)
(** ** A cycle against an unreachable remote *)

Lemma checkConnectivity_run (w : World) :
  checkConnectivity w
  = (Returned (match axios_get_health (env w) (tick w) with
               | Returned _ => true
               | Thrown _ => false
               end),
     next_tick w).
Proof.
  unfold checkConnectivity, try_catch, bind, axios_get, ret.
  destruct (axios_get_health (env w) (tick w)); reflexivity.
Qed.

Lemma sync_unreachable_run (w : World) :
  fst (checkConnectivity w) = Returned false ->
  sync w
  = (Returned (SyncResult.make false 0 0
                 [SyncError.make "" "connectivity" "Server unreachable"
                    (clock_src (env w) (S (tick w)))]),
     mkWorld (env w) (db w) (S (S (tick w)))).
Proof.
  intros H. unfold sync, try_catch, bind, lift. cbn [fst snd].
  rewrite checkConnectivity_run in *. cbn [fst] in H. injection H as H.
  rewrite H. reflexivity.
Qed.

(** C3. The connectivity probe never throws: it returns a boolean, [false]
    exactly when the health request failed.  When it reports the remote
    unreachable, [sync] returns a result with [success = false], no synced
    item and exactly one error, the connectivity error, and the store is
    left as it was: the sync queue holds the same rows with the same retry
    counts. *)
Theorem C3_unreachable_cycle_leaves_queue_untouched (w : World) :
  (exists online w',
      checkConnectivity w = (Returned online, w') /\ db w' = db w /\
      (online = false <-> exists m, axios_get_health (env w) (tick w) = Thrown m)) /\
  (fst (checkConnectivity w) = Returned false ->
   exists result w',
     sync w = (Returned result, w') /\
     SyncResult.success result = false /\
     SyncResult.synced_items result = 0 /\
     (exists e, SyncResult.errors result = [e] /\
                SyncError.operation e = "connectivity" /\
                SyncError.error e = "Server unreachable") /\
     sync_queue (db w') = sync_queue (db w) /\
     db w' = db w).
Proof.
  split.
  - eexists _, _. split; [apply checkConnectivity_run|]. split; [reflexivity|].
    destruct (axios_get_health (env w) (tick w)) as [[]|m].
    + split; [discriminate|]. intros [m H]. discriminate.
    + split; [|reflexivity]. intros _. exists m. reflexivity.
  - intros H. eexists _, _. split; [apply sync_unreachable_run; exact H|].
    cbn. repeat split. eexists. repeat split.
Qed.

(** A cycle of the demo client while the remote is down. *)
Lemma C3_witness :
  fst (checkConnectivity (Demo.client Demo.offline)) = Returned false /\
  exists result w',
    sync (Demo.client Demo.offline) = (Returned result, w') /\
    SyncResult.success result = false /\
    SyncResult.synced_items result = 0 /\
    List.length (SyncResult.errors result) = 1%nat /\
    sync_queue (db w') = sync_queue Demo.client_db.
Proof.
  split; [reflexivity|].
  destruct (C3_unreachable_cycle_leaves_queue_untouched (Demo.client Demo.offline))
    as [_ H].
  destruct (H eq_refl) as (result & w' & Hrun & Hs & Hn & (e & He & _) & Hq & _).
  exists result, w'. rewrite He. repeat split; assumption.
Defined.

(* ------------------------------------------------------------------ *)
(** ** Server-side create and update *)

Lemma getTask_run (id : string) (w : World) :
  TaskService.getTask id w
  = (Returned (option_map TaskService.mapRowToTask
                 (TaskService.sql_select_live_task id (db w))), w).
Proof.
  unfold TaskService.getTask. run.
  destruct (TaskService.sql_select_live_task id (db w)); reflexivity.
Qed.

Lemma string_or_undefined_idem (x : option string) :
  string_or_undefined (string_or_undefined x) = string_or_undefined x.
Proof.
  destruct x as [s|]; [|reflexivity]. cbn.
  destruct (truthy s) eqn:T; [|reflexivity]. cbn. rewrite T. reflexivity.
Qed.

Lemma createTask_run (taskData : Task.t) (w : World) (synced_at : option Z) :
  storable_last_synced_at taskData = Some synced_at ->
  let new_id := uuid_src (env w) (tick w) in
  let created := clock_src (env w) (S (tick w)) in
  let updated := clock_src (env w) (S (S (tick w))) in
  let task := created_task new_id created updated taskData in
  TaskService.createTask taskData w
  = (Returned task,
     mkWorld (env w)
       (sql_insert_queue (uuid_src (env w) (S (S (S (tick w))))) new_id "create"
          (JSON_roundtrip task) (clock_src (env w) (S (S (S (S (tick w))))))
          (TaskService.sql_insert_task
             (TaskRow.make new_id (string_or (Task.title taskData) "")
                (string_or (Task.description taskData) "")
                (bool_or_false (Task.completed taskData))
                created updated false pending
                (string_or_undefined (Task.server_id taskData)) synced_at)
             (db w)))
       (S (S (S (S (S (tick w))))))).
Proof.
  unfold storable_last_synced_at, TaskService.createTask, created_task. intros H. run.
  cbn [Task.server_id Task.last_synced_at]. rewrite string_or_undefined_idem.
  destruct (Task.last_synced_at taskData) as [[t|s]|]; cbn in *.
  - injection H as <-. reflexivity.
  - destruct (truthy s); [discriminate|]. injection H as <-. reflexivity.
  - injection H as <-. reflexivity.
Qed.

Lemma createTask_throws_on_text_date (taskData : Task.t) (w : World) (s : string) :
  Task.last_synced_at taskData = Some (DateStr s) -> s <> "" ->
  TaskService.createTask taskData w
  = (Thrown "task.last_synced_at.toISOString is not a function",
     mkWorld (env w) (db w) (S (S (S (tick w))))).
Proof.
  intros H Hs. unfold TaskService.createTask. run.
  cbn [Task.last_synced_at]. rewrite H. cbn.
  apply String.eqb_neq in Hs. unfold truthy. rewrite Hs. reflexivity.
Qed.

Lemma updateTask_run (id : string) (updates : Task.t) (w : World) (row : TaskRow.t)
    (synced_at : option Z) :
  TaskService.sql_select_live_task id (db w) = Some row ->
  storable_merged_last_synced_at row updates = Some synced_at ->
  let now := clock_src (env w) (tick w) in
  let updatedTask := updated_task now row updates in
  TaskService.updateTask id updates w
  = (Returned (Some updatedTask),
     mkWorld (env w)
       (sql_insert_queue (uuid_src (env w) (S (tick w))) id "update"
          (JSON_roundtrip updatedTask) (clock_src (env w) (S (S (tick w))))
          (TaskService.sql_update_task
             (string_or (Task.title updatedTask) "")
             (string_or (Task.description updatedTask) "")
             (bool_or_false (Task.completed updatedTask))
             now pending
             (string_or_undefined (Task.server_id updatedTask))
             synced_at id (db w)))
       (S (S (S (tick w))))).
Proof.
  intros Hrow Hs. unfold TaskService.updateTask, bind. rewrite getTask_run, Hrow.
  cbn [option_map]. run. fold (updated_task (clock_src (env w) (tick w)) row updates).
  unfold storable_merged_last_synced_at in Hs.
  cbn [updated_task Task.set_sync_status Task.set_updated_at Task.spread Task.last_synced_at
       TaskService.mapRowToTask].
  destruct (Task.last_synced_at updates) as [[t|s]|]; cbn [Task.orElse].
  - injection Hs as <-. reflexivity.
  - discriminate.
  - injection Hs as <-. destruct (TaskRow.last_synced_at row); reflexivity.
Qed.

Lemma updateTask_throws_on_text_date (id : string) (updates : Task.t) (w : World)
    (row : TaskRow.t) (s : string) :
  TaskService.sql_select_live_task id (db w) = Some row ->
  Task.last_synced_at updates = Some (DateStr s) ->
  TaskService.updateTask id updates w
  = (Thrown "updatedTask.last_synced_at.toISOString is not a function",
     mkWorld (env w) (db w) (S (tick w))).
Proof.
  intros Hrow Hs. unfold TaskService.updateTask, bind. rewrite getTask_run, Hrow.
  cbn [option_map]. run.
  cbn [Task.set_sync_status Task.set_updated_at Task.spread Task.last_synced_at].
  rewrite Hs. reflexivity.
Qed.

Lemma handleBatchUpdate_existing (item : SyncQueueItem.t) (w : World) (row : TaskRow.t) :
  TaskService.sql_select_live_task (SyncQueueItem.task_id item) (db w) = Some row ->
  handleBatchUpdate item w
  = try_catch
      (finalData <-
         (if server_is_newer (TaskRow.updated_at row) (client_time (env w) (SyncQueueItem.data item))
          then ret (TaskService.mapRowToTask row)
          else
            updatedTask <- TaskService.updateTask (SyncQueueItem.task_id item)
                             (SyncQueueItem.data item) ;;
            ret (match updatedTask with
                 | Some u => u
                 | None => TaskService.mapRowToTask row
                 end)) ;;
       ret (ProcessedItem.make (SyncQueueItem.task_id item) (server_id_or_id finalData)
              success (Some finalData) None))
      (fun message => ret (error_outcome item message)) w.
Proof.
  intros Hrow. unfold handleBatchUpdate, try_catch, bind at 1.
  rewrite getTask_run, Hrow. cbn [option_map TaskService.mapRowToTask Task.updated_at].
  unfold bind at 1. cbn [getTime ret]. unfold bind at 1.
  unfold time_of, client_time.
  destruct (Task.updated_at (SyncQueueItem.data item)) as [[t|s]|]; reflexivity.
Qed.

(** X1. The server version wins when it is strictly newer: nothing is
    written and the stored task is the resolved data. *)
Theorem handleBatchUpdate_server_wins (item : SyncQueueItem.t) (w : World) (row : TaskRow.t) :
  TaskService.sql_select_live_task (SyncQueueItem.task_id item) (db w) = Some row ->
  server_is_newer (TaskRow.updated_at row) (client_time (env w) (SyncQueueItem.data item)) = true ->
  handleBatchUpdate item w
  = (Returned (ProcessedItem.make (SyncQueueItem.task_id item)
                 (server_id_or_id (TaskService.mapRowToTask row)) success
                 (Some (TaskService.mapRowToTask row)) None),
     w).
Proof.
  intros Hrow Hnewer. rewrite (handleBatchUpdate_existing _ _ _ Hrow), Hnewer. reflexivity.
Qed.

(** X2. The client's update is applied otherwise (ties and NaN included),
    provided its [last_synced_at] can be stored: the live row takes the
    merged values and the merged task is the resolved data. *)
Theorem handleBatchUpdate_client_wins (item : SyncQueueItem.t) (w : World) (row : TaskRow.t)
    (synced_at : option Z) :
  TaskService.sql_select_live_task (SyncQueueItem.task_id item) (db w) = Some row ->
  server_is_newer (TaskRow.updated_at row) (client_time (env w) (SyncQueueItem.data item)) = false ->
  storable_merged_last_synced_at row (SyncQueueItem.data item) = Some synced_at ->
  let now := clock_src (env w) (tick w) in
  let updatedTask := updated_task now row (SyncQueueItem.data item) in
  exists w',
    handleBatchUpdate item w
    = (Returned (ProcessedItem.make (SyncQueueItem.task_id item)
                   (server_id_or_id updatedTask) success (Some updatedTask) None),
       w') /\
    tasks (db w')
    = tasks (TaskService.sql_update_task
               (string_or (Task.title updatedTask) "")
               (string_or (Task.description updatedTask) "")
               (bool_or_false (Task.completed updatedTask))
               now pending
               (string_or_undefined (Task.server_id updatedTask))
               synced_at (SyncQueueItem.task_id item) (db w)).
Proof.
  intros Hrow Hnewer Hs now updatedTask. eexists.
  rewrite (handleBatchUpdate_existing _ _ _ Hrow), Hnewer.
  unfold try_catch, bind. rewrite (updateTask_run _ _ _ _ _ Hrow Hs).
  split; reflexivity.
Qed.

(** C2. Failing case of the last-write-wins update: the server holds the
    task, its version is not strictly newer, and the payload carries
    [last_synced_at] as JSON leaves it, a string.  [updateTask] then throws
    on [updatedTask.last_synced_at?.toISOString()], nothing is written, and
    the outcome is an error instead of the applied update. *)
Theorem C2_update_with_text_last_synced_at_fails
    (item : SyncQueueItem.t) (w : World) (row : TaskRow.t) (s : string) :
  TaskService.sql_select_live_task (SyncQueueItem.task_id item) (db w) = Some row ->
  server_is_newer (TaskRow.updated_at row) (client_time (env w) (SyncQueueItem.data item)) = false ->
  Task.last_synced_at (SyncQueueItem.data item) = Some (DateStr s) ->
  exists w',
    handleBatchUpdate item w
    = (Returned (error_outcome item "updatedTask.last_synced_at.toISOString is not a function"),
       w') /\
    db w' = db w.
Proof.
  intros Hrow Hnewer Hs. eexists.
  rewrite (handleBatchUpdate_existing _ _ _ Hrow), Hnewer.
  unfold try_catch, bind. rewrite (updateTask_throws_on_text_date _ _ _ _ _ Hrow Hs).
  split; reflexivity.
Qed.

Lemma handleBatchUpdate_missing (item : SyncQueueItem.t) (w : World) :
  TaskService.sql_select_live_task (SyncQueueItem.task_id item) (db w) = None ->
  handleBatchUpdate item w
  = try_catch
      (task <- TaskService.createTask (SyncQueueItem.data item) ;;
       ret (ProcessedItem.make (SyncQueueItem.task_id item) (Task.id task) success
              (Some task) None))
      (fun message => ret (error_outcome item message)) w.
Proof.
  intros Hrow. unfold handleBatchUpdate, try_catch, bind at 1.
  rewrite getTask_run, Hrow. reflexivity.
Qed.

(** X3. An update of a task the server does not hold is a create, provided
    the payload's [last_synced_at] can be stored: a row with a fresh id is
    appended and the outcome carries that id. *)
Theorem handleBatchUpdate_falls_back_to_create (item : SyncQueueItem.t) (w : World)
    (synced_at : option Z) :
  TaskService.sql_select_live_task (SyncQueueItem.task_id item) (db w) = None ->
  storable_last_synced_at (SyncQueueItem.data item) = Some synced_at ->
  let new_id := uuid_src (env w) (tick w) in
  let task := created_task new_id (clock_src (env w) (S (tick w)))
                (clock_src (env w) (S (S (tick w)))) (SyncQueueItem.data item) in
  exists w' new_row,
    handleBatchUpdate item w
    = (Returned (ProcessedItem.make (SyncQueueItem.task_id item) (Some new_id) success
                   (Some task) None),
       w') /\
    tasks (db w') = (tasks (db w) ++ [new_row])%list /\
    TaskRow.id new_row = new_id /\
    TaskRow.title new_row = string_or (Task.title (SyncQueueItem.data item)) "".
Proof.
  intros Hrow Hs new_id task. eexists _, _.
  rewrite (handleBatchUpdate_missing _ _ Hrow).
  unfold try_catch, bind. rewrite (createTask_run _ _ _ Hs).
  split; [reflexivity|]. cbn. repeat split.
Qed.

(** C7. Failing case of the create fallback: the server holds no live task
    with the item's id and the payload carries a non-empty [last_synced_at]
    string.  [createTask] throws on [task.last_synced_at?.toISOString()]
    before its insert, so no entity is created and the outcome is an error. *)
Theorem C7_update_fallback_with_text_last_synced_at_fails
    (item : SyncQueueItem.t) (w : World) (s : string) :
  TaskService.sql_select_live_task (SyncQueueItem.task_id item) (db w) = None ->
  Task.last_synced_at (SyncQueueItem.data item) = Some (DateStr s) ->
  s <> "" ->
  exists w',
    handleBatchUpdate item w
    = (Returned (error_outcome item "task.last_synced_at.toISOString is not a function"), w') /\
    ProcessedItem.status (error_outcome item "task.last_synced_at.toISOString is not a function")
    = item_error /\
    db w' = db w.
Proof.
  intros Hrow Hs Hne. eexists.
  rewrite (handleBatchUpdate_missing _ _ Hrow).
  unfold try_catch, bind. rewrite (createTask_throws_on_text_date _ _ _ Hs Hne).
  repeat split.
Qed.

(** The snapshot of a task that was synced before, sent as an update of the
    task [t1] the server holds in an older version. *)
Lemma C2_witness :
  exists w',
    handleBatchUpdate (Demo.item "q9" "t1" "update" Demo.synced_snapshot) Demo.server
    = (Returned (ProcessedItem.make "t1" None item_error None
                   (Some "updatedTask.last_synced_at.toISOString is not a function")), w') /\
    db w' = Demo.server_db.
Proof.
  exact (C2_update_with_text_last_synced_at_fails
           (Demo.item "q9" "t1" "update" Demo.synced_snapshot) Demo.server
           (Demo.task_row "t1" "groceries" 1700000000000) "2024-01-01T12:00:00.000Z"
           eq_refl eq_refl eq_refl).
Defined.

(** The same snapshot sent as an update of a task the server never saw. *)
Lemma C7_witness :
  exists w',
    handleBatchUpdate (Demo.item "q9" "t7" "update" Demo.synced_snapshot) Demo.server
    = (Returned (ProcessedItem.make "t7" None item_error None
                   (Some "task.last_synced_at.toISOString is not a function")), w') /\
    item_error = item_error /\
    db w' = Demo.server_db.
Proof.
  refine (C7_update_fallback_with_text_last_synced_at_fails
            (Demo.item "q9" "t7" "update" Demo.synced_snapshot) Demo.server
            "2024-01-01T12:00:00.000Z" eq_refl eq_refl _).
  discriminate.
Defined.

Lemma update_without_last_synced_at_is_applied :
  exists w',
    handleBatchUpdate (Demo.item "q9" "t1" "update" (Demo.titled "more groceries")) Demo.server
    = (Returned (ProcessedItem.make "t1" (Some "t1") success
                   (Some (Task.make (Some "t1") (Some "more groceries") (Some "") (Some false)
                            (Some (DateObj 1600000000000)) (Some (DateObj 1700000000000))
                            (Some false) (Some pending) None None)) None), w') /\
    map TaskRow.title (tasks (db w')) = ["more groceries"].
Proof.
  destruct (handleBatchUpdate_client_wins
              (Demo.item "q9" "t1" "update" (Demo.titled "more groceries")) Demo.server
              (Demo.task_row "t1" "groceries" 1700000000000) None eq_refl eq_refl eq_refl)
    as (w' & Hrun & Ht).
  exists w'. split; [exact Hrun|]. rewrite Ht. reflexivity.
Defined.

(** An update written before the server's version loses: the stored task is
    answered and the world is as it was. *)
Lemma update_older_than_server_is_ignored :
  handleBatchUpdate
    (Demo.item "q9" "t1" "update"
       (Task.make None (Some "stale groceries") None None None
          (Some (DateStr "2023-01-01T00:00:00.000Z")) None None None None))
    Demo.server
  = (Returned (ProcessedItem.make "t1" (Some "t1") success
                 (Some (TaskService.mapRowToTask
                          (Demo.task_row "t1" "groceries" 1700000000000))) None),
     Demo.server).
Proof.
  exact (handleBatchUpdate_server_wins
           (Demo.item "q9" "t1" "update"
              (Task.make None (Some "stale groceries") None None None
                 (Some (DateStr "2023-01-01T00:00:00.000Z")) None None None None))
           Demo.server (Demo.task_row "t1" "groceries" 1700000000000) eq_refl eq_refl).
Defined.

(** An update of a task the server never saw, without [last_synced_at]:
    the task is created under a fresh id. *)
Lemma update_of_unknown_task_is_created :
  exists w' new_row,
    handleBatchUpdate (Demo.item "q9" "t7" "update" (Demo.titled "laundry")) Demo.server
    = (Returned (ProcessedItem.make "t7" (Some "uuid-0") success
                   (Some (created_task "uuid-0" 1700000000001 1700000000002
                            (Demo.titled "laundry"))) None), w') /\
    tasks (db w') = (tasks Demo.server_db ++ [new_row])%list /\
    TaskRow.id new_row = "uuid-0" /\
    TaskRow.title new_row = "laundry".
Proof.
  exact (handleBatchUpdate_falls_back_to_create
           (Demo.item "q9" "t7" "update" (Demo.titled "laundry")) Demo.server None
           eq_refl eq_refl).
Defined.

(* ------------------------------------------------------------------ *)
(** ** Validation of a batch request *)



(** Fingerprints computed by the model, as an independent SHA-256 gives
    them for the same texts. *)
Example checksum_of_one_create :
  SyncRoutes.calculateChecksum one_create
  = "77fc2148f29065b39eaa3502bd2d6c14adc62a6ff61aadb77bd9cb82e203efde".
Proof. vm_compute. reflexivity. Qed.

Example checksum_of_two_items_with_escapes :
  SyncService.calculateChecksum
    [Demo.item "q1" "t1" "create" (Demo.titled "groceries");
     Demo.item "q2" "t1" "update"
       (Task.make (Some "t1")
          (Some ("say " ++ String quote_char ("hi" ++ String quote_char
                                               (String (ascii_of_N 10) ""))))
          (Some ("a" ++ String backslash_char ("b" ++ String (ascii_of_N 9)
                                                ("c" ++ String (ascii_of_N 1) ""))))
          (Some true)
          (Some (DateStr "2024-01-01T00:00:00.000Z")) (Some (DateStr "2024-01-02T00:00:00.000Z"))
          (Some false) (Some in_progress) (Some "srv-1")
          (Some (DateStr "2024-01-01T12:00:00.000Z")))]
  = "d59ab3181ed8f78a6a9abd83f728ee1cd7cc0d77e0a2dd232ad9e19671795563".
Proof. vm_compute. reflexivity. Qed.


(** A batch of one create without checksum is processed: one success
    outcome with a server id, and one task row on the server. *)
Example batch_without_checksum_is_processed :
  exists p w',
    postBatch "/batch"
      (BatchBody.make (ItemsArray one_create) (Some "2024-01-01T00:00:00.000Z") None)
      (Demo.fresh Demo.offline)
    = (Returned (Response.make 200 (ProcessedBody [p])), w') /\
    ProcessedItem.status p = success /\
    ProcessedItem.server_id p = Some "uuid-0" /\
    map TaskRow.title (tasks (db w')) = ["groceries"].
Proof. eexists _, _. split; [reflexivity|]. repeat split. Qed.

(** An empty checksum string is taken as no checksum at all. *)
Example empty_checksum_is_not_checked :
  exists p w',
    postBatch "/batch"
      (BatchBody.make (ItemsArray one_create) (Some "2024-01-01T00:00:00.000Z") (Some ""))
      (Demo.fresh Demo.offline)
    = (Returned (Response.make 200 (ProcessedBody [p])), w') /\
    ProcessedItem.status p = success.
Proof. eexists _, _. split; reflexivity. Qed.

(* ------------------------------------------------------------------ *)
(** ** The batch checksum *)

Section StringFacts.

Lemma append_assoc (a b c : string) : (a ++ b) ++ c = a ++ (b ++ c).
Proof. induction a as [|x a IH]; cbn; [reflexivity|]. rewrite IH. reflexivity. Qed.

Lemma append_empty_r (a : string) : a ++ "" = a.
Proof. induction a as [|x a IH]; cbn; [reflexivity|]. rewrite IH. reflexivity. Qed.


Lemma append_inv_head (a b c : string) : a ++ b = a ++ c -> b = c.
Proof. induction a as [|x a IH]; cbn; [trivial|]. intros H. injection H as H. auto. Qed.


End StringFacts.

Lemma join_cons (sep p : string) (rest : list string) :
  join sep (p :: rest) = p ++ text_after sep rest.
Proof. destruct rest; cbn; [rewrite append_empty_r|]; reflexivity. Qed.





(** *** The digest has finitely many values *)

Section Pigeonhole.



End Pigeonhole.






(** *** The JSON text determines the data *)

Lemma unescape_head_escape (c : ascii) (rest : string) :
  unescape_head (json_escape_char c ++ rest) = Some (c, rest).
Proof.
  destruct c as [b0 b1 b2 b3 b4 b5 b6 b7].
  destruct b0, b1, b2, b3, b4, b5, b6, b7; reflexivity.
Qed.

Lemma unescape_head_quote (rest : string) : unescape_head (String quote_char rest) = None.
Proof. reflexivity. Qed.

Lemma json_escape_prefix (s s' r r' : string) :
  json_escape s ++ String quote_char r = json_escape s' ++ String quote_char r' ->
  s = s' /\ r = r'.
Proof.
  revert s'. induction s as [|c s IH]; intros [|c' s'] H; cbn [json_escape] in H.
  - cbn in H. injection H as H. split; [reflexivity|exact H].
  - rewrite append_assoc in H. apply (f_equal unescape_head) in H.
    rewrite unescape_head_escape in H. cbn [append] in H.
    rewrite unescape_head_quote in H. discriminate.
  - rewrite append_assoc in H. apply (f_equal unescape_head) in H.
    rewrite unescape_head_escape in H. cbn [append] in H.
    rewrite unescape_head_quote in H. discriminate.
  - rewrite !append_assoc in H. apply (f_equal unescape_head) in H.
    rewrite !unescape_head_escape in H. injection H as -> H.
    destruct (IH _ H) as [-> ->]. split; reflexivity.
Qed.

Lemma json_string_prefix (s s' r r' : string) :
  json_string s ++ r = json_string s' ++ r' -> s = s' /\ r = r'.
Proof.
  unfold json_string. cbn [append]. rewrite !append_assoc. cbn [append].
  intros H. injection H as H. apply json_escape_prefix. exact H.
Qed.

Lemma json_string_inj (s s' : string) : json_string s = json_string s' -> s = s'.
Proof.
  intros H. apply (json_string_prefix s s' "" ""). rewrite !append_empty_r. exact H.
Qed.

Lemma json_member_render {A} (key : string) (show : A -> string) (v : option A) :
  json_member key show v = map render (present [(key, option_map show v)]).
Proof. destruct v; reflexivity. Qed.

Lemma JSON_stringify_members (d : Task.t) :
  JSON_stringify d = "{" ++ join "," (map render (present (rendered_fields d))) ++ "}".
Proof.
  unfold JSON_stringify. rewrite !json_member_render. unfold present.
  rewrite <- !map_app, <- !flat_map_app. reflexivity.
Qed.

Lemma value_prefix (v v' r r' : string) :
  value_text v -> value_text v' -> delimited r -> delimited r' ->
  v ++ r = v' ++ r' -> v = v' /\ r = r'.
Proof.
  intros [[s ->]|[->| ->]] [[s' ->]|[->| ->]] (r0 & Hr) (r0' & Hr') H.
  - apply json_string_prefix in H. destruct H as [-> ->]. split; reflexivity.
  - unfold json_string in H. cbn in H. discriminate.
  - unfold json_string in H. cbn in H. discriminate.
  - unfold json_string in H. cbn in H. discriminate.
  - cbn in H. injection H as H. split; [reflexivity|exact H].
  - cbn in H. discriminate.
  - unfold json_string in H. cbn in H. discriminate.
  - cbn in H. discriminate.
  - cbn in H. injection H as H. split; [reflexivity|exact H].
Qed.

Lemma render_prefix (m m' : string * string) (r r' : string) :
  value_text (snd m) -> value_text (snd m') -> delimited r -> delimited r' ->
  render m ++ r = render m' ++ r' -> m = m' /\ r = r'.
Proof.
  destruct m as [k v], m' as [k' v']. unfold render. cbn [fst snd].
  intros Hv Hv' Hr Hr' H. rewrite !append_assoc in H.
  apply json_string_prefix in H. destruct H as [-> H].
  cbn [append] in H. injection H as H.
  destruct (value_prefix _ _ _ _ Hv Hv' Hr Hr' H) as [-> ->]. split; reflexivity.
Qed.

Lemma render_starts_with_quote (m : string * string) :
  exists rest, render m = String quote_char rest.
Proof. eexists. reflexivity. Qed.

Lemma members_inj (ps ps' : list (string * string)) :
  Forall (fun m => value_text (snd m)) ps ->
  Forall (fun m => value_text (snd m)) ps' ->
  join "," (map render ps) ++ "}" = join "," (map render ps') ++ "}" ->
  ps = ps'.
Proof.
  intros Hps. revert ps'. induction Hps as [|m ps Hm Hps IH]; intros ps' Hps' H.
  - destruct ps' as [|m' ps']; [reflexivity|]. cbn [map] in H. rewrite join_cons in H.
    destruct (render_starts_with_quote m') as (rest & E). rewrite E in H. discriminate.
  - destruct Hps' as [|m' ps' Hm' Hps'].
    + cbn [map] in H. rewrite join_cons in H.
      destruct (render_starts_with_quote m) as (rest & E). rewrite E in H. discriminate.
    + cbn [map] in H. rewrite !join_cons, !append_assoc in H.
      assert (D : forall l, delimited (text_after "," (map render l) ++ "}")).
      { intros [|x l]; eexists; [right|left]; reflexivity. }
      destruct (render_prefix _ _ _ _ Hm Hm' (D ps) (D ps') H) as [-> T].
      f_equal. destruct ps as [|x ps], ps' as [|x' ps']; try reflexivity;
        try (cbn in T; discriminate).
      apply IH; [exact Hps'|].
      cbn [map text_after] in T. cbn [append] in T. injection T as T.
      exact T.
Qed.

Lemma present_keys (fields : list (string * option string)) (m : string * string) :
  In m (present fields) -> In (fst m) (map fst fields).
Proof.
  unfold present. intros H. apply in_flat_map in H. destruct H as (p & Hp & Hm).
  destruct (snd p); [|contradiction]. destruct Hm as [<-|[]].
  cbn [fst]. apply (in_map fst). exact Hp.
Qed.

Lemma present_inj (l1 l2 : list (string * option string)) :
  map fst l1 = map fst l2 -> NoDup (map fst l1) ->
  present l1 = present l2 -> l1 = l2.
Proof.
  revert l2. induction l1 as [|[k v] l1 IH]; intros [|[k' v'] l2] Hk Hnd H;
    try discriminate; [reflexivity|].
  cbn [map fst] in Hk. injection Hk as <- Hk.
  cbn [map fst] in Hnd. inversion Hnd as [|? ? Hnot Hnd']. subst.
  unfold present in H. cbn [flat_map fst snd] in H. fold (present l1) (present l2) in H.
  destruct v as [x|], v' as [x'|]; cbn [app] in H.
  - injection H as -> H. f_equal. apply IH; assumption.
  - exfalso. apply Hnot. rewrite Hk.
    apply (present_keys l2 (k, x)). rewrite <- H. left. reflexivity.
  - exfalso. apply Hnot.
    apply (present_keys l1 (k, x')). rewrite H. left. reflexivity.
  - f_equal. apply IH; assumption.
Qed.

Lemma rendered_values (d : Task.t) :
  Forall (fun m => value_text (snd m)) (present (rendered_fields d)).
Proof.
  apply Forall_forall. intros [k v] H. cbn [snd]. unfold present in H.
  apply in_flat_map in H. destruct H as (p & Hp & Hm).
  destruct (snd p) as [x|] eqn:E; [|contradiction]. destruct Hm as [Hm|[]].
  injection Hm as _ <-. unfold rendered_fields in Hp. cbn [In] in Hp.
  assert (S : forall (o : option string), option_map json_string o = Some x -> value_text x).
  { intros [s|] Ho; [|discriminate]. injection Ho as <-. left. eexists. reflexivity. }
  assert (B : forall (o : option bool), option_map json_bool o = Some x -> value_text x).
  { intros [[]|] Ho; try discriminate; injection Ho as <-; right; auto. }
  assert (D : forall (o : option DateField), option_map json_date o = Some x -> value_text x).
  { intros [[t|s]|] Ho; try discriminate; injection Ho as <-; left; eexists; reflexivity. }
  repeat (destruct Hp as [<-|Hp]; [cbn [snd] in E; eauto|]); [|contradiction].
  destruct (Task.sync_status d); [|discriminate]. injection E as <-.
  left. eexists. reflexivity.
Qed.

Lemma some_eq {A} (a b : A) : Some a = Some b -> a = b.
Proof. intros H. injection H as H. exact H. Qed.

Lemma wire_date_fixed (x : option DateField) :
  option_map wire_date x = x -> x = None \/ exists s, x = Some (DateStr s).
Proof.
  destruct x as [[t|s]|]; cbn; intros H; [discriminate|right; eauto|left; reflexivity].
Qed.

Lemma json_date_inj (x y : option DateField) :
  option_map wire_date x = x -> option_map wire_date y = y ->
  option_map json_date x = option_map json_date y -> x = y.
Proof.
  intros Hx Hy. destruct (wire_date_fixed _ Hx) as [->|[s ->]];
    destruct (wire_date_fixed _ Hy) as [->|[s' ->]]; cbn; intros H;
    try discriminate; [reflexivity|].
  apply (some_eq (json_string s) (json_string s')), json_string_inj in H.
  subst. reflexivity.
Qed.

Lemma json_text_inj (x y : option string) :
  option_map json_string x = option_map json_string y -> x = y.
Proof.
  destruct x as [a|], y as [b|]; cbn; intros H; try discriminate; [|reflexivity].
  apply (some_eq (json_string a) (json_string b)), json_string_inj in H.
  subst. reflexivity.
Qed.

Lemma json_bool_inj (x y : option bool) :
  option_map json_bool x = option_map json_bool y -> x = y.
Proof. destruct x as [[]|], y as [[]|]; cbn; intros H; congruence. Qed.

Lemma json_status_inj (x y : option SyncStatus) :
  option_map (fun s => json_string (SyncStatus_text s)) x
  = option_map (fun s => json_string (SyncStatus_text s)) y -> x = y.
Proof.
  destruct x as [a|], y as [b|]; cbn; intros H; try discriminate; [|reflexivity].
  apply (some_eq (json_string (SyncStatus_text a)) (json_string (SyncStatus_text b))),
    json_string_inj in H.
  destruct a, b; cbn in H; congruence.
Qed.

(** Two task objects off the wire with the same JSON text are the same. *)
Lemma JSON_stringify_inj (d1 d2 : Task.t) :
  on_the_wire d1 -> on_the_wire d2 ->
  JSON_stringify d1 = JSON_stringify d2 -> d1 = d2.
Proof.
  intros W1 W2 E.
  assert (H : present (rendered_fields d1) = present (rendered_fields d2)).
  { apply members_inj; try apply rendered_values.
    apply (append_inv_head "{"). rewrite <- !JSON_stringify_members. exact E. }
  apply (present_inj (rendered_fields d1) (rendered_fields d2)) in H; [|reflexivity|].
  2:{ cbn. repeat constructor; cbn; intuition discriminate. }
  unfold on_the_wire, JSON_roundtrip in W1, W2.
  destruct d1, d2. cbn in *.
  injection W1 as C1 U1 L1. injection W2 as C2 U2 L2.
  unfold rendered_fields in H. cbn [Task.id Task.title Task.description Task.completed
    Task.created_at Task.updated_at Task.is_deleted Task.sync_status Task.server_id
    Task.last_synced_at] in H.
  injection H as Hid Htitle Hdesc Hcomp Hcreated Hupdated Hdel Hstatus Hserver Hsynced.
  apply json_text_inj in Hid, Htitle, Hdesc, Hserver.
  apply json_bool_inj in Hcomp, Hdel. apply json_status_inj in Hstatus.
  apply json_date_inj in Hcreated, Hupdated, Hsynced; try assumption.
  congruence.
Qed.

(** X9. The JSON text of a task snapshot off the wire determines the
    snapshot. *)
Theorem JSON_text_determines_snapshot (d1 d2 : Task.t) :
  on_the_wire d1 -> on_the_wire d2 ->
  JSON_stringify d1 = JSON_stringify d2 -> d1 = d2.
Proof. exact (JSON_stringify_inj d1 d2). Qed.

(** Two snapshots built apart that serialise alike are one snapshot. *)
Lemma JSON_text_determines_snapshot_example :
  Task.make None (Some (letters 3)) None None None None None None None None
  = Demo.titled "aaa".
Proof.
  exact (JSON_text_determines_snapshot
           (Task.make None (Some (letters 3)) None None None None None None None None)
           (Demo.titled "aaa") eq_refl eq_refl eq_refl).
Defined.

Lemma JSON_stringify_roundtrip (d : Task.t) :
  JSON_stringify (JSON_roundtrip d) = JSON_stringify d.
Proof.
  unfold JSON_stringify, JSON_roundtrip.
  cbn [Task.id Task.title Task.description Task.completed Task.created_at Task.updated_at
       Task.is_deleted Task.sync_status Task.server_id Task.last_synced_at].
  destruct (Task.created_at d) as [[?|?]|], (Task.updated_at d) as [[?|?]|],
    (Task.last_synced_at d) as [[?|?]|]; reflexivity.
Qed.

Lemma checksum_after_transport (items : list SyncQueueItem.t) :
  SyncRoutes.calculateChecksum (map over_the_wire items)
  = SyncService.calculateChecksum items.
Proof.
  unfold SyncRoutes.calculateChecksum, SyncService.calculateChecksum.
  rewrite map_map. do 2 f_equal. apply map_ext. intros item.
  unfold over_the_wire, with_data. cbn [SyncQueueItem.id SyncQueueItem.operation
    SyncQueueItem.data]. rewrite JSON_stringify_roundtrip. reflexivity.
Qed.

(** *** Fingerprints *)








(* ------------------------------------------------------------------ *)
(** ** Batches *)

Lemma batch_step_concat (size : option Z) (items : list SyncQueueItem.t)
    (batches : list (list SyncQueueItem.t)) (current : list SyncQueueItem.t) :
  let '(batches', current') := fold_left (batch_step size) items (batches, current) in
  (List.concat batches' ++ current' = List.concat batches ++ current ++ items)%list.
Proof.
  revert batches current. induction items as [|item items IH]; intros batches current.
  - cbn. rewrite app_nil_r. reflexivity.
  - cbn [fold_left batch_step]. destruct (batch_is_full size current).
    + specialize (IH (batches ++ [current])%list [item]).
      destruct (fold_left (batch_step size) items ((batches ++ [current])%list, [item])).
      rewrite IH, concat_app. cbn. rewrite app_nil_r, <- !app_assoc. reflexivity.
    + specialize (IH batches (current ++ [item])%list).
      destruct (fold_left (batch_step size) items (batches, (current ++ [item])%list)).
      rewrite IH, <- !app_assoc. reflexivity.
Qed.

Lemma batch_step_sizes (n : Z) (items : list SyncQueueItem.t)
    (batches : list (list SyncQueueItem.t)) (current : list SyncQueueItem.t) :
  1 <= n -> Forall (well_sized n) batches -> Z.of_nat (List.length current) <= n ->
  let '(batches', current') := fold_left (batch_step (Some n)) items (batches, current) in
  Forall (well_sized n) batches' /\ Z.of_nat (List.length current') <= n.
Proof.
  intros Hn. revert batches current.
  induction items as [|item items IH]; intros batches current Hb Hc.
  - cbn. split; assumption.
  - cbn [fold_left batch_step batch_is_full].
    destruct (n <=? Z.of_nat (List.length current)) eqn:E.
    + apply Z.leb_le in E. apply IH.
      * apply Forall_app. split; [exact Hb|]. constructor; [|constructor].
        split; [|exact Hc]. destruct current; [cbn in E; lia|discriminate].
      * cbn. lia.
    + apply Z.leb_gt in E. apply IH; [exact Hb|]. rewrite length_app. cbn. lia.
Qed.

(** X4. The batcher slices the fetched list into contiguous batches, in order:
    put end to end they are the list again; for a batch size of at least 1
    no batch is empty and none is longer than the size. *)
Theorem createBatches_partitions (size : option Z) (items : list SyncQueueItem.t) :
  List.concat (createBatches size items) = items /\
  (forall n, size = Some n -> 1 <= n -> Forall (well_sized n) (createBatches size items)).
Proof.
  unfold createBatches. split.
  - pose proof (batch_step_concat size items [] []) as H.
    destruct (fold_left (batch_step size) items ([], [])) as [batches current].
    cbn in H. destruct current as [|x current].
    + rewrite app_nil_r in H. exact H.
    + rewrite concat_app. cbn. rewrite app_nil_r. exact H.
  - intros n -> Hn.
    pose proof (batch_step_sizes n items [] [] Hn (Forall_nil _) ltac:(cbn; lia)) as H.
    destruct (fold_left (batch_step (Some n)) items ([], [])) as [batches current].
    destruct H as [Hb Hc]. destruct current as [|x current]; [exact Hb|].
    apply Forall_app. split; [exact Hb|]. constructor; [|constructor].
    split; [discriminate|exact Hc].
Qed.

Example createBatches_of_three_by_two :
  map (map SyncQueueItem.id) (createBatches (Some 2) (sync_queue Demo.client_db))
  = [["q1"; "q2"]; ["q3"]].
Proof. reflexivity. Qed.

(* ------------------------------------------------------------------ *)
(** ** Further transitions of the cycle *)

(** X5. A failure that does not exhaust the retries keeps the entry in the
    queue with its retry count incremented and the error message recorded,
    marks the owning task [error], and writes no dead letter. *)
Theorem handleSyncError_retry_keeps_entry
    (item : SyncQueueItem.t) (message : string) (w : World) :
  In item (sync_queue (db w)) ->
  SyncQueueItem.retry_count item + 1 < maxRetries ->
  exists w',
    handleSyncError item message w = (Returned tt, w') /\
    In (failed_once message item) (sync_queue (db w')) /\
    List.length (sync_queue (db w')) = List.length (sync_queue (db w)) /\
    (forall t, In t (tasks (db w')) -> TaskRow.id t = SyncQueueItem.task_id item ->
               TaskRow.sync_status t = error) /\
    dead_letter_queue (db w') = dead_letter_queue (db w).
Proof.
  intros Hin Hlt. unfold maxRetries in Hlt. eexists.
  split; [apply handleSyncError_retry_run; exact Hlt|]. cbn [db].
  split; [apply in_queue_after_retry; exact Hin|].
  split; [cbn; apply length_map|].
  split; [|reflexivity].
  intros t Ht Hid. eapply status_after_set_task_status; eassumption.
Qed.

Lemma handleSyncError_retry_keeps_entry_example :
  exists w',
    handleSyncError (Demo.item "q1" "t1" "create" (Demo.titled "groceries")) "timeout"
      (Demo.client Demo.offline) = (Returned tt, w') /\
    In (failed_once "timeout" (Demo.item "q1" "t1" "create" (Demo.titled "groceries")))
       (sync_queue (db w')) /\
    dead_letter_queue (db w') = None.
Proof.
  destruct (handleSyncError_retry_keeps_entry
              (Demo.item "q1" "t1" "create" (Demo.titled "groceries")) "timeout"
              (Demo.client Demo.offline) (or_introl eq_refl) eq_refl)
    as (w' & Hrun & Hin & _ & _ & Hd).
  exists w'. repeat split; assumption.
Defined.

(** X6. With the remote reachable and nothing pending, a cycle succeeds
    trivially and touches nothing. *)
Theorem sync_with_nothing_pending (w : World) :
  axios_get_health (env w) (tick w) = Returned tt ->
  (forall q, In q (sync_queue (db w)) -> 3 <= SyncQueueItem.retry_count q) ->
  sync w = (Returned (SyncResult.make true 0 0 []), next_tick w).
Proof.
  intros Hup Hnone.
  assert (E : sql_select_pending_queue (db w) = []).
  { destruct (sql_select_pending_queue (db w)) as [|x rest] eqn:E; [reflexivity|].
    assert (Hx : In x (sql_select_pending_queue (db w))) by (rewrite E; left; reflexivity).
    apply in_pending_queue in Hx. destruct Hx as [Hx Hr]. apply Hnone in Hx. lia. }
  unfold sync, try_catch, bind, lift. cbn [fst snd].
  rewrite checkConnectivity_run, Hup. cbn [negb fst snd].
  rewrite getSyncQueueItems_run. cbn [db next_tick]. rewrite E. reflexivity.
Qed.

Lemma sync_with_nothing_pending_example :
  sync (Demo.fresh Demo.acknowledging)
  = (Returned (SyncResult.make true 0 0 []), next_tick (Demo.fresh Demo.acknowledging)).
Proof.
  apply sync_with_nothing_pending; [reflexivity|]. intros q [].
Defined.

(* ------------------------------------------------------------------ *)
(** ** Isolation of item failures on the server *)

Lemma try_catch_error_outcome (item : SyncQueueItem.t) (m : Prog World ProcessedItem.t)
    (w : World) :
  (forall r w', m w = (Returned r, w') ->
                ProcessedItem.client_id r = SyncQueueItem.task_id item) ->
  exists r w',
    try_catch m (fun message => ret (error_outcome item message)) w = (Returned r, w') /\
    ProcessedItem.client_id r = SyncQueueItem.task_id item.
Proof.
  intros H. unfold try_catch. destruct (m w) as [[r|e] w'] eqn:E.
  - eexists _, _. split; [reflexivity|]. eapply H. reflexivity.
  - eexists _, _. split; reflexivity.
Qed.

Lemma bind_ret_client_id {A} (m : Prog World A) (f : A -> ProcessedItem.t) (id : string)
    (w w' : World) (r : ProcessedItem.t) :
  (forall a, ProcessedItem.client_id (f a) = id) ->
  bind m (fun a => ret (f a)) w = (Returned r, w') ->
  ProcessedItem.client_id r = id.
Proof.
  intros Hf. unfold bind, ret. destruct (m w) as [[a|e] w1]; intros H; [|discriminate].
  injection H as <- _. apply Hf.
Qed.

Lemma processItem_returns (item : SyncQueueItem.t) (w : World) :
  exists r w',
    processItem item w = (Returned r, w') /\
    ProcessedItem.client_id r = SyncQueueItem.task_id item.
Proof.
  unfold processItem. apply try_catch_error_outcome. intros r w' H.
  destruct (String.eqb (SyncQueueItem.operation item) "create");
    [|destruct (String.eqb (SyncQueueItem.operation item) "update");
      [|destruct (String.eqb (SyncQueueItem.operation item) "delete")]].
  - unfold handleBatchCreate in H.
    destruct (try_catch_error_outcome item
                (task <- TaskService.createTask (SyncQueueItem.data item) ;;
                 ret (ProcessedItem.make (SyncQueueItem.task_id item) (Task.id task) success
                        (Some task) None)) w) as (r0 & w0 & E & Hid).
    + intros r1 w1. apply bind_ret_client_id. reflexivity.
    + rewrite E in H. injection H as <- _. exact Hid.
  - unfold handleBatchUpdate in H.
    match type of H with try_catch ?m _ _ = _ =>
      destruct (try_catch_error_outcome item m w) as (r0 & w0 & E & Hid) end.
    + intros r1 w1. unfold bind at 1.
      destruct (TaskService.getTask (SyncQueueItem.task_id item) w) as [[[existing|]|e] w2];
        [| |discriminate].
      * unfold bind at 1.
        destruct (getTime "existingTask.updated_at" (Task.updated_at existing) w2)
          as [[serverTime|e] w3]; [|discriminate].
        unfold bind at 1.
        destruct (time_of (Task.updated_at (SyncQueueItem.data item)) w3)
          as [[clientTime|e] w4]; [|discriminate].
        apply bind_ret_client_id. reflexivity.
      * apply bind_ret_client_id. reflexivity.
    + rewrite E in H. injection H as <- _. exact Hid.
  - destruct (handleBatchDelete_outcome item w) as (b & w0 & _ & E).
    rewrite E in H. injection H as <- _. reflexivity.
  - unfold ret in H. injection H as <- _. reflexivity.
Qed.

(** X7. The batch loop never throws: whatever the items are, it answers one
    outcome per item, in order, each carrying its item's task id.  An item
    with an unrecognised operation gets an error outcome and leaves the
    store as it was. *)
Theorem processItems_answers_every_item (items : list SyncQueueItem.t) (w : World) :
  (exists results w',
      processItems items w = (Returned results, w') /\
      map ProcessedItem.client_id results = map SyncQueueItem.task_id items) /\
  (forall item,
      SyncQueueItem.operation item <> "create" ->
      SyncQueueItem.operation item <> "update" ->
      SyncQueueItem.operation item <> "delete" ->
      processItem item w
      = (Returned (error_outcome item ("Unknown operation: " ++ SyncQueueItem.operation item)),
         w)).
Proof.
  split.
  - revert w. induction items as [|item items IH]; intros w.
    + eexists _, _. split; reflexivity.
    + destruct (processItem_returns item w) as (r & w1 & E1 & Hid).
      destruct (IH w1) as (rs & w2 & E2 & Hids).
      exists (r :: rs), w2. cbn [processItems]. unfold bind. rewrite E1, E2.
      split; [reflexivity|]. cbn. rewrite Hid, Hids. reflexivity.
  - intros item Hc Hu Hd. unfold processItem, try_catch.
    apply String.eqb_neq in Hc, Hu, Hd. rewrite Hc, Hu, Hd. reflexivity.
Qed.

(* ------------------------------------------------------------------ *)
(** ** A batch whose request fails *)

Lemma handleSyncError_returns (item : SyncQueueItem.t) (message : string) (w : World) :
  fst (handleSyncError item message w) = Returned tt.
Proof.
  destruct (Z_lt_le_dec (SyncQueueItem.retry_count item + 1) 3) as [H|H].
  - rewrite (handleSyncError_retry_run _ _ _ H). reflexivity.
  - rewrite (handleSyncError_terminal_run _ _ _ H). reflexivity.
Qed.

Lemma failItem_run (message : string) (item : SyncQueueItem.t) (s : World * SyncResult.t) :
  failItem message item s = (Returned tt, fail_step message s item).
Proof.
  unfold failItem, fail_step, bind, lift, update_result, report_error, new_Date, ret.
  pose proof (handleSyncError_returns item message (fst s)) as H.
  destruct (handleSyncError item message (fst s)) as [[[]|e] w1]; [|discriminate].
  reflexivity.
Qed.

Lemma fail_each_run (message : string) (batch : list SyncQueueItem.t)
    (s : World * SyncResult.t) :
  for_each batch (failItem message) s = (Returned tt, fold_left (fail_step message) batch s).
Proof.
  revert s. induction batch as [|item batch IH]; intros s; [reflexivity|].
  cbn [for_each fold_left]. unfold bind. rewrite failItem_run. apply IH.
Qed.

Lemma fail_each_counts (message : string) (batch : list SyncQueueItem.t)
    (s : World * SyncResult.t) :
  let r' := snd (fold_left (fail_step message) batch s) in
  SyncResult.failed_items r' = SyncResult.failed_items (snd s) + Z.of_nat (List.length batch) /\
  SyncResult.synced_items r' = SyncResult.synced_items (snd s) /\
  map SyncError.task_id (SyncResult.errors r')
  = (map SyncError.task_id (SyncResult.errors (snd s)) ++ map SyncQueueItem.task_id batch)%list.
Proof.
  revert s. induction batch as [|item batch IH]; intros s.
  - cbn. rewrite app_nil_r. repeat split. lia.
  - cbn [fold_left]. destruct (IH (fail_step message s item)) as (Hf & Hs & He).
    cbn zeta. rewrite Hf, Hs, He. cbn. rewrite map_app, <- app_assoc. cbn.
    repeat split. lia.
Qed.

(** X8. When the request of a batch fails as a whole, every item of the
    batch, in order, goes through [handleSyncError] with the failure's message and
    is counted and reported as failed; nothing is counted as synced. *)
Theorem syncBatch_request_failure_fails_every_item
    (batch : list SyncQueueItem.t) (w w1 : World) (r : SyncResult.t) (message : string) :
  processBatch batch w = (Thrown message, w1) ->
  exists w' r',
    syncBatch batch (w, r) = (Returned tt, (w', r')) /\
    (w', r') = fold_left (fail_step message) batch (w1, r) /\
    SyncResult.failed_items r' = SyncResult.failed_items r + Z.of_nat (List.length batch) /\
    SyncResult.synced_items r' = SyncResult.synced_items r /\
    map SyncError.task_id (SyncResult.errors r')
    = (map SyncError.task_id (SyncResult.errors r) ++ map SyncQueueItem.task_id batch)%list.
Proof.
  intros H.
  destruct (fold_left (fail_step message) batch (w1, r)) as [w' r'] eqn:E.
  exists w', r'. unfold syncBatch, try_catch, bind, lift. cbn [fst snd]. rewrite H.
  rewrite fail_each_run, E. split; [reflexivity|]. split; [reflexivity|].
  pose proof (fail_each_counts message batch (w1, r)) as C. rewrite E in C. exact C.
Qed.

Lemma syncBatch_request_failure_example :
  exists w' r',
    syncBatch (sync_queue Demo.client_db) (Demo.client Demo.offline, initial_result)
    = (Returned tt, (w', r')) /\
    SyncResult.failed_items r' = 3 /\
    SyncResult.synced_items r' = 0 /\
    map SyncError.task_id (SyncResult.errors r') = ["t1"; "t1"; "t2"].
Proof.
  destruct (syncBatch_request_failure_fails_every_item (sync_queue Demo.client_db)
              (Demo.client Demo.offline) _ initial_result "connect ECONNREFUSED" eq_refl)
    as (w' & r' & Hrun & _ & Hf & Hs & He).
  exists w', r'. repeat split; assumption.
Defined.

(* ------------------------------------------------------------------ *)
(** ** Three failing cycles, end to end *)

Lemma mark_in_progress_run (items : list SyncQueueItem.t) (w : World) :
  for_each items (fun item =>
    db_run (sql_set_task_status in_progress (SyncQueueItem.task_id item))) w
  = (Returned tt,
     mkWorld (env w)
       (fold_left (fun d item => sql_set_task_status in_progress (SyncQueueItem.task_id item) d)
          items (db w))
       (tick w)).
Proof.
  revert w. induction items as [|item items IH]; intros w.
  - destruct w. reflexivity.
  - cbn [for_each fold_left]. unfold bind, db_run at 1. rewrite IH. reflexivity.
Qed.

Lemma processBatch_request_fails (batch : list SyncQueueItem.t) (w : World) (message : string) :
  remote_rejects_batches message (env w) ->
  processBatch batch w
  = (Thrown message,
     mkWorld (env w)
       (fold_left (fun d item => sql_set_task_status in_progress (SyncQueueItem.task_id item) d)
          batch (db w))
       (S (S (tick w)))).
Proof.
  intros [_ Hpost]. unfold processBatch, bind. rewrite mark_in_progress_run.
  unfold new_Date, axios_post. cbn [env db tick next_tick]. rewrite Hpost. reflexivity.
Qed.

Lemma handleSyncError_db (item : SyncQueueItem.t) (message : string) (w : World) :
  exists dlqId failed_at w',
    handleSyncError item message w = (Returned tt, w') /\
    env w' = env w /\
    db w' = fail_db dlqId failed_at item message (db w).
Proof.
  exists (uuid_src (env w) (tick w)), (clock_src (env w) (S (tick w))).
  unfold fail_db. destruct (3 <=? SyncQueueItem.retry_count item + 1) eqn:E.
  - apply Z.leb_le in E. rewrite (handleSyncError_terminal_run _ _ _ E).
    eexists. repeat split.
  - apply Z.leb_gt in E. rewrite (handleSyncError_retry_run _ _ _ E).
    eexists. repeat split.
Qed.

(** One cycle over a queue that holds a single, pending entry, against a
    remote that answers the probe and fails every batch request. *)
Lemma sync_single_entry_fails (w : World) (entry : SyncQueueItem.t) (message : string) :
  remote_rejects_batches message (env w) ->
  sync_queue (db w) = [entry] ->
  SyncQueueItem.retry_count entry < 3 ->
  exists result w' dlqId failed_at,
    sync w = (Returned result, w') /\
    env w' = env w /\
    db w' = fail_db dlqId failed_at entry message
              (sql_set_task_status in_progress (SyncQueueItem.task_id entry) (db w)) /\
    SyncResult.success result = false /\
    SyncResult.failed_items result = 1 /\
    SyncResult.synced_items result = 0.
Proof.
  intros Hremote Hq Hr. pose proof Hremote as [Hhealth _].
  assert (Hp : sql_select_pending_queue (db w) = [entry]).
  { unfold sql_select_pending_queue. rewrite Hq. cbn [filter].
    apply Z.ltb_lt in Hr. rewrite Hr. reflexivity. }
  assert (Hbatch : forall (w0 : World) (r0 : SyncResult.t) (batch : list SyncQueueItem.t),
             env w0 = env w ->
             syncBatch batch (w0, r0)
             = (Returned tt,
                fold_left (fail_step message) batch
                  (mkWorld (env w0)
                     (fold_left (fun d item =>
                                   sql_set_task_status in_progress (SyncQueueItem.task_id item) d)
                        batch (db w0))
                     (S (S (tick w0))), r0))).
  { intros w0 r0 batch Henv. unfold syncBatch, try_catch, bind, lift. cbn [fst snd].
    rewrite (processBatch_request_fails batch w0 message) by (rewrite Henv; exact Hremote).
    apply fail_each_run. }
  unfold sync, try_catch, bind, lift. cbn [fst snd].
  rewrite checkConnectivity_run, Hhealth. cbn [negb fst snd].
  rewrite getSyncQueueItems_run. cbn [db next_tick env]. rewrite Hp.
  unfold batch_size_of. cbn [fst snd env].
  unfold createBatches. cbn [fold_left batch_step].
  change (env (next_tick w)) with (env w).
  destruct (batch_is_full (batchSize (env w)) []); cbn [app for_each]; unfold bind.
  - rewrite Hbatch by reflexivity. cbn [fold_left db env tick].
    rewrite Hbatch by reflexivity. cbn [fold_left db env tick next_tick].
    unfold fail_step. cbn [fst snd].
    match goal with |- context [handleSyncError entry message ?w0] =>
      destruct (handleSyncError_db entry message w0) as (u & t & w1 & E & Henv & Hdb) end.
    rewrite E. unfold ret, read_result, update_result. cbn [fst snd].
    eexists _, _, u, t. split; [reflexivity|]. cbn [env db next_tick].
    split; [exact Henv|]. split; [exact Hdb|]. repeat split.
  - rewrite Hbatch by reflexivity. cbn [fold_left db env tick next_tick].
    unfold fail_step. cbn [fst snd].
    match goal with |- context [handleSyncError entry message ?w0] =>
      destruct (handleSyncError_db entry message w0) as (u & t & w1 & E & Henv & Hdb) end.
    rewrite E. unfold ret, read_result, update_result. cbn [fst snd].
    eexists _, _, u, t. split; [reflexivity|]. cbn [env db next_tick].
    split; [exact Henv|]. split; [exact Hdb|]. repeat split.
Qed.

Lemma fail_db_retry_queue (u : string) (t : Z) (entry : SyncQueueItem.t) (message : string)
    (d : Database) (st : SyncStatus) :
  sync_queue d = [entry] -> SyncQueueItem.retry_count entry + 1 < 3 ->
  sync_queue (fail_db u t entry message
                (sql_set_task_status st (SyncQueueItem.task_id entry) d))
  = [failed_once message entry].
Proof.
  intros Hq Hr. unfold fail_db.
  destruct (3 <=? SyncQueueItem.retry_count entry + 1) eqn:E; [apply Z.leb_le in E; lia|].
  cbn. rewrite Hq. cbn. rewrite String.eqb_refl. reflexivity.
Qed.

(** X10. A store whose queue holds one entry that has not failed yet goes
    through three cycles against a remote that answers the probe and
    fails every batch request.  Each cycle reports failure; the first two
    leave the entry queued with retry counts 1 and 2; after the third the
    queue is empty, the dead-letter table holds a record of the entry with
    the error message, and every task row of the owning task is [failed]. *)
Theorem three_failing_cycles_dead_letter_the_entry
    (w : World) (entry : SyncQueueItem.t) (message : string) :
  remote_rejects_batches message (env w) ->
  sync_queue (db w) = [entry] ->
  SyncQueueItem.retry_count entry = 0 ->
  exists r1 w1 r2 w2 r3 w3,
    sync w = (Returned r1, w1) /\
    sync w1 = (Returned r2, w2) /\
    sync w2 = (Returned r3, w3) /\
    SyncResult.success r1 = false /\
    SyncResult.success r2 = false /\
    SyncResult.success r3 = false /\
    sync_queue (db w1) = [failed_once message entry] /\
    sync_queue (db w2) = [failed_once message (failed_once message entry)] /\
    sync_queue (db w3) = [] /\
    (exists rows d,
        dead_letter_queue (db w3) = Some rows /\ In d rows /\
        DeadLetter.original_queue_id d = SyncQueueItem.id entry /\
        DeadLetter.error_message d = message) /\
    (forall t, In t (tasks (db w3)) -> TaskRow.id t = SyncQueueItem.task_id entry ->
               TaskRow.sync_status t = failed).
Proof.
  intros Hremote Hq H0.
  destruct (sync_single_entry_fails w entry message Hremote Hq ltac:(lia))
    as (r1 & w1 & u1 & t1 & E1 & Henv1 & Hdb1 & Hs1 & _).
  assert (Hq1 : sync_queue (db w1) = [failed_once message entry]).
  { rewrite Hdb1. apply fail_db_retry_queue; [exact Hq|lia]. }
  destruct (sync_single_entry_fails w1 (failed_once message entry) message
              ltac:(rewrite Henv1; exact Hremote) Hq1 ltac:(cbn; lia))
    as (r2 & w2 & u2 & t2 & E2 & Henv2 & Hdb2 & Hs2 & _).
  assert (Hq2 : sync_queue (db w2) = [failed_once message (failed_once message entry)]).
  { rewrite Hdb2. apply fail_db_retry_queue; [exact Hq1|cbn; lia]. }
  destruct (sync_single_entry_fails w2 (failed_once message (failed_once message entry)) message
              ltac:(rewrite Henv2, Henv1; exact Hremote) Hq2 ltac:(cbn; lia))
    as (r3 & w3 & u3 & t3 & E3 & Henv3 & Hdb3 & Hs3 & _).
  exists r1, w1, r2, w2, r3, w3.
  repeat (split; [assumption|]).
  unfold fail_db in Hdb3.
  cbn [failed_once SyncQueueItem.retry_count SyncQueueItem.id SyncQueueItem.task_id] in Hdb3.
  destruct (3 <=? SyncQueueItem.retry_count entry + 1 + 1 + 1) eqn:E;
    [|apply Z.leb_gt in E; lia].
  rewrite Hdb3. split; [|split].
  - cbn. rewrite Hq2. cbn. rewrite String.eqb_refl. reflexivity.
  - cbn. destruct (dead_letter_queue (db w2)) as [rows|]; eexists _, _;
      (split; [reflexivity|]); (split; [apply in_or_app; right; left; reflexivity|]);
      split; reflexivity.
  - intros t Ht Hid. eapply status_after_set_task_status; [|exact Hid]. exact Ht.
Qed.

(** A client store with one queued create, against a remote whose batch
    endpoint is down. *)
Lemma three_failing_cycles_example :
  exists r1 w1 r2 w2 r3 w3,
    sync (mkWorld Demo.rejecting Demo.one_entry_db 0) = (Returned r1, w1) /\
    sync w1 = (Returned r2, w2) /\
    sync w2 = (Returned r3, w3) /\
    sync_queue (db w3) = [] /\
    (forall t, In t (tasks (db w3)) -> TaskRow.id t = "t1" -> TaskRow.sync_status t = failed).
Proof.
  destruct (three_failing_cycles_dead_letter_the_entry
              (mkWorld Demo.rejecting Demo.one_entry_db 0)
              (Demo.item "q1" "t1" "create" (Demo.titled "groceries")) "Request failed"
              (conj (fun _ => eq_refl) (fun _ _ => eq_refl)) eq_refl eq_refl)
    as (r1 & w1 & r2 & w2 & r3 & w3 & E1 & E2 & E3 & _ & _ & _ & _ & _ & Hq & _ & Ht).
  exists r1, w1, r2, w2, r3, w3. repeat split; assumption.
Defined.

(* ------------------------------------------------------------------ *)
(** ** The snapshot the client sends for a task synced before *)

(** Updating, on the client, a task that was synced before enqueues a
    snapshot whose [last_synced_at] is the ISO text of the stored time; the
    server answers that item with an error, whether it holds the task or
    not. *)
Example client_update_snapshot_is_refused :
  exists w' queued,
    snd (TaskService.updateTask "t1" (Demo.titled "more groceries")
           (mkWorld Demo.offline Demo.synced_client_db 0)) = w' /\
    sync_queue (db w') = [queued] /\
    SyncQueueItem.operation queued = "update" /\
    Task.last_synced_at (SyncQueueItem.data queued)
    = Some (DateStr "2024-01-01T12:00:00.000Z") /\
    ProcessedItem.status (match fst (handleBatchUpdate queued Demo.server) with
                          | Returned r => r
                          | Thrown _ => error_outcome queued ""
                          end) = item_error /\
    ProcessedItem.status (match fst (handleBatchUpdate queued (Demo.fresh Demo.offline)) with
                          | Returned r => r
                          | Thrown _ => error_outcome queued ""
                          end) = item_error.
Proof.
  eexists _, _. split; [reflexivity|]. split; [vm_compute; reflexivity|].
  repeat split.
Qed.

(* ------------------------------------------------------------------ *)
(** ** What a program never does to its state *)

Section Keeps.

Context {S : Type} (R : S -> S -> Prop).
Hypothesis R_refl : forall s, R s s.
Hypothesis R_trans : forall s1 s2 s3, R s1 s2 -> R s2 s3 -> R s1 s3.

Lemma keeps_ret {A} (a : A) : keeps R (ret a).
Proof using R_refl. intros s. apply R_refl. Qed.

Lemma keeps_throw {A} (e : string) : keeps R (@throw S A e).
Proof using R_refl. intros s. apply R_refl. Qed.

Lemma keeps_bind {A B} (m : Prog S A) (k : A -> Prog S B) :
  keeps R m -> (forall a, keeps R (k a)) -> keeps R (bind m k).
Proof using R_trans.
  intros Hm Hk s. unfold bind. specialize (Hm s).
  destruct (m s) as [[a | e] s']; cbn [snd] in *.
  - eapply R_trans; [exact Hm | apply Hk].
  - exact Hm.
Qed.

Lemma keeps_try_catch {A} (m : Prog S A) (handler : string -> Prog S A) :
  keeps R m -> (forall e, keeps R (handler e)) -> keeps R (try_catch m handler).
Proof using R_trans.
  intros Hm Hh s. unfold try_catch. specialize (Hm s).
  destruct (m s) as [[a | e] s']; cbn [snd] in *.
  - exact Hm.
  - eapply R_trans; [exact Hm | apply Hh].
Qed.

Lemma keeps_for_each {A} (xs : list A) (body : A -> Prog S unit) :
  (forall x, keeps R (body x)) -> keeps R (for_each xs body).
Proof using R_refl R_trans.
  intros Hb. induction xs as [| x rest IH]; cbn [for_each].
  - apply keeps_ret.
  - apply keeps_bind; [apply Hb | intros _; exact IH].
Qed.

End Keeps.

Section StoreFrames.

Variable D : Database -> Database -> Prop.
Hypothesis D_refl : forall d, D d d.
Hypothesis D_trans : forall d1 d2 d3, D d1 d2 -> D d2 d3 -> D d1 d3.

Lemma between_stores_refl (w : World) : between_stores D w w.
Proof using D_refl. split; [reflexivity | apply D_refl]. Qed.

Lemma between_stores_trans (w1 w2 w3 : World) :
  between_stores D w1 w2 -> between_stores D w2 w3 -> between_stores D w1 w3.
Proof using D_trans.
  intros [E1 H1] [E2 H2]. split; [congruence | eapply D_trans; eassumption].
Qed.

Lemma keeps_db_run (stmt : Database -> Database) :
  (forall d, D d (stmt d)) -> keeps (between_stores D) (db_run stmt).
Proof. intros H w. split; [reflexivity | apply H]. Qed.

Lemma keeps_db_query {A} (q : Database -> A) : keeps (between_stores D) (db_query q).
Proof using D_refl. intros w. apply between_stores_refl. Qed.

Lemma keeps_uuidv4 : keeps (between_stores D) uuidv4.
Proof using D_refl. intros w. split; [reflexivity | apply D_refl]. Qed.

Lemma keeps_new_Date : keeps (between_stores D) new_Date.
Proof using D_refl. intros w. split; [reflexivity | apply D_refl]. Qed.

Lemma keeps_lift {A} (m : Prog World A) :
  keeps (between_stores D) m -> keeps (on_world (between_stores D)) (lift m).
Proof.
  intros H [w r]. unfold lift, on_world. cbn [fst]. specialize (H w).
  destruct (m w) as [o w']. exact H.
Qed.

Lemma keeps_update_result (f : SyncResult.t -> SyncResult.t) :
  keeps (on_world (between_stores D)) (update_result f).
Proof using D_refl. intros [w r]. apply between_stores_refl. Qed.

Lemma on_world_refl (s : World * SyncResult.t) : on_world (between_stores D) s s.
Proof using D_refl. apply between_stores_refl. Qed.

Lemma on_world_trans (s1 s2 s3 : World * SyncResult.t) :
  on_world (between_stores D) s1 s2 -> on_world (between_stores D) s2 s3 ->
  on_world (between_stores D) s1 s3.
Proof using D_trans. apply between_stores_trans. Qed.

End StoreFrames.

(* ------------------------------------------------------------------ *)
(** ** What a cycle never does to the client's store *)

Lemma synchronised_from_refl (d : Database) : synchronised_from d d.
Proof.
  split; [reflexivity | split].
  - intros q Hq. exists q. split; [exact Hq | reflexivity].
  - exists []. symmetry. apply app_nil_r.
Qed.

Lemma synchronised_from_trans (d1 d2 d3 : Database) :
  synchronised_from d1 d2 -> synchronised_from d2 d3 -> synchronised_from d1 d3.
Proof.
  intros (T1 & Q1 & m1 & L1) (T2 & Q2 & m2 & L2). split; [congruence | split].
  - intros q3 H3. destruct (Q2 q3 H3) as (q2 & H2 & E2).
    destruct (Q1 q2 H2) as (q1 & H1 & E1). exists q1. split; [exact H1 | congruence].
  - exists (m1 ++ m2)%list. rewrite L2, L1. symmetry. apply app_assoc.
Qed.

Lemma map_content_unchanged (f : TaskRow.t -> TaskRow.t) (l : list TaskRow.t) :
  (forall r, task_content (f r) = task_content r) ->
  map task_content (map f l) = map task_content l.
Proof. intros H. rewrite map_map. apply map_ext. exact H. Qed.

Lemma synchronised_set_task_status (st : SyncStatus) (task_id : string) (d : Database) :
  synchronised_from d (sql_set_task_status st task_id d).
Proof.
  split; [| exact (proj2 (synchronised_from_refl d))].
  apply map_content_unchanged. intros r.
  destruct (String.eqb (TaskRow.id r) task_id); reflexivity.
Qed.

Lemma synchronised_mark_task (st : SyncStatus) (now : Z) (sid : option string)
    (taskId : string) (d : Database) :
  synchronised_from d (sql_mark_task st now sid taskId d).
Proof.
  split; [| exact (proj2 (synchronised_from_refl d))].
  apply map_content_unchanged. intros r.
  destruct (String.eqb (TaskRow.id r) taskId); reflexivity.
Qed.

Lemma synchronised_with_filtered_queue (p : SyncQueueItem.t -> bool) (d : Database) :
  synchronised_from d (with_sync_queue (filter p) d).
Proof.
  split; [reflexivity | split].
  - intros q Hq. apply filter_In in Hq. exists q. split; [apply Hq | reflexivity].
  - exists []. symmetry. apply app_nil_r.
Qed.

Lemma synchronised_delete_queue_by_task (taskId : string) (d : Database) :
  synchronised_from d (sql_delete_queue_by_task taskId d).
Proof. apply synchronised_with_filtered_queue. Qed.

Lemma synchronised_delete_queue_by_id (id : string) (d : Database) :
  synchronised_from d (sql_delete_queue_by_id id d).
Proof. apply synchronised_with_filtered_queue. Qed.

Lemma synchronised_set_queue_retry (retryCount : Z) (message id : string) (d : Database) :
  synchronised_from d (sql_set_queue_retry retryCount message id d).
Proof.
  split; [reflexivity | split].
  - intros q' Hq. cbn in Hq. apply in_map_iff in Hq. destruct Hq as (q & E & Hq).
    exists q. split; [exact Hq |]. subst q'.
    destruct (String.eqb (SyncQueueItem.id q) id); reflexivity.
  - exists []. symmetry. apply app_nil_r.
Qed.

Lemma synchronised_create_dead_letter_table (d : Database) :
  synchronised_from d (sql_create_dead_letter_table d).
Proof.
  split; [reflexivity | split].
  - intros q Hq. exists q. split; [exact Hq | reflexivity].
  - exists []. unfold dead_rows, sql_create_dead_letter_table. cbn.
    destruct (dead_letter_queue d); symmetry; apply app_nil_r.
Qed.

Lemma synchronised_insert_dead_letter (row : DeadLetter.t) (d : Database) :
  synchronised_from d (sql_insert_dead_letter row d).
Proof.
  split; [reflexivity | split].
  - intros q Hq. exists q. split; [exact Hq | reflexivity].
  - unfold dead_rows, sql_insert_dead_letter. cbn.
    destruct (dead_letter_queue d).
    + exists [row]. reflexivity.
    + exists []. reflexivity.
Qed.

Create HintDb cycle_frames.

#[local] Hint Resolve synchronised_from_refl synchronised_set_task_status
  synchronised_mark_task synchronised_delete_queue_by_task synchronised_delete_queue_by_id
  synchronised_set_queue_retry
  synchronised_create_dead_letter_table synchronised_insert_dead_letter : cycle_frames.

(** Splits a program along its binds, handlers and loops, leaving the
    statements and the calls to be justified from the hint database. *)
Ltac frame_with D_refl D_trans finish :=
  repeat
    (cbv beta;
     lazymatch goal with
     | |- keeps _ (bind _ _) =>
         apply (keeps_bind _ (between_stores_trans _ D_trans)); [| intros ?]
     | |- keeps _ (try_catch _ _) =>
         apply (keeps_try_catch _ (between_stores_trans _ D_trans)); [| intros ?]
     | |- keeps _ (for_each _ _) =>
         apply (keeps_for_each _ (between_stores_refl _ D_refl)
                  (between_stores_trans _ D_trans)); intros ?
     | |- keeps _ (ret _) => apply (keeps_ret _ (between_stores_refl _ D_refl))
     | |- keeps _ (throw _) => apply (keeps_throw _ (between_stores_refl _ D_refl))
     | |- keeps _ (db_query _) => apply (keeps_db_query _ D_refl)
     | |- keeps _ uuidv4 => apply (keeps_uuidv4 _ D_refl)
     | |- keeps _ new_Date => apply (keeps_new_Date _ D_refl)
     | |- keeps _ (db_run _) => apply keeps_db_run; intros ?; solve [finish]
     | |- keeps _ (match ?x with _ => _ end) => destruct x
     | |- keeps _ _ => solve [finish]
     end).

Ltac cycle_frame :=
  frame_with synchronised_from_refl synchronised_from_trans ltac:(auto with cycle_frames).

Lemma updateSyncStatus_frame (taskId : string) (status : SyncStatus)
    (serverData : option Task.t) :
  keeps (between_stores synchronised_from) (updateSyncStatus taskId status serverData).
Proof.
  unfold updateSyncStatus. cycle_frame.
Qed.

Lemma handleSyncError_frame (item : SyncQueueItem.t) (message : string) :
  keeps (between_stores synchronised_from) (handleSyncError item message).
Proof.
  unfold handleSyncError, moveToDeadLetterQueue.
  cycle_frame.
Qed.

Lemma axios_post_frame (req : BatchSyncRequest.t) :
  keeps (between_stores synchronised_from) (axios_post req).
Proof. intros w. split; [reflexivity | apply synchronised_from_refl]. Qed.

#[local] Hint Resolve updateSyncStatus_frame handleSyncError_frame axios_post_frame
  : cycle_frames.

Lemma processBatch_frame (items : list SyncQueueItem.t) :
  keeps (between_stores synchronised_from) (processBatch items).
Proof. unfold processBatch. cycle_frame. Qed.

Lemma checkConnectivity_frame : keeps (between_stores synchronised_from) checkConnectivity.
Proof.
  intros w. rewrite checkConnectivity_run. split; [reflexivity | apply synchronised_from_refl].
Qed.

#[local] Hint Resolve processBatch_frame checkConnectivity_frame : cycle_frames.

(** The same decomposition for the programs of a cycle, which carry the
    result under construction along. *)
Ltac result_frame :=
  repeat
    (cbv beta;
     lazymatch goal with
     | |- keeps _ (bind _ _) =>
         apply (keeps_bind _ (on_world_trans _ synchronised_from_trans)); [| intros ?]
     | |- keeps _ (try_catch _ _) =>
         apply (keeps_try_catch _ (on_world_trans _ synchronised_from_trans)); [| intros ?]
     | |- keeps _ (for_each _ _) =>
         apply (keeps_for_each _ (on_world_refl _ synchronised_from_refl)
                  (on_world_trans _ synchronised_from_trans)); intros ?
     | |- keeps _ (ret _) => apply (keeps_ret _ (on_world_refl _ synchronised_from_refl))
     | |- keeps _ (throw _) => apply (keeps_throw _ (on_world_refl _ synchronised_from_refl))
     | |- keeps _ (update_result _) => apply (keeps_update_result _ synchronised_from_refl)
     | |- keeps _ read_result => intros ?; apply (on_world_refl _ synchronised_from_refl)
     | |- keeps _ (lift _) => apply keeps_lift; cycle_frame
     | |- keeps _ (match ?x with _ => _ end) => destruct x
     | |- keeps _ _ => solve [auto with cycle_frames]
     end).

Lemma report_error_frame (task_id operation message : string) :
  keeps (on_world (between_stores synchronised_from)) (report_error task_id operation message).
Proof. unfold report_error. result_frame. Qed.

#[local] Hint Resolve report_error_frame : cycle_frames.

Lemma applyOutcome_frame (batch : list SyncQueueItem.t) (p : ProcessedItem.t) :
  keeps (on_world (between_stores synchronised_from)) (applyOutcome batch p).
Proof.
  unfold applyOutcome. result_frame.
Qed.

Lemma failItem_frame (message : string) (item : SyncQueueItem.t) :
  keeps (on_world (between_stores synchronised_from)) (failItem message item).
Proof. unfold failItem. result_frame. Qed.

#[local] Hint Resolve applyOutcome_frame failItem_frame : cycle_frames.

Lemma syncBatch_frame (batch : list SyncQueueItem.t) :
  keeps (on_world (between_stores synchronised_from)) (syncBatch batch).
Proof. unfold syncBatch. result_frame. Qed.

#[local] Hint Resolve syncBatch_frame : cycle_frames.

Lemma getSyncQueueItems_frame : keeps (between_stores synchronised_from) getSyncQueueItems.
Proof. unfold getSyncQueueItems. cycle_frame. Qed.

Lemma batch_size_of_frame : keeps (between_stores synchronised_from) batch_size_of.
Proof. intros w. apply (between_stores_refl _ synchronised_from_refl). Qed.

#[local] Hint Resolve getSyncQueueItems_frame batch_size_of_frame : cycle_frames.

Lemma sync_frame : keeps (between_stores synchronised_from) sync.
Proof.
  intros w. unfold sync.
  match goal with
  | |- context [try_catch ?m ?h (w, initial_result)] =>
      assert (H : keeps (on_world (between_stores synchronised_from)) (try_catch m h))
  end.
  { result_frame. }
  specialize (H (w, initial_result)). unfold on_world in H. cbn [fst] in H.
  match goal with
  | H : between_stores _ _ (fst (snd ?x)) |- _ => destruct x as [o [w' result]]
  end.
  exact H.
Qed.

(** X11.  A synchronisation cycle, whatever the remote answers, leaves the
    environment alone and changes the client's store only in these ways:
    the task rows keep their number, their order and their content (id,
    title, description, completed, creation and update times, deletion
    flag), so that only the synchronisation columns can differ; every queue
    row that is left records a mutation that was in the queue before; and
    the dead-letter rows of before are still there, in place. *)
Theorem sync_keeps_the_tasks_and_adds_no_mutation (w : World) :
  exists result w',
    sync w = (Returned result, w') /\
    env w' = env w /\
    map task_content (tasks (db w')) = map task_content (tasks (db w)) /\
    (forall q', In q' (sync_queue (db w')) ->
       exists q, In q (sync_queue (db w)) /\ queue_content q' = queue_content q) /\
    (exists more, dead_rows (db w') = (dead_rows (db w) ++ more)%list).
Proof.
  pose proof (sync_frame w) as [E F].
  assert (R : exists result w', sync w = (Returned result, w')).
  { unfold sync. destruct (try_catch _ _ _) as [o [w' result]]. eauto. }
  destruct R as (result & w' & R). rewrite R in E, F. cbn [snd] in E, F.
  exists result, w'. split; [exact R | split; [exact E | exact F]].
Qed.

Example cycle_against_rejecting_remote_keeps_the_tasks :
  map task_content (tasks (db (snd (sync (Demo.client Demo.rejecting)))))
  = map task_content (tasks Demo.client_db) /\
  map TaskRow.sync_status (tasks (db (snd (sync (Demo.client Demo.rejecting)))))
  = [error; error].
Proof. split; reflexivity. Qed.

(* ------------------------------------------------------------------ *)
(** ** What the task service never does to the server's store *)

Lemma same_task_refl (r : TaskRow.t) : same_task r r.
Proof. repeat split. intros H. exact H. Qed.

Lemma same_task_trans (r1 r2 r3 : TaskRow.t) :
  same_task r1 r2 -> same_task r2 r3 -> same_task r1 r3.
Proof.
  intros (I1 & C1 & D1) (I2 & C2 & D2). repeat split; [congruence | congruence | auto].
Qed.

Lemma Forall2_same_task_refl (l : list TaskRow.t) : Forall2 same_task l l.
Proof. induction l; constructor; [apply same_task_refl | assumption]. Qed.

Lemma Forall2_same_task_trans (l1 l2 l3 : list TaskRow.t) :
  Forall2 same_task l1 l2 -> Forall2 same_task l2 l3 -> Forall2 same_task l1 l3.
Proof.
  intros H. revert l3. induction H as [| r1 r2 l1 l2 Hr H IH]; intros l3 H3.
  - inversion H3. constructor.
  - inversion H3 as [| ? r3 ? l3' Hr' H3' ]; subst. constructor.
    + eapply same_task_trans; eassumption.
    + apply IH. assumption.
Qed.

Lemma Forall2_same_task_map (f : TaskRow.t -> TaskRow.t) (l : list TaskRow.t) :
  (forall r, same_task r (f r)) -> Forall2 same_task l (map f l).
Proof. intros H. induction l; cbn [map]; constructor; [apply H | assumption]. Qed.

Lemma served_from_refl (d : Database) : served_from d d.
Proof.
  split; [| split].
  - exists (tasks d), []. split; [symmetry; apply app_nil_r | apply Forall2_same_task_refl].
  - exists []. symmetry. apply app_nil_r.
  - reflexivity.
Qed.

Lemma served_from_trans (d1 d2 d3 : Database) :
  served_from d1 d2 -> served_from d2 d3 -> served_from d1 d3.
Proof.
  intros ((k1 & m1 & T1 & F1) & (q1 & Q1) & L1) ((k2 & m2 & T2 & F2) & (q2 & Q2) & L2).
  split; [| split].
  - rewrite T1 in F2. apply Forall2_app_inv_l in F2.
    destruct F2 as (k2a & k2b & Fa & Fb & E). subst k2.
    exists k2a, (k2b ++ m2)%list. split.
    + rewrite T2. symmetry. apply app_assoc.
    + eapply Forall2_same_task_trans; eassumption.
  - exists (q1 ++ q2)%list. rewrite Q2, Q1. symmetry. apply app_assoc.
  - congruence.
Qed.

Lemma served_with_tasks_map (f : TaskRow.t -> TaskRow.t) (d : Database) :
  (forall r, same_task r (f r)) -> served_from d (with_tasks (map f) d).
Proof.
  intros H. split; [| split].
  - exists (map f (tasks d)), []. split; [symmetry; apply app_nil_r |].
    apply Forall2_same_task_map. exact H.
  - exists []. symmetry. apply app_nil_r.
  - reflexivity.
Qed.

Lemma served_insert_task (r : TaskRow.t) (d : Database) :
  served_from d (TaskService.sql_insert_task r d).
Proof.
  split; [| split].
  - exists (tasks d), [r]. split; [reflexivity | apply Forall2_same_task_refl].
  - exists []. symmetry. apply app_nil_r.
  - reflexivity.
Qed.

Lemma served_update_task (title description : string) (completed : bool) (updated_at : Z)
    (st : SyncStatus) (server_id : option string) (last_synced_at : option Z) (id : string)
    (d : Database) :
  served_from d
    (TaskService.sql_update_task title description completed updated_at st server_id
       last_synced_at id d).
Proof.
  apply served_with_tasks_map. intros r.
  destruct (String.eqb (TaskRow.id r) id && negb (TaskRow.is_deleted r));
    repeat split; auto.
Qed.

Lemma served_soft_delete_task (now : Z) (st : SyncStatus) (id : string) (d : Database) :
  served_from d (TaskService.sql_soft_delete_task now st id d).
Proof.
  apply served_with_tasks_map. intros r.
  destruct (String.eqb (TaskRow.id r) id); repeat split; auto.
Qed.

Lemma served_insert_queue (queueId taskId operation : string) (data : Task.t) (now : Z)
    (d : Database) :
  served_from d (sql_insert_queue queueId taskId operation data now d).
Proof.
  split; [| split].
  - exists (tasks d), []. split; [symmetry; apply app_nil_r | apply Forall2_same_task_refl].
  - eexists. reflexivity.
  - reflexivity.
Qed.

Create HintDb service_frames.

#[local] Hint Resolve served_from_refl served_insert_task served_update_task
  served_soft_delete_task served_insert_queue : service_frames.

Ltac service_frame :=
  frame_with served_from_refl served_from_trans ltac:(auto with service_frames).

Lemma addToSyncQueue_frame (taskId operation : string) (data : Task.t) :
  keeps (between_stores served_from) (TaskService.addToSyncQueue taskId operation data).
Proof. unfold TaskService.addToSyncQueue. service_frame. Qed.

Lemma toISOString_opt_frame (name : string) (x : option DateField) :
  keeps (between_stores served_from) (TaskService.toISOString_opt name x).
Proof. unfold TaskService.toISOString_opt. service_frame. Qed.

#[local] Hint Resolve addToSyncQueue_frame toISOString_opt_frame : service_frames.

Lemma createTask_frame (taskData : Task.t) :
  keeps (between_stores served_from) (TaskService.createTask taskData).
Proof. unfold TaskService.createTask. service_frame. Qed.

Lemma getTask_frame (id : string) : keeps (between_stores served_from) (TaskService.getTask id).
Proof. unfold TaskService.getTask. service_frame. Qed.

#[local] Hint Resolve createTask_frame getTask_frame : service_frames.

Lemma updateTask_frame (id : string) (updates : Task.t) :
  keeps (between_stores served_from) (TaskService.updateTask id updates).
Proof. unfold TaskService.updateTask. service_frame. Qed.

Lemma deleteTask_frame (id : string) :
  keeps (between_stores served_from) (TaskService.deleteTask id).
Proof. unfold TaskService.deleteTask. service_frame. Qed.

#[local] Hint Resolve updateTask_frame deleteTask_frame : service_frames.

Lemma getTime_frame (name : string) (x : option DateField) :
  keeps (between_stores served_from) (getTime name x).
Proof. unfold getTime. service_frame. Qed.

Lemma time_of_frame (x : option DateField) : keeps (between_stores served_from) (time_of x).
Proof.
  unfold time_of. service_frame.
  intros w. apply (between_stores_refl _ served_from_refl).
Qed.

Lemma reject_frame (code : Z) (message path : string) :
  keeps (between_stores served_from) (reject code message path).
Proof. unfold reject. service_frame. Qed.

#[local] Hint Resolve getTime_frame time_of_frame reject_frame : service_frames.

Lemma processItem_frame (item : SyncQueueItem.t) :
  keeps (between_stores served_from) (processItem item).
Proof.
  unfold processItem, handleBatchCreate, handleBatchUpdate, handleBatchDelete.
  service_frame.
Qed.

#[local] Hint Resolve processItem_frame : service_frames.

Lemma processItems_frame (items : list SyncQueueItem.t) :
  keeps (between_stores served_from) (processItems items).
Proof.
  induction items as [| item rest IH]; cbn [processItems]; service_frame.
Qed.

#[local] Hint Resolve processItems_frame : service_frames.

Lemma postBatch_frame (path : string) (body : BatchBody.t) :
  keeps (between_stores served_from) (postBatch path body).
Proof. unfold postBatch. service_frame. Qed.

Lemma postBatch_returns (path : string) (body : BatchBody.t) (w : World) :
  exists response w', postBatch path body w = (Returned response, w').
Proof.
  unfold postBatch, try_catch.
  match goal with |- context [match ?m w with _ => _ end] => destruct (m w) as [[a | e] w'] end.
  - eauto.
  - unfold reject. run. eauto.
Qed.

(** X12.  Whatever a batch request holds, the route answers, leaves the
    environment alone, and changes the server's store only in these ways:
    every task row stays in place with its id and its creation time, and a
    deleted row stays deleted (rows are never removed, deletion is soft);
    new task rows come after the old ones; the server's own mutation log
    only grows at its end; the dead-letter table is left alone.  The same
    holds of the three writing operations of the task service on their
    own. *)
Theorem postBatch_never_removes_a_row (path : string) (body : BatchBody.t) (w : World) :
  (exists response w',
      postBatch path body w = (Returned response, w') /\
      env w' = env w /\
      served_from (db w) (db w')) /\
  (forall taskData, keeps (between_stores served_from) (TaskService.createTask taskData)) /\
  (forall id updates, keeps (between_stores served_from) (TaskService.updateTask id updates)) /\
  (forall id, keeps (between_stores served_from) (TaskService.deleteTask id)).
Proof.
  split; [| split; [| split]].
  - destruct (postBatch_returns path body w) as (response & w' & E).
    pose proof (postBatch_frame path body w) as F. rewrite E in F. cbn [snd] in F.
    exists response, w'. split; [exact E | exact F].
  - exact createTask_frame.
  - exact updateTask_frame.
  - exact deleteTask_frame.
Qed.

Example batch_delete_keeps_the_row :
  exists w',
    snd (postBatch "/batch"
           (BatchBody.make (ItemsArray [Demo.item "q1" "t1" "delete" (Demo.titled "groceries")])
              (Some "2024-01-01T00:00:00.000Z") None)
           Demo.server) = w' /\
    map TaskRow.id (tasks (db w')) = ["t1"] /\
    map TaskRow.is_deleted (tasks (db w')) = [true] /\
    map SyncQueueItem.operation (sync_queue (db w')) = ["delete"].
Proof. eexists. split; [reflexivity | repeat split]. Qed.

(* ------------------------------------------------------------------ *)
(** ** The counts of a cycle's result *)

Section ReturnsKeeping.

Context {S : Type} (R : S -> S -> Prop).
Hypothesis R_refl : forall s, R s s.
Hypothesis R_trans : forall s1 s2 s3, R s1 s2 -> R s2 s3 -> R s1 s3.

Lemma returns_keeping_keeps {A} (m : Prog S A) : returns_keeping R m -> keeps R m.
Proof. intros H s. destruct (H s) as (a & s' & E & HR). rewrite E. exact HR. Qed.

Lemma returns_keeping_ret {A} (a : A) : returns_keeping R (ret a).
Proof using R_refl. intros s. exists a, s. split; [reflexivity | apply R_refl]. Qed.

Lemma returns_keeping_bind {A B} (m : Prog S A) (k : A -> Prog S B) :
  returns_keeping R m -> (forall a, returns_keeping R (k a)) -> returns_keeping R (bind m k).
Proof using R_trans.
  intros Hm Hk s. destruct (Hm s) as (a & s1 & E1 & R1).
  destruct (Hk a s1) as (b & s2 & E2 & R2).
  exists b, s2. unfold bind. rewrite E1. split; [exact E2 | eapply R_trans; eassumption].
Qed.

Lemma returns_keeping_for_each {A} (xs : list A) (body : A -> Prog S unit) :
  (forall x, returns_keeping R (body x)) -> returns_keeping R (for_each xs body).
Proof using R_refl R_trans.
  intros Hb. induction xs as [| x rest IH]; cbn [for_each].
  - apply returns_keeping_ret.
  - apply returns_keeping_bind; [apply Hb | intros _; exact IH].
Qed.

Lemma returns_keeping_try_catch {A} (m : Prog S A) (handler : string -> Prog S A) :
  keeps R m -> (forall e, returns_keeping R (handler e)) ->
  returns_keeping R (try_catch m handler).
Proof using R_trans.
  intros Hm Hh s. unfold try_catch. specialize (Hm s).
  destruct (m s) as [[a | e] s1]; cbn [snd] in Hm.
  - exists a, s1. split; [reflexivity | exact Hm].
  - destruct (Hh e s1) as (a & s2 & E & R2). exists a, s2.
    split; [exact E | eapply R_trans; eassumption].
Qed.

End ReturnsKeeping.

Lemma tallied_refl (r : SyncResult.t) : tallied r r.
Proof.
  exists []. split; [symmetry; apply app_nil_r | split; cbn [List.length]; lia].
Qed.

Lemma tallied_trans (r1 r2 r3 : SyncResult.t) : tallied r1 r2 -> tallied r2 r3 -> tallied r1 r3.
Proof.
  intros (e1 & E1 & F1 & S1) (e2 & E2 & F2 & S2). exists (e1 ++ e2)%list.
  split; [| split].
  - rewrite E2, E1. symmetry. apply app_assoc.
  - rewrite length_app, Nat2Z.inj_add. lia.
  - lia.
Qed.

Lemma tally_refl (s : World * SyncResult.t) : on_result tallied s s.
Proof. apply tallied_refl. Qed.

Lemma tally_trans (s1 s2 s3 : World * SyncResult.t) :
  on_result tallied s1 s2 -> on_result tallied s2 s3 -> on_result tallied s1 s3.
Proof. apply tallied_trans. Qed.

Lemma lift_tally {A} (m : Prog World A) : keeps (on_result tallied) (lift m).
Proof.
  intros [w r]. unfold lift, on_result. cbn [fst snd].
  destruct (m w) as [o w']. apply tallied_refl.
Qed.

Lemma count_synced_tally : keeps (on_result tallied) (update_result count_synced).
Proof.
  intros [w r]. exists []. cbn. split; [symmetry; apply app_nil_r | lia].
Qed.

Lemma count_and_report_tally (task_id operation message : string) :
  returns_keeping (on_result tallied)
    (update_result count_failed ;;; report_error task_id operation message).
Proof.
  intros [w r]. eexists tt, _. split; [reflexivity |].
  eexists [_]. cbn. split; [reflexivity | lia].
Qed.

Lemma applyOutcome_tally (batch : list SyncQueueItem.t) (p : ProcessedItem.t) :
  keeps (on_result tallied) (applyOutcome batch p).
Proof.
  unfold applyOutcome. destruct (ProcessedItem.status p).
  - apply (keeps_bind _ tally_trans); [apply lift_tally | intros _; apply count_synced_tally].
  - apply (keeps_bind _ tally_trans).
    + destruct (find _ batch); [apply lift_tally | apply (keeps_throw _ tally_refl)].
    + intros _. apply returns_keeping_keeps, count_and_report_tally.
Qed.

Lemma failItem_tally (message : string) (item : SyncQueueItem.t) :
  returns_keeping (on_result tallied) (failItem message item).
Proof.
  intros s. exists tt, (fail_step message s item).
  split; [apply failItem_run |].
  eexists [_]. cbn. split; [reflexivity | lia].
Qed.

Lemma syncBatch_tally (batch : list SyncQueueItem.t) :
  returns_keeping (on_result tallied) (syncBatch batch).
Proof.
  unfold syncBatch. apply (returns_keeping_try_catch _ tally_trans).
  - apply (keeps_bind _ tally_trans); [apply lift_tally |].
    intros resp. apply (keeps_for_each _ tally_refl tally_trans).
    intros p. apply applyOutcome_tally.
  - intros message. apply (returns_keeping_for_each _ tally_refl tally_trans).
    intros item. apply failItem_tally.
Qed.

Lemma sync_nothing_fetched_run (w : World) :
  axios_get_health (env w) (tick w) = Returned tt ->
  sql_select_pending_queue (db w) = [] ->
  sync w = (Returned (SyncResult.make true 0 0 []), next_tick w).
Proof.
  intros Hh Q.
  unfold sync, try_catch, bind at 1, lift at 1. cbn [fst snd].
  rewrite checkConnectivity_run, Hh. cbn [negb].
  unfold bind at 1, lift at 1. cbn [fst snd].
  rewrite getSyncQueueItems_run.
  change (db (next_tick w)) with (db w). rewrite Q. reflexivity.
Qed.

Lemma sync_online_run (w : World) :
  axios_get_health (env w) (tick w) = Returned tt ->
  sql_select_pending_queue (db w) <> [] ->
  exists w' r,
    for_each (createBatches (batchSize (env w)) (sql_select_pending_queue (db w))) syncBatch
      (next_tick w, initial_result) = (Returned tt, (w', r)) /\
    sync w = (Returned (set_success (SyncResult.failed_items r =? 0) r), w').
Proof.
  intros Hh Hq.
  destruct (returns_keeping_for_each _ tally_refl tally_trans
              (createBatches (batchSize (env w)) (sql_select_pending_queue (db w)))
              syncBatch syncBatch_tally (next_tick w, initial_result))
    as ([] & [w' r] & E & _).
  exists w', r. split; [exact E |].
  unfold sync, try_catch, bind at 1, lift at 1. cbn [fst snd].
  rewrite checkConnectivity_run, Hh. cbn [negb].
  unfold bind at 1, lift at 1. cbn [fst snd].
  rewrite getSyncQueueItems_run.
  destruct (sql_select_pending_queue (db (next_tick w))) as [| q rest] eqn:Q;
    [exfalso; apply Hq; exact Q |].
  unfold bind at 1, lift at 1, batch_size_of. cbn [fst snd].
  unfold bind at 1.
  change (env (next_tick w)) with (env w).
  change (db (next_tick w)) with (db w) in Q. rewrite Q in E. rewrite E.
  reflexivity.
Qed.

(** X13.  When the probe of a cycle succeeds, the cycle returns a result
    whose [failed_items] is exactly the number of entries of [errors], whose
    [synced_items] is not negative, and whose [success] says that nothing
    failed.  (A cycle whose probe fails lists one error and counts none:
    see C3.) *)
Theorem sync_result_counts_its_errors (w : World) :
  axios_get_health (env w) (tick w) = Returned tt ->
  exists result w',
    sync w = (Returned result, w') /\
    SyncResult.failed_items result = Z.of_nat (List.length (SyncResult.errors result)) /\
    0 <= SyncResult.synced_items result /\
    (SyncResult.success result = true <-> SyncResult.failed_items result = 0).
Proof.
  intros Hh.
  destruct (sql_select_pending_queue (db w)) as [| q rest] eqn:Q.
  - exists (SyncResult.make true 0 0 []), (next_tick w). split.
    + apply sync_nothing_fetched_run; assumption.
    + cbn. repeat split; lia.
  - destruct (sync_online_run w Hh) as (w' & r & E & Es); [rewrite Q; discriminate |].
    pose proof (returns_keeping_keeps _ _
                  (returns_keeping_for_each _ tally_refl tally_trans
                     (createBatches (batchSize (env w)) (sql_select_pending_queue (db w)))
                     syncBatch syncBatch_tally) (next_tick w, initial_result)) as T.
    rewrite E in T. destruct T as (errs & He & Hf & Hs). cbn in He, Hf, Hs.
    exists (set_success (SyncResult.failed_items r =? 0) r), w'.
    split; [exact Es |]. cbn. rewrite He, Hf. repeat split; lia.
Qed.

Lemma sync_result_counts_its_errors_example :
  exists result w',
    sync (Demo.client Demo.rejecting) = (Returned result, w') /\
    SyncResult.failed_items result = Z.of_nat (List.length (SyncResult.errors result)) /\
    0 <= SyncResult.synced_items result /\
    (SyncResult.success result = true <-> SyncResult.failed_items result = 0).
Proof. apply (sync_result_counts_its_errors (Demo.client Demo.rejecting)). reflexivity. Defined.

(* ------------------------------------------------------------------ *)
(** ** A cycle in which every item is acknowledged *)

Lemma Forall2_map_right {A} (P : A -> A -> Prop) (f : A -> A) (l : list A) :
  (forall a, P a (f a)) -> Forall2 P l (map f l).
Proof. intros H. induction l; cbn [map]; constructor; [apply H | assumption]. Qed.

Lemma Forall2_compose {A} (P Q R : A -> A -> Prop) (l1 l2 l3 : list A) :
  (forall a b c, P a b -> Q b c -> R a c) ->
  Forall2 P l1 l2 -> Forall2 Q l2 l3 -> Forall2 R l1 l3.
Proof.
  intros H H12. revert l3. induction H12 as [| a b l1 l2 Hab H12 IH]; intros l3 H23.
  - inversion H23. constructor.
  - inversion H23 as [| ? c ? l3' Hbc H23']; subst. constructor; [eapply H; eassumption |].
    apply IH. assumption.
Qed.

Lemma filter_twice {A} (p q : A -> bool) (l : list A) :
  filter q (filter p l) = filter (fun x => p x && q x) l.
Proof.
  induction l as [| x l IH]; [reflexivity |]. cbn [filter].
  destruct (p x); cbn [filter andb]; [destruct (q x) |]; rewrite IH; reflexivity.
Qed.

Lemma mentions_app (ids1 ids2 : list string) (id : string) :
  mentions (ids1 ++ ids2) id = mentions ids1 id || mentions ids2 id.
Proof. apply existsb_app. Qed.

Lemma content_id (r r' : TaskRow.t) : task_content r' = task_content r -> TaskRow.id r' = TaskRow.id r.
Proof. unfold task_content. intros H. congruence. Qed.

Lemma acknowledged_row_app (ids1 ids2 : list string) (r1 r2 r3 : TaskRow.t) :
  acknowledged_row ids1 r1 r2 -> acknowledged_row ids2 r2 r3 ->
  acknowledged_row (ids1 ++ ids2) r1 r3.
Proof.
  intros [[C1 K1] S1] [[C2 K2] S2]. pose proof (content_id _ _ C1) as I.
  rewrite I in K2, S2. unfold acknowledged_row, taken_up_row. rewrite mentions_app.
  split; [split |].
  - congruence.
  - intros H. apply orb_false_iff in H. destruct H as [H1 H2].
    rewrite (K2 H2). apply K1, H1.
  - intros H. destruct (mentions ids2 (TaskRow.id r1)) eqn:M2; [apply S2; reflexivity |].
    rewrite orb_false_r in H. rewrite (K2 eq_refl). apply S1, H.
Qed.

Lemma acknowledged_app (ids1 ids2 : list string) (d1 d2 d3 : Database) :
  acknowledged ids1 d1 d2 -> acknowledged ids2 d2 d3 -> acknowledged (ids1 ++ ids2) d1 d3.
Proof.
  intros (T1 & Q1 & L1) (T2 & Q2 & L2). split; [| split].
  - eapply Forall2_compose; [| exact T1 | exact T2].
    intros a b c. apply acknowledged_row_app.
  - rewrite Q2, Q1, filter_twice. apply filter_ext. intros q.
    rewrite mentions_app, negb_orb. reflexivity.
  - congruence.
Qed.

Lemma acknowledged_nil (d : Database) : acknowledged [] d d.
Proof.
  split; [| split].
  - apply Forall2_flip, Forall2_flip.
    assert (H : forall l, Forall2 (acknowledged_row []) l l).
    { induction l; constructor; [| assumption]. repeat split. discriminate. }
    apply H.
  - symmetry. cbn. induction (sync_queue d) as [| q l IH]; [reflexivity |].
    cbn [filter negb]. f_equal. exact IH.
  - reflexivity.
Qed.

Lemma acknowledged_one (now : Z) (sid : option string) (id : string) (d : Database) :
  acknowledged [id] d (sql_delete_queue_by_task id (sql_mark_task synced now sid id d)).
Proof.
  split; [| split].
  - cbn. apply Forall2_map_right. intros r.
    unfold acknowledged_row, taken_up_row, mentions. cbn [existsb]. rewrite orb_false_r.
    destruct (String.eqb (TaskRow.id r) id); repeat split; discriminate.
  - cbn. apply filter_ext. intros q. unfold mentions. cbn [existsb].
    rewrite orb_false_r. reflexivity.
  - reflexivity.
Qed.

Lemma acknowledged_state_app (ids1 ids2 : list string) (s1 s2 s3 : World * SyncResult.t) :
  acknowledged_state ids1 s1 s2 -> acknowledged_state ids2 s2 s3 ->
  acknowledged_state (ids1 ++ ids2) s1 s3.
Proof.
  intros (E1 & A1 & S1 & F1 & R1) (E2 & A2 & S2 & F2 & R2).
  split; [congruence |]. split; [eapply acknowledged_app; eassumption |].
  split; [rewrite length_app, Nat2Z.inj_add; lia |]. split; congruence.
Qed.

Lemma acknowledged_state_nil (s : World * SyncResult.t) : acknowledged_state [] s s.
Proof.
  split; [reflexivity |]. split; [apply acknowledged_nil |].
  split; [cbn; lia | split; reflexivity].
Qed.

Lemma outcomes_acknowledged (batch : list SyncQueueItem.t) (ps : list ProcessedItem.t)
    (s : World * SyncResult.t) :
  Forall (fun p => ProcessedItem.status p = success) ps ->
  exists s',
    for_each ps (applyOutcome batch) s = (Returned tt, s') /\
    acknowledged_state (map ProcessedItem.client_id ps) s s'.
Proof.
  intros H. revert s. induction H as [| p ps Hp H IH]; intros [w r].
  - exists (w, r). split; [reflexivity | apply acknowledged_state_nil].
  - cbn [for_each]. unfold bind at 1. rewrite (applyOutcome_success_run batch p w r Hp).
    match goal with |- context [for_each ps _ ?s1] => destruct (IH s1) as (s' & E & A) end.
    exists s'. split; [exact E |].
    change (map ProcessedItem.client_id (p :: ps))
      with ([ProcessedItem.client_id p] ++ map ProcessedItem.client_id ps)%list.
    eapply acknowledged_state_app; [| exact A].
    split; [reflexivity |]. split; [apply acknowledged_one |].
    cbn. repeat split; lia.
Qed.

Lemma taken_up_in_progress (batch : list SyncQueueItem.t) (d : Database) :
  let d' := fold_left (fun d item =>
                         sql_set_task_status in_progress (SyncQueueItem.task_id item) d)
              batch d in
  Forall2 (taken_up_row (map SyncQueueItem.task_id batch)) (tasks d) (tasks d') /\
  sync_queue d' = sync_queue d /\
  dead_letter_queue d' = dead_letter_queue d.
Proof.
  cbn zeta. revert d. induction batch as [| item batch IH]; intros d.
  - cbn [fold_left map]. split; [| split; reflexivity].
    induction (tasks d); constructor; [| assumption]. split; reflexivity.
  - cbn [fold_left map].
    destruct (IH (sql_set_task_status in_progress (SyncQueueItem.task_id item) d))
      as (T & Q & L).
    split; [| split; [exact Q | exact L]].
    eapply Forall2_compose; [| | exact T].
    2: { cbn. apply (Forall2_map_right
                      (fun r r' => task_content r' = task_content r /\
                                   (String.eqb (TaskRow.id r) (SyncQueueItem.task_id item) = false
                                    -> r' = r))).
         intros r. destruct (String.eqb (TaskRow.id r) (SyncQueueItem.task_id item));
           split; try reflexivity; discriminate. }
    intros a b c [C1 K1] [C2 K2]. pose proof (content_id _ _ C1) as I. rewrite I in K2.
    split; [congruence |]. unfold mentions. cbn [existsb]. intros H.
    apply orb_false_iff in H. destruct H as [H1 H2].
    rewrite (K2 H2). apply K1, H1.
Qed.

Lemma acknowledged_after_taken_up (ids : list string) (d1 d2 d3 : Database) :
  Forall2 (taken_up_row ids) (tasks d1) (tasks d2) ->
  sync_queue d2 = sync_queue d1 -> dead_letter_queue d2 = dead_letter_queue d1 ->
  acknowledged ids d2 d3 -> acknowledged ids d1 d3.
Proof.
  intros T Q L (T2 & Q2 & L2). split; [| split; congruence].
  eapply Forall2_compose; [| exact T | exact T2].
  intros a b c [C1 K1] [[C2 K2] S2]. pose proof (content_id _ _ C1) as I.
  rewrite I in K2, S2. split; [split |].
  - congruence.
  - intros H. rewrite (K2 H). apply K1, H.
  - exact S2.
Qed.

Lemma syncBatch_acknowledged (batch : list SyncQueueItem.t) (s : World * SyncResult.t) :
  remote_acknowledges (env (fst s)) ->
  exists s',
    syncBatch batch s = (Returned tt, s') /\
    acknowledged_state (map SyncQueueItem.task_id batch) s s'.
Proof.
  destruct s as [w r]. cbn [fst]. intros [_ Hpost].
  unfold syncBatch, try_catch, bind at 1, lift at 1. cbn [fst snd].
  unfold processBatch, bind. rewrite mark_in_progress_run.
  unfold new_Date, axios_post. cbn [env db tick next_tick].
  match goal with
  | |- context [axios_post_batch (env w) ?t ?req] =>
      destruct (Hpost t req) as (outcomes & E & Hids & Hok); rewrite E
  end.
  cbn [BatchSyncRequest.items] in Hids.
  match goal with
  | |- context [for_each _ _ ?s1] =>
      destruct (outcomes_acknowledged batch outcomes s1 Hok) as ([w' r'] & E' & A)
  end.
  cbn [BatchSyncResponse.processed_items]. rewrite E'.
  exists (w', r'). split; [reflexivity |].
  rewrite Hids in A. destruct A as (Ee & A & C). cbn [fst snd env db] in *.
  split; [exact Ee |]. split; [| exact C].
  destruct (taken_up_in_progress batch (db w)) as (T & Q & L).
  eapply acknowledged_after_taken_up; eassumption.
Qed.

Lemma batches_acknowledged (batches : list (list SyncQueueItem.t))
    (s : World * SyncResult.t) :
  remote_acknowledges (env (fst s)) ->
  exists s',
    for_each batches syncBatch s = (Returned tt, s') /\
    acknowledged_state (map SyncQueueItem.task_id (List.concat batches)) s s'.
Proof.
  revert s. induction batches as [| batch batches IH]; intros s Hr.
  - exists s. split; [reflexivity | apply acknowledged_state_nil].
  - destruct (syncBatch_acknowledged batch s Hr) as (s1 & E1 & A1).
    assert (Hr1 : remote_acknowledges (env (fst s1))).
    { destruct A1 as (Ee & _). rewrite Ee. exact Hr. }
    destruct (IH s1 Hr1) as (s2 & E2 & A2).
    exists s2. cbn [for_each]. unfold bind. rewrite E1. split; [exact E2 |].
    cbn [List.concat]. rewrite map_app. eapply acknowledged_state_app; eassumption.
Qed.

Lemma createBatches_concat (size : option Z) (items : list SyncQueueItem.t) :
  List.concat (createBatches size items) = items.
Proof.
  unfold createBatches.
  pose proof (batch_step_concat size items [] []) as H.
  destruct (fold_left (batch_step size) items ([], [])) as [batches current].
  cbn in H. destruct current as [| x current].
  - rewrite app_nil_r in H. exact H.
  - rewrite concat_app. cbn. rewrite app_nil_r. exact H.
Qed.

Lemma mentions_in (ids : list string) (id : string) : mentions ids id = true <-> In id ids.
Proof.
  unfold mentions. rewrite existsb_exists. split.
  - intros (x & Hx & E). apply String.eqb_eq in E. subst. exact Hx.
  - intros H. exists id. split; [exact H | apply String.eqb_refl].
Qed.

(** X14.  When the remote answers the probe and acknowledges every item of
    every batch, a cycle reports success with one synced item per fetched
    entry, no failure and no error; it removes from the queue exactly the
    rows of the tasks that had a fetched entry, so that a next cycle finds
    nothing to send; and it leaves every row of such a task [synced], the
    other task rows as they were, and the dead-letter table alone. *)
Theorem sync_acknowledged_cycle_empties_the_queue (w : World) :
  remote_acknowledges (env w) ->
  let fetched := sql_select_pending_queue (db w) in
  let ids := map SyncQueueItem.task_id fetched in
  exists w',
    sync w = (Returned (SyncResult.make true (Z.of_nat (List.length fetched)) 0 []), w') /\
    sync_queue (db w')
    = filter (fun q => negb (mentions ids (SyncQueueItem.task_id q))) (sync_queue (db w)) /\
    sql_select_pending_queue (db w') = [] /\
    Forall2 (acknowledged_row ids) (tasks (db w)) (tasks (db w')) /\
    dead_letter_queue (db w') = dead_letter_queue (db w).
Proof.
  intros Hr fetched ids. subst fetched ids.
  destruct (sql_select_pending_queue (db w)) as [| q rest] eqn:Q.
  - exists (next_tick w). split; [| split; [| split; [| split]]].
    + apply sync_nothing_fetched_run; [apply Hr | exact Q].
    + cbn. symmetry. induction (sync_queue (db w)) as [| x l IH]; [reflexivity |].
      cbn [filter negb]. f_equal. exact IH.
    + exact Q.
    + apply acknowledged_nil.
    + reflexivity.
  - rewrite <- Q.
    destruct (sync_online_run w) as (w' & r & E & Es);
      [apply Hr | rewrite Q; discriminate |].
    destruct (batches_acknowledged
                (createBatches (batchSize (env w)) (sql_select_pending_queue (db w)))
                (next_tick w, initial_result) Hr) as (s' & E' & A).
    rewrite E in E'. injection E' as <-. rewrite createBatches_concat in A.
    destruct A as (Ee & (T & Qe & L) & Sy & Fa & Er). cbn [fst snd] in *.
    change (db (next_tick w)) with (db w) in *.
    exists w'. split; [| split; [exact Qe | split; [| split; [exact T | exact L]]]].
    + rewrite Es. destruct r as [ok n_synced n_failed errs]. cbn in Sy, Fa, Er. subst.
      rewrite length_map. reflexivity.
    + destruct (sql_select_pending_queue (db w')) as [| x l] eqn:P; [reflexivity |].
      exfalso. assert (Hx : In x (sql_select_pending_queue (db w'))) by (rewrite P; left; reflexivity).
      apply in_pending_queue in Hx. destruct Hx as [Hin Hc].
      rewrite Qe in Hin. apply filter_In in Hin. destruct Hin as [Hin Hm].
      apply negb_true_iff in Hm.
      assert (Hm' : mentions (map SyncQueueItem.task_id (sql_select_pending_queue (db w)))
                      (SyncQueueItem.task_id x) = true).
      { apply mentions_in. apply in_map. apply in_pending_queue. split; assumption. }
      congruence.
Qed.

Lemma sync_acknowledged_cycle_example :
  exists w',
    sync (Demo.client Demo.acknowledging) = (Returned (SyncResult.make true 3 0 []), w') /\
    sync_queue (db w') = [] /\
    map TaskRow.sync_status (tasks (db w')) = [synced; synced].
Proof.
  assert (H : remote_acknowledges (env (Demo.client Demo.acknowledging))).
  { split; [reflexivity |]. intros t req. eexists. split; [reflexivity |]. split.
    - rewrite map_map. reflexivity.
    - apply Forall_forall. intros p Hp. apply in_map_iff in Hp.
      destruct Hp as (i & <- & _). reflexivity. }
  destruct (sync_acknowledged_cycle_empties_the_queue _ H) as (w' & E & _).
  exists w'. split; [exact E |].
  assert (E' : snd (sync (Demo.client Demo.acknowledging)) = w') by (rewrite E; reflexivity).
  rewrite <- E'. split; reflexivity.
Defined.

(* ------------------------------------------------------------------ *)
(** ** The task service: what is written is what is read *)

Lemma find_app_none {A} (p : A -> bool) (l : list A) (x : A) :
  find p l = None -> find p (l ++ [x]) = if p x then Some x else None.
Proof.
  induction l as [| y l IH]; cbn [find app]; [reflexivity |].
  destruct (p y); [discriminate | exact IH].
Qed.

Lemma find_map_preserving {A} (p : A -> bool) (f : A -> A) (l : list A) :
  (forall x, p (f x) = p x) -> find p (map f l) = option_map f (find p l).
Proof.
  intros H. induction l as [| y l IH]; cbn [find map]; [reflexivity |].
  rewrite H. destruct (p y); [reflexivity | exact IH].
Qed.

Lemma string_or_empty (x : string) : string_or (Some x) "" = x.
Proof.
  unfold string_or, truthy. destruct (String.eqb x "") eqn:E; [| reflexivity].
  apply String.eqb_eq in E. subst. reflexivity.
Qed.

Lemma mapRowToTask_of_created (new_id : string) (created updated : Z) (taskData : Task.t)
    (synced_at : option Z) :
  storable_last_synced_at taskData = Some synced_at ->
  TaskService.mapRowToTask
    (TaskRow.make new_id (string_or (Task.title taskData) "")
       (string_or (Task.description taskData) "")
       (bool_or_false (Task.completed taskData))
       created updated false pending
       (string_or_undefined (Task.server_id taskData)) synced_at)
  = created_task new_id created updated taskData.
Proof.
  unfold storable_last_synced_at, TaskService.mapRowToTask, created_task,
    TaskService.date_or_undefined.
  cbn [TaskRow.id TaskRow.title TaskRow.description TaskRow.completed TaskRow.created_at
       TaskRow.updated_at TaskRow.is_deleted TaskRow.sync_status TaskRow.server_id
       TaskRow.last_synced_at].
  rewrite string_or_empty, string_or_undefined_idem. intros H.
  destruct (Task.last_synced_at taskData) as [[t | s] |].
  - injection H as <-. reflexivity.
  - destruct (truthy s); [discriminate |]. injection H as <-. reflexivity.
  - injection H as <-. reflexivity.
Qed.

(** X15.  A task created under an id that no live row bears is read back
    by [getTask] exactly as [createTask] returned it; and creating it
    appended one row to the task table and one entry to the queue: a
    ['create'] of that task, never retried, whose snapshot is the returned
    task as JSON transport leaves it. *)
Theorem createTask_then_getTask (taskData : Task.t) (w : World) (synced_at : option Z) :
  storable_last_synced_at taskData = Some synced_at ->
  TaskService.sql_select_live_task (uuid_src (env w) (tick w)) (db w) = None ->
  exists task w' row queueId queued_at,
    TaskService.createTask taskData w = (Returned task, w') /\
    Task.id task = Some (uuid_src (env w) (tick w)) /\
    TaskService.getTask (uuid_src (env w) (tick w)) w' = (Returned (Some task), w') /\
    tasks (db w') = (tasks (db w) ++ [row])%list /\
    TaskService.mapRowToTask row = task /\
    sync_queue (db w')
    = (sync_queue (db w)
       ++ [queued queueId (uuid_src (env w) (tick w)) "create" task queued_at])%list.
Proof.
  intros Hs Hfresh.
  eexists _, _, _, _, _. split; [apply (createTask_run taskData w synced_at Hs) |].
  split; [reflexivity |]. split; [| split; [reflexivity | split; [| reflexivity]]].
  - rewrite getTask_run. cbn [db]. unfold sql_insert_queue.
    rewrite select_live_ignores_queue.
    unfold TaskService.sql_select_live_task, TaskService.sql_insert_task, with_tasks.
    cbn [tasks]. unfold TaskService.sql_select_live_task in Hfresh.
    rewrite (find_app_none _ _ _ Hfresh).
    cbn [TaskRow.id TaskRow.is_deleted negb]. rewrite String.eqb_refl. cbn [andb option_map].
    rewrite (mapRowToTask_of_created _ _ _ _ _ Hs). reflexivity.
  - apply mapRowToTask_of_created. exact Hs.
Qed.

Lemma createTask_then_getTask_example :
  exists task w',
    TaskService.createTask (Demo.titled "groceries") Demo.server = (Returned task, w') /\
    TaskService.getTask "uuid-0" w' = (Returned (Some task), w') /\
    map TaskRow.id (tasks (db w')) = ["t1"; "uuid-0"] /\
    map SyncQueueItem.operation (sync_queue (db w')) = ["create"].
Proof.
  destruct (createTask_then_getTask (Demo.titled "groceries") Demo.server None
              eq_refl eq_refl)
    as (task & w' & row & queueId & queued_at & E & _ & G & _).
  exists task, w'. split; [exact E |]. split; [exact G |].
  assert (E' : snd (TaskService.createTask (Demo.titled "groceries") Demo.server) = w')
    by (rewrite E; reflexivity).
  rewrite <- E'. split; reflexivity.
Defined.

Lemma deleteTask_run (id : string) (w : World) (row : TaskRow.t) :
  TaskService.sql_select_live_task id (db w) = Some row ->
  TaskService.deleteTask id w
  = (Returned true,
     mkWorld (env w)
       (sql_insert_queue (uuid_src (env w) (S (tick w))) id "delete"
          (JSON_roundtrip (deleted_snapshot (clock_src (env w) (tick w)) row))
          (clock_src (env w) (S (S (tick w))))
          (TaskService.sql_soft_delete_task (clock_src (env w) (tick w)) pending id (db w)))
       (S (S (S (tick w))))).
Proof.
  intros H. unfold TaskService.deleteTask. run. rewrite H. reflexivity.
Qed.

Lemma updateTask_missing (id : string) (updates : Task.t) (w : World) :
  TaskService.sql_select_live_task id (db w) = None ->
  TaskService.updateTask id updates w = (Returned None, w).
Proof.
  intros H. unfold TaskService.updateTask, bind. rewrite getTask_run, H. reflexivity.
Qed.

(** X16.  Deleting a live task returns [true] and is a soft delete: no row
    leaves the task table, every row of that id is flagged deleted and set
    [pending], and one ['delete'] entry is queued whose snapshot is the
    stored task flagged deleted.  From then on the task is gone for the
    service: [getTask] finds nothing, [updateTask] returns null and a second
    [deleteTask] returns [false], both without writing anything. *)
Theorem deleteTask_is_a_soft_delete (id : string) (w : World) (row : TaskRow.t)
    (updates : Task.t) :
  TaskService.sql_select_live_task id (db w) = Some row ->
  exists w' queueId queued_at,
    TaskService.deleteTask id w = (Returned true, w') /\
    map TaskRow.id (tasks (db w')) = map TaskRow.id (tasks (db w)) /\
    (forall r, In r (tasks (db w')) -> TaskRow.id r = id ->
               TaskRow.is_deleted r = true /\ TaskRow.sync_status r = pending) /\
    sync_queue (db w')
    = (sync_queue (db w)
       ++ [queued queueId id "delete" (deleted_snapshot (clock_src (env w) (tick w)) row)
             queued_at])%list /\
    Task.is_deleted (deleted_snapshot (clock_src (env w) (tick w)) row) = Some true /\
    TaskService.getTask id w' = (Returned None, w') /\
    TaskService.updateTask id updates w' = (Returned None, w') /\
    TaskService.deleteTask id w' = (Returned false, w').
Proof.
  intros H. eexists _, _, _. split; [apply (deleteTask_run id w row H) |].
  assert (N : TaskService.sql_select_live_task id
                (sql_insert_queue (uuid_src (env w) (S (tick w))) id "delete"
                   (JSON_roundtrip (deleted_snapshot (clock_src (env w) (tick w)) row))
                   (clock_src (env w) (S (S (tick w))))
                   (TaskService.sql_soft_delete_task (clock_src (env w) (tick w)) pending id
                      (db w))) = None).
  { unfold sql_insert_queue. rewrite select_live_ignores_queue.
    apply select_live_after_soft_delete. }
  split; [| split; [| split; [reflexivity | split; [reflexivity | split; [| split]]]]].
  - cbn. rewrite map_map. apply map_ext. intros r.
    destruct (String.eqb (TaskRow.id r) id); reflexivity.
  - intros r Hin Hid. cbn in Hin. apply in_map_iff in Hin. destruct Hin as (r0 & <- & _).
    destruct (String.eqb (TaskRow.id r0) id) eqn:E; [split; reflexivity |].
    apply String.eqb_neq in E. contradiction.
  - rewrite getTask_run. cbn [db]. rewrite N. reflexivity.
  - apply updateTask_missing. exact N.
  - apply deleteTask_missing. exact N.
Qed.

Lemma deleteTask_is_a_soft_delete_example :
  exists w',
    TaskService.deleteTask "t1" Demo.server = (Returned true, w') /\
    map TaskRow.is_deleted (tasks (db w')) = [true] /\
    TaskService.getTask "t1" w' = (Returned None, w') /\
    TaskService.deleteTask "t1" w' = (Returned false, w').
Proof.
  destruct (deleteTask_is_a_soft_delete "t1" Demo.server
              (Demo.task_row "t1" "groceries" 1700000000000) Task.empty eq_refl)
    as (w' & queueId & queued_at & E & _ & _ & _ & _ & G & _ & D).
  exists w'. split; [exact E |].
  assert (E' : snd (TaskService.deleteTask "t1" Demo.server) = w') by (rewrite E; reflexivity).
  split; [rewrite <- E'; reflexivity | split; assumption].
Defined.

Lemma orElse_some {A} (x : option A) (y : A) : exists v, Task.orElse x (Some y) = Some v.
Proof. destruct x; cbn; eauto. Qed.

(** X17.  After [updateTask] has changed a live task, [getTask] returns
    the title, the description, the completion flag, the update time and
    the [pending] status of the task [updateTask] returned.  The id, the
    creation time and the deletion flag it returns are those of the stored
    row: the update statement does not write them, whatever the payload
    held. *)
Theorem updateTask_then_getTask (id : string) (updates : Task.t) (w : World)
    (row : TaskRow.t) (synced_at : option Z) :
  TaskService.sql_select_live_task id (db w) = Some row ->
  storable_merged_last_synced_at row updates = Some synced_at ->
  exists updated stored w',
    TaskService.updateTask id updates w = (Returned (Some updated), w') /\
    TaskService.getTask id w' = (Returned (Some stored), w') /\
    Task.title stored = Task.title updated /\
    Task.description stored = Task.description updated /\
    Task.completed stored = Task.completed updated /\
    Task.updated_at stored = Some (DateObj (clock_src (env w) (tick w))) /\
    Task.updated_at updated = Some (DateObj (clock_src (env w) (tick w))) /\
    Task.sync_status stored = Some pending /\
    Task.sync_status updated = Some pending /\
    Task.id stored = Some (TaskRow.id row) /\
    Task.created_at stored = Some (DateObj (TaskRow.created_at row)) /\
    Task.is_deleted stored = Some false.
Proof.
  intros Hrow Hs.
  assert (Hlive : String.eqb (TaskRow.id row) id && negb (TaskRow.is_deleted row) = true).
  { unfold TaskService.sql_select_live_task in Hrow. apply find_some in Hrow. apply Hrow. }
  apply andb_true_iff in Hlive. destruct Hlive as [_ Hlive]. apply negb_true_iff in Hlive.
  eexists _, _, _. split; [apply (updateTask_run id updates w row synced_at Hrow Hs) |].
  split.
  - rewrite getTask_run. cbn [db]. unfold sql_insert_queue.
    rewrite select_live_ignores_queue.
    unfold TaskService.sql_select_live_task, TaskService.sql_update_task, with_tasks.
    cbn [tasks]. rewrite find_map_preserving.
    + unfold TaskService.sql_select_live_task in Hrow. rewrite Hrow. cbn [option_map].
      apply find_some in Hrow. destruct Hrow as [_ Hp]. rewrite Hp. reflexivity.
    + intros r. destruct (String.eqb (TaskRow.id r) id && negb (TaskRow.is_deleted r)) eqn:E;
        [| exact E]. cbn [TaskRow.id TaskRow.is_deleted]. exact E.
  - unfold updated_task, TaskService.mapRowToTask.
    cbn [Task.title Task.description Task.completed Task.updated_at Task.sync_status Task.id
         Task.created_at Task.is_deleted Task.set_sync_status Task.set_updated_at Task.spread
         TaskRow.id TaskRow.title TaskRow.description TaskRow.completed TaskRow.created_at
         TaskRow.updated_at TaskRow.is_deleted TaskRow.sync_status].
    rewrite Hlive.
    destruct (orElse_some (Task.title updates) (TaskRow.title row)) as [t ->].
    destruct (orElse_some (Task.description updates)
                (string_or (Some (TaskRow.description row)) "")) as [de ->].
    destruct (orElse_some (Task.completed updates) (TaskRow.completed row)) as [c ->].
    rewrite !string_or_empty. cbn [bool_or_false]. repeat split.
Qed.

Lemma updateTask_then_getTask_example :
  exists updated stored w',
    TaskService.updateTask "t1"
      (Task.make (Some "other") (Some "more groceries") None (Some true)
         (Some (DateStr "1999-01-01T00:00:00.000Z")) None (Some true) None None None)
      Demo.server = (Returned (Some updated), w') /\
    TaskService.getTask "t1" w' = (Returned (Some stored), w') /\
    Task.title stored = Some "more groceries" /\
    Task.completed stored = Some true /\
    Task.id updated = Some "other" /\
    Task.id stored = Some "t1" /\
    Task.is_deleted updated = Some true /\
    Task.is_deleted stored = Some false.
Proof.
  destruct (updateTask_then_getTask "t1"
              (Task.make (Some "other") (Some "more groceries") None (Some true)
                 (Some (DateStr "1999-01-01T00:00:00.000Z")) None (Some true) None None None)
              Demo.server (Demo.task_row "t1" "groceries" 1700000000000) None
              eq_refl eq_refl)
    as (updated & stored & w' & U & G & Ht & _ & Hc & _ & _ & _ & _ & Hi & _ & Hd).
  exists updated, stored, w'. split; [exact U |]. split; [exact G |].
  assert (U' : fst (TaskService.updateTask "t1"
      (Task.make (Some "other") (Some "more groceries") None (Some true)
         (Some (DateStr "1999-01-01T00:00:00.000Z")) None (Some true) None None None)
      Demo.server) = Returned (Some updated)) by (rewrite U; reflexivity).
  cbn in U'. injection U' as <-.
  rewrite Ht, Hc. repeat split; assumption.
Defined.

(* ------------------------------------------------------------------ *)
(** ** The client's request at the server *)

Lemma toISOString_truthy (t : Z) : truthy (toISOString t) = true.
Proof.
  unfold toISOString. destruct (civil_from_days (t / 86400000)) as [[y m] d].
  destruct ((0 <=? y) && (y <=? 9999)); [| destruct (y <? 0)]; reflexivity.
Qed.

Lemma processItems_answers (items : list SyncQueueItem.t) (w : World) :
  exists results w',
    processItems items w = (Returned results, w') /\
    map ProcessedItem.client_id results = map SyncQueueItem.task_id items.
Proof.
  revert w. induction items as [| item items IH]; intros w.
  - eexists _, _. split; reflexivity.
  - destruct (processItem_returns item w) as (r & w1 & E1 & Hid).
    destruct (IH w1) as (rs & w2 & E2 & Hids).
    exists (r :: rs), w2. cbn [processItems]. unfold bind. rewrite E1, E2.
    split; [reflexivity |]. cbn. rewrite Hid, Hids. reflexivity.
Qed.

(** X18.  The request the client builds for a non-empty batch is never
    refused by the validation of the batch route: its items form a
    non-empty array, its timestamp is a non-empty text, and the checksum the
    server computes over the items it received is the one the client sent.
    The route answers 200 with one outcome per item, in order, each under
    the item's task id. *)
Theorem client_request_passes_server_validation
    (batch : list SyncQueueItem.t) (client_timestamp : Z) (path : string) (w : World) :
  batch <> [] ->
  exists results w',
    postBatch path (posted_body (request_of batch client_timestamp)) w
    = (Returned (Response.make 200 (ProcessedBody results)), w') /\
    map ProcessedItem.client_id results = map SyncQueueItem.task_id batch.
Proof.
  intros Hne.
  destruct (processItems_answers (map over_the_wire batch) w) as (results & w' & E & Hids).
  exists results, w'. split.
  - unfold postBatch, posted_body, request_of, try_catch.
    cbn [BatchBody.items BatchBody.client_timestamp BatchBody.checksum
         BatchSyncRequest.items BatchSyncRequest.client_timestamp BatchSyncRequest.checksum].
    destruct batch as [| item rest]; [contradiction |].
    cbn [map]. cbn [falsy]. rewrite toISOString_truthy. cbn [negb].
    unfold checksum_mismatch.
    change (over_the_wire item :: map over_the_wire rest) with (map over_the_wire (item :: rest)).
    rewrite checksum_after_transport, String.eqb_refl. cbn [negb]. rewrite andb_false_r.
    unfold bind. rewrite E. reflexivity.
  - rewrite Hids, map_map. reflexivity.
Qed.

Lemma client_request_passes_server_validation_example :
  exists results w',
    postBatch "/batch"
      (posted_body (request_of (sync_queue Demo.client_db) 1700000000000)) Demo.server
    = (Returned (Response.make 200 (ProcessedBody results)), w') /\
    map ProcessedItem.client_id results = ["t1"; "t1"; "t2"].
Proof.
  apply (client_request_passes_server_validation (sync_queue Demo.client_db) 1700000000000
           "/batch" Demo.server).
  discriminate.
Defined.

(* ------------------------------------------------------------------ *)
(** ** An outcome that names no entry of the batch *)

Lemma for_each_app {S A} (xs ys : list A) (body : A -> Prog S unit) (s : S) :
  for_each (xs ++ ys) body s = (for_each xs body ;;; for_each ys body) s.
Proof.
  revert s. induction xs as [| x xs IH]; intros s.
  - reflexivity.
  - cbn [for_each app]. unfold bind. destruct (body x s) as [[[] | e] s1]; [| reflexivity].
    rewrite IH. reflexivity.
Qed.

Lemma find_none_of {A} (p : A -> bool) (l : list A) :
  (forall x, In x l -> p x = false) -> find p l = None.
Proof.
  induction l as [| y l IH]; intros H; [reflexivity |]. cbn [find].
  rewrite (H y (or_introl eq_refl)). apply IH. intros x Hx. apply H. right. exact Hx.
Qed.

(** X19.  When the response to a batch holds an error outcome whose
    [client_id] is the task id of no entry of the batch, handling that
    outcome throws, the outcomes after it are not looked at, and the handler
    of the batch fails every entry of the batch with the [TypeError]: also
    the entries of the outcomes that had been applied as successes, which
    stay counted as synced. *)
Theorem outcome_for_unknown_task_fails_the_batch
    (batch : list SyncQueueItem.t) (w w1 : World) (r : SyncResult.t)
    (before after : list ProcessedItem.t) (p : ProcessedItem.t) (s2 : World * SyncResult.t) :
  processBatch batch w = (Returned (BatchSyncResponse.make (before ++ p :: after)), w1) ->
  for_each before (applyOutcome batch) (w1, r) = (Returned tt, s2) ->
  ProcessedItem.status p = item_error ->
  (forall item, In item batch -> SyncQueueItem.task_id item <> ProcessedItem.client_id p) ->
  exists s',
    syncBatch batch (w, r) = (Returned tt, s') /\
    s' = fold_left (fail_step no_such_entry_message) batch s2 /\
    SyncResult.failed_items (snd s')
    = SyncResult.failed_items (snd s2) + Z.of_nat (List.length batch) /\
    SyncResult.synced_items (snd s') = SyncResult.synced_items (snd s2).
Proof.
  intros Hpost Hbefore Hstatus Hnone.
  exists (fold_left (fail_step no_such_entry_message) batch s2). split; [| split].
  - unfold syncBatch, try_catch, bind at 1, lift at 1. cbn [fst snd]. rewrite Hpost.
    cbn [BatchSyncResponse.processed_items]. rewrite for_each_app.
    unfold bind at 1. rewrite Hbefore. cbn [for_each]. unfold bind at 1.
    assert (T : applyOutcome batch p s2 = (Thrown no_such_entry_message, s2)).
    { unfold applyOutcome. rewrite Hstatus. rewrite find_none_of; [reflexivity |].
      intros item Hin. apply String.eqb_neq. apply Hnone. exact Hin. }
    rewrite T. apply fail_each_run.
  - reflexivity.
  - destruct (fail_each_counts no_such_entry_message batch s2) as (Hf & Hs & _).
    split; assumption.
Qed.

Lemma outcome_for_unknown_task_example :
  exists s',
    syncBatch (sync_queue Demo.one_entry_db)
      (mkWorld (remote_answering
                  [ProcessedItem.make "t1" (Some "srv-1") success None None;
                   ProcessedItem.make "t9" None item_error None (Some "no such task")])
         Demo.one_entry_db 0,
       initial_result)
    = (Returned tt, s') /\
    SyncResult.failed_items (snd s') = 1 /\
    SyncResult.synced_items (snd s') = 1.
Proof.
  destruct (outcome_for_unknown_task_fails_the_batch
              (sync_queue Demo.one_entry_db)
              (mkWorld (remote_answering
                          [ProcessedItem.make "t1" (Some "srv-1") success None None;
                           ProcessedItem.make "t9" None item_error None (Some "no such task")])
                 Demo.one_entry_db 0)
              _ initial_result
              [ProcessedItem.make "t1" (Some "srv-1") success None None] []
              (ProcessedItem.make "t9" None item_error None (Some "no such task"))
              _ eq_refl eq_refl eq_refl)
    as (s' & E & _ & Hf & Hs).
  - intros item [<- | []]. discriminate.
  - exists s'. split; [exact E |]. split; [exact Hf | exact Hs].
Defined.

(* ------------------------------------------------------------------ *)
(** ** Batch sizes that are no sizes *)

Lemma batch_steps_unbounded (items : list SyncQueueItem.t)
    (batches : list (list SyncQueueItem.t)) (current : list SyncQueueItem.t) :
  fold_left (batch_step None) items (batches, current) = (batches, (current ++ items)%list).
Proof.
  revert current. induction items as [| item items IH]; intros current.
  - cbn. rewrite app_nil_r. reflexivity.
  - cbn [fold_left batch_step batch_is_full]. rewrite IH, <- app_assoc. reflexivity.
Qed.

Lemma batch_steps_nonpositive (n : Z) (items : list SyncQueueItem.t)
    (batches : list (list SyncQueueItem.t)) (current : list SyncQueueItem.t) :
  n <= 0 -> items <> [] ->
  close_batches (fold_left (batch_step (Some n)) items (batches, current))
  = (batches ++ current :: map (fun item => [item]) items)%list.
Proof.
  intros Hn. revert batches current. induction items as [| item items IH];
    intros batches current Hne; [contradiction |].
  cbn [fold_left batch_step batch_is_full].
  assert (F : (n <=? Z.of_nat (List.length current)) = true) by (apply Z.leb_le; lia).
  rewrite F. destruct items as [| item' items].
  - cbn. rewrite <- app_assoc. reflexivity.
  - rewrite IH by discriminate. rewrite <- app_assoc. reflexivity.
Qed.

(** X20.  With a batch size that is zero or negative, [createBatches] puts
    every item in a batch of its own and, when there is an item at all,
    emits an empty batch first (for which the cycle then posts a request
    without items).  With a batch size that is not a number, all items form
    one batch. *)
Theorem createBatches_without_a_proper_size (n : Z) (items : list SyncQueueItem.t) :
  n <= 0 ->
  createBatches (Some n) items
  = match items with
    | [] => []
    | _ :: _ => [] :: map (fun item => [item]) items
    end /\
  createBatches None items
  = match items with
    | [] => []
    | _ :: _ => [items]
    end.
Proof.
  intros Hn. split.
  - destruct items as [| item items]; [reflexivity |].
    pose proof (batch_steps_nonpositive n (item :: items) [] [] Hn ltac:(discriminate)) as H.
    unfold createBatches. unfold close_batches in H.
    destruct (fold_left (batch_step (Some n)) (item :: items) ([], [])) as [batches current].
    exact H.
  - unfold createBatches. rewrite batch_steps_unbounded.
    destruct items; reflexivity.
Qed.

Lemma createBatches_without_a_proper_size_example :
  map (map SyncQueueItem.id) (createBatches (Some 0) (sync_queue Demo.client_db))
  = [[]; ["q1"]; ["q2"]; ["q3"]] /\
  map (map SyncQueueItem.id) (createBatches None (sync_queue Demo.client_db))
  = [["q1"; "q2"; "q3"]].
Proof.
  destruct (createBatches_without_a_proper_size 0 (sync_queue Demo.client_db) ltac:(lia))
    as [-> ->].
  split; reflexivity.
Defined.

(* ------------------------------------------------------------------ *)
(** ** Sorted listings *)

Section OrderBy.

Context {A : Type} (le : A -> A -> bool) (before : A -> A -> Prop).

Lemma insert_by_perm (x : A) (l : list A) : Permutation (insert_by le x l) (x :: l).
Proof.
  induction l as [| y l IH]; cbn [insert_by]; [reflexivity |].
  destruct (le x y); [reflexivity |].
  rewrite IH. apply perm_swap.
Qed.

Lemma order_by_perm (l : list A) : Permutation (order_by le l) l.
Proof.
  induction l as [| x l IH]; [reflexivity |].
  unfold order_by. cbn [fold_right]. fold (order_by le l).
  rewrite insert_by_perm. apply perm_skip. exact IH.
Qed.

Lemma order_by_length (l : list A) : List.length (order_by le l) = List.length l.
Proof. apply Permutation_length, order_by_perm. Qed.

Lemma order_by_in (l : list A) (x : A) : In x (order_by le l) <-> In x l.
Proof.
  split; apply Permutation_in; [| symmetry]; apply order_by_perm.
Qed.

Hypothesis le_before : forall a b, le a b = true <-> before a b.
Hypothesis before_total : forall a b, before a b \/ before b a.
Hypothesis before_trans : forall a b c, before a b -> before b c -> before a c.

Lemma insert_by_sorted (x : A) (l : list A) :
  StronglySorted before l -> StronglySorted before (insert_by le x l).
Proof using le_before before_total before_trans.
  induction 1 as [| y l Hs IH Hy]; cbn [insert_by].
  - repeat constructor.
  - destruct (le x y) eqn:E.
    + apply le_before in E. constructor; [constructor; assumption |].
      constructor; [exact E |].
      eapply Forall_impl; [| exact Hy]. intros z Hz. eapply before_trans; eassumption.
    + assert (Hyx : before y x).
      { destruct (before_total x y) as [H | H]; [| exact H].
        apply le_before in H. congruence. }
      constructor; [exact IH |].
      eapply Permutation_Forall; [symmetry; apply insert_by_perm |].
      constructor; assumption.
Qed.

Lemma order_by_sorted (l : list A) : StronglySorted before (order_by le l).
Proof using le_before before_total before_trans.
  induction l as [| x l IH]; [constructor |].
  unfold order_by. cbn [fold_right]. apply insert_by_sorted. exact IH.
Qed.

End OrderBy.

Lemma live_tasks_sorted (d : Database) :
  StronglySorted newer_text_first (TaskService.sql_select_live_tasks d).
Proof.
  apply order_by_sorted; unfold newer_text_first.
  - intros a b. reflexivity.
  - intros a b. apply iso_leb_total.
  - intros a b c H1 H2. eapply iso_leb_trans; eassumption.
Qed.

Lemma in_live_tasks (d : Database) (r : TaskRow.t) :
  In r (TaskService.sql_select_live_tasks d) <-> In r (tasks d) /\ TaskRow.is_deleted r = false.
Proof.
  unfold TaskService.sql_select_live_tasks. rewrite order_by_in, filter_In, negb_true_iff.
  reflexivity.
Qed.

Lemma getAllTasks_run (w : World) :
  TaskService.getAllTasks w
  = (Returned (map TaskService.mapRowToTask (TaskService.sql_select_live_tasks (db w))), w).
Proof. reflexivity. Qed.

(** X21.  [getAllTasks] returns, without writing anything, the tasks of
    exactly the rows that are not flagged deleted, each once, in descending
    order of the stored text of their creation time; that is the most
    recently created first when the creation times of the task table lie in
    the years 0000 to 9999. *)
Theorem getAllTasks_lists_live_tasks_newest_first (w : World) :
  exists rows,
    TaskService.getAllTasks w = (Returned (map TaskService.mapRowToTask rows), w) /\
    Permutation rows (filter (fun r => negb (TaskRow.is_deleted r)) (tasks (db w))) /\
    (forall r, In r rows <-> In r (tasks (db w)) /\ TaskRow.is_deleted r = false) /\
    StronglySorted newer_text_first rows /\
    ((forall r, In r (tasks (db w)) -> four_digit_year (TaskRow.created_at r)) ->
     StronglySorted newer_first rows).
Proof.
  exists (TaskService.sql_select_live_tasks (db w)).
  split; [apply getAllTasks_run |]. split; [apply order_by_perm |].
  split; [intros r; apply in_live_tasks |]. split; [apply live_tasks_sorted |].
  intros H. eapply StronglySorted_within; [| apply live_tasks_sorted].
  intros a b Ha Hb. apply in_live_tasks in Ha, Hb. unfold newer_text_first, newer_first.
  apply iso_leb_le; apply H; tauto.
Qed.

Lemma getAllTasks_newest_first_example :
  exists rows,
    TaskService.getAllTasks (Demo.client Demo.offline)
    = (Returned (map TaskService.mapRowToTask rows), Demo.client Demo.offline) /\
    StronglySorted newer_first rows.
Proof.
  destruct (getAllTasks_lists_live_tasks_newest_first (Demo.client Demo.offline))
    as (rows & E & _ & _ & _ & S).
  exists rows. split; [exact E |]. apply S.
  intros r [<- | [<- | []]]; unfold four_digit_year, iso_first, iso_last; cbn; lia.
Defined.

Example getAllTasks_after_create_and_delete :
  exists w1 w2 listed,
    snd (TaskService.createTask (Demo.titled "laundry") Demo.server) = w1 /\
    snd (TaskService.deleteTask "t1" w1) = w2 /\
    fst (TaskService.getAllTasks w1) = Returned listed /\
    map Task.title listed = [Some "laundry"; Some "groceries"] /\
    map Task.title (match fst (TaskService.getAllTasks w2) with
                    | Returned l => l
                    | Thrown _ => []
                    end) = [Some "laundry"].
Proof. eexists _, _, _. repeat split. Qed.

Lemma getSyncStatus_run (w : World) :
  getSyncStatus w
  = (Returned (SyncStatusReport.make
                 (sql_count_pending_tasks (db w))
                 (sql_max_last_synced_at (db w))
                 (match axios_get_health (env w) (tick w) with
                  | Returned _ => true
                  | Thrown _ => false
                  end)
                 (sql_count_queue (db w))),
     next_tick w).
Proof.
  unfold getSyncStatus, bind, db_query. rewrite checkConnectivity_run. reflexivity.
Qed.

Lemma max_last_synced_at_spec (l : list TaskRow.t) :
  match fold_right
          (fun r acc =>
             match TaskRow.last_synced_at r, acc with
             | Some t, Some m => Some (if iso_leb t m then m else t)
             | Some t, None => Some t
             | None, _ => acc
             end)
          None l with
  | Some m =>
      (exists r, In r l /\ TaskRow.last_synced_at r = Some m) /\
      (forall r t, In r l -> TaskRow.last_synced_at r = Some t -> iso_leb t m = true)
  | None => forall r, In r l -> TaskRow.last_synced_at r = None
  end.
Proof.
  induction l as [| x l IH]; cbn [fold_right].
  - intros r [].
  - destruct (fold_right _ None l) as [m |] eqn:F; destruct (TaskRow.last_synced_at x) as [t |] eqn:T.
    + destruct IH as [(r & Hin & Hr) Hmax]. destruct (iso_leb t m) eqn:L; split.
      * exists r. split; [right; exact Hin | exact Hr].
      * intros r' t' [<- | Hin'] Hr'.
        -- rewrite T in Hr'. injection Hr' as <-. exact L.
        -- eapply Hmax; eassumption.
      * exists x. split; [left; reflexivity | exact T].
      * assert (M : iso_leb m t = true)
          by (destruct (iso_leb_total t m); congruence).
        intros r' t' [<- | Hin'] Hr'.
        -- rewrite T in Hr'. injection Hr' as <-. apply iso_leb_refl.
        -- eapply iso_leb_trans; [eapply Hmax; eassumption | exact M].
    + destruct IH as [(r & Hin & Hr) Hmax]. split.
      * exists r. split; [right; exact Hin | exact Hr].
      * intros r' t' [<- | Hin'] Hr'; [congruence | eapply Hmax; eassumption].
    + split.
      * exists x. split; [left; reflexivity | exact T].
      * intros r' t' [<- | Hin'] Hr'.
        -- rewrite T in Hr'. injection Hr' as <-. apply iso_leb_refl.
        -- rewrite (IH r' Hin') in Hr'. discriminate.
    + intros r [<- | Hin]; [exact T | apply IH; exact Hin].
Qed.

(** X22.  [getTasksNeedingSync] returns the tasks of exactly the rows
    whose status is [pending] or [error] (deleted or not), in ascending
    order of the stored text of their update time; and [getSyncStatus]
    reports, without writing anything, their number as
    [pending_sync_count], the number of queue rows as [sync_queue_size], the
    outcome of its probe as [is_online], and as [last_sync_timestamp] the
    [last_synced_at] whose stored text is the greatest of the task table, or
    null when no task has one.  [GET /status] answers 200 with that report.
    When the update times of the task table lie in the years 0000 to 9999,
    the listing has the task updated longest ago first, and when the
    [last_synced_at] of the table do, the reported timestamp is the latest
    of them. *)
Theorem getSyncStatus_agrees_with_getTasksNeedingSync (path : string) (w : World) :
  exists rows report w',
    TaskService.getTasksNeedingSync w = (Returned (map TaskService.mapRowToTask rows), w) /\
    (forall r, In r rows <->
               In r (tasks (db w)) /\
               (TaskRow.sync_status r = pending \/ TaskRow.sync_status r = error)) /\
    StronglySorted longest_untouched_text_first rows /\
    ((forall r, In r (tasks (db w)) -> four_digit_year (TaskRow.updated_at r)) ->
     StronglySorted longest_untouched_first rows) /\
    getSyncStatus w = (Returned report, w') /\
    getStatus path w = (Returned (Json 200 report), w') /\
    db w' = db w /\
    SyncStatusReport.pending_sync_count report = Z.of_nat (List.length rows) /\
    SyncStatusReport.sync_queue_size report = Z.of_nat (List.length (sync_queue (db w))) /\
    (SyncStatusReport.is_online report = true <->
     axios_get_health (env w) (tick w) = Returned tt) /\
    match SyncStatusReport.last_sync_timestamp report with
    | Some m =>
        (exists r, In r (tasks (db w)) /\ TaskRow.last_synced_at r = Some m) /\
        (forall r t, In r (tasks (db w)) -> TaskRow.last_synced_at r = Some t ->
                     iso_leb t m = true) /\
        ((forall r t, In r (tasks (db w)) -> TaskRow.last_synced_at r = Some t ->
                      four_digit_year t) ->
         forall r t, In r (tasks (db w)) -> TaskRow.last_synced_at r = Some t -> t <= m)
    | None => forall r, In r (tasks (db w)) -> TaskRow.last_synced_at r = None
    end.
Proof.
  assert (So : StronglySorted longest_untouched_text_first
                 (TaskService.sql_select_tasks_needing_sync (db w))).
  { apply order_by_sorted; unfold longest_untouched_text_first.
    - intros a b. reflexivity.
    - intros a b. apply iso_leb_total.
    - intros a b c H1 H2. eapply iso_leb_trans; eassumption. }
  assert (Hin : forall r, In r (TaskService.sql_select_tasks_needing_sync (db w)) <->
                          In r (tasks (db w)) /\
                          (TaskRow.sync_status r = pending \/ TaskRow.sync_status r = error)).
  { intros r. unfold TaskService.sql_select_tasks_needing_sync.
    rewrite order_by_in, filter_In. unfold TaskService.needs_sync.
    destruct (TaskRow.sync_status r); intuition congruence. }
  exists (TaskService.sql_select_tasks_needing_sync (db w)).
  eexists _, _. split; [reflexivity |]. split; [exact Hin |]. split; [exact So |].
  split; [| split; [apply getSyncStatus_run | split]].
  - intros H. eapply StronglySorted_within; [| exact So].
    intros a b Ha Hb. apply Hin in Ha, Hb.
    unfold longest_untouched_text_first, longest_untouched_first.
    apply iso_leb_le; apply H; tauto.
  - unfold getStatus, try_catch, bind. rewrite getSyncStatus_run. reflexivity.
  - cbn [db next_tick SyncStatusReport.pending_sync_count SyncStatusReport.sync_queue_size
         SyncStatusReport.is_online SyncStatusReport.last_sync_timestamp].
    split; [reflexivity |]. split.
    { unfold sql_count_pending_tasks, TaskService.sql_select_tasks_needing_sync.
      rewrite order_by_length. reflexivity. }
    split; [reflexivity |]. split.
    { destruct (axios_get_health (env w) (tick w)) as [[] | e];
        split; intros H; try reflexivity; discriminate. }
    pose proof (max_last_synced_at_spec (tasks (db w))) as M.
    unfold sql_max_last_synced_at.
    destruct (fold_right _ None (tasks (db w))) as [m |]; [| exact M].
    destruct M as [(r0 & Hr0 & Er0) Hmax]. split; [exists r0; split; assumption |].
    split; [exact Hmax |]. intros Hrange r t Hr Et.
    apply iso_leb_le; [exact (Hrange r t Hr Et) | exact (Hrange r0 m Hr0 Er0) |].
    exact (Hmax r t Hr Et).
Qed.

Lemma getSyncStatus_example :
  exists rows report w',
    TaskService.getTasksNeedingSync (Demo.client Demo.offline)
    = (Returned (map TaskService.mapRowToTask rows), Demo.client Demo.offline) /\
    StronglySorted longest_untouched_first rows /\
    getSyncStatus (Demo.client Demo.offline) = (Returned report, w') /\
    SyncStatusReport.pending_sync_count report = Z.of_nat (List.length rows).
Proof.
  destruct (getSyncStatus_agrees_with_getTasksNeedingSync "/status" (Demo.client Demo.offline))
    as (rows & report & w' & E & _ & _ & S & G & _ & _ & C & _).
  exists rows, report, w'. split; [exact E |]. split; [| split; [exact G | exact C]].
  apply S.
  intros r [<- | [<- | []]]; unfold four_digit_year, iso_first, iso_last; cbn; lia.
Defined.

Example status_of_the_demo_client :
  fst (getSyncStatus (Demo.client Demo.offline))
  = Returned (SyncStatusReport.make 2 None false 3) /\
  fst (getSyncStatus (mkWorld Demo.acknowledging Demo.synced_client_db 0))
  = Returned (SyncStatusReport.make 0 (Some 1704110400000) true 0).
Proof. split; reflexivity. Qed.

(* ------------------------------------------------------------------ *)
(** ** The dead-letter listing *)

Lemma getDeadLetterQueue_run (w : World) :
  getDeadLetterQueue w
  = (Returned (order_by (fun a b => iso_leb (DeadLetter.failed_at b) (DeadLetter.failed_at a))
                 (dead_rows (db w))), w).
Proof.
  unfold getDeadLetterQueue, try_catch, sql_all_dead_letters, dead_rows.
  destruct (dead_letter_queue (db w)); reflexivity.
Qed.

(** X23.  [getDeadLetterQueue] never fails and writes nothing: while the
    dead-letter table does not exist it returns the empty list, afterwards
    the rows of the table, each once, in descending order of the stored text
    of their failure time (the latest failure first when the failure times
    lie in the years 0000 to 9999); and the route answers 200 with these
    rows and their number. *)
Theorem getDeadLetterQueue_lists_the_table (path : string) (w : World) :
  exists rows,
    getDeadLetterQueue w = (Returned rows, w) /\
    (dead_letter_queue (db w) = None -> rows = []) /\
    (forall table, dead_letter_queue (db w) = Some table -> Permutation rows table) /\
    StronglySorted latest_failure_text_first rows /\
    ((forall r, In r (dead_rows (db w)) -> four_digit_year (DeadLetter.failed_at r)) ->
     StronglySorted latest_failure_first rows) /\
    getDeadLetters path w
    = (Returned (Json 200 (Z.of_nat (List.length (dead_rows (db w))), rows)), w).
Proof.
  assert (So : StronglySorted latest_failure_text_first
                 (order_by (fun a b => iso_leb (DeadLetter.failed_at b) (DeadLetter.failed_at a))
                    (dead_rows (db w)))).
  { apply order_by_sorted; unfold latest_failure_text_first.
    - intros a b. reflexivity.
    - intros a b. apply iso_leb_total.
    - intros a b c H1 H2. eapply iso_leb_trans; eassumption. }
  eexists. split; [apply getDeadLetterQueue_run |].
  split; [| split; [| split; [exact So | split]]].
  - intros H. unfold dead_rows. rewrite H. reflexivity.
  - intros table H. unfold dead_rows. rewrite H. apply order_by_perm.
  - intros H. eapply StronglySorted_within; [| exact So].
    intros a b Ha Hb. apply order_by_in in Ha, Hb.
    unfold latest_failure_text_first, latest_failure_first.
    apply iso_leb_le; apply H; assumption.
  - unfold getDeadLetters, try_catch, bind. rewrite getDeadLetterQueue_run.
    unfold ret. rewrite order_by_length. reflexivity.
Qed.

Lemma getDeadLetterQueue_lists_the_table_example :
  getDeadLetterQueue (Demo.client Demo.offline) = (Returned [], Demo.client Demo.offline) /\
  getDeadLetters "/dead-letter-queue" (Demo.client Demo.offline)
  = (Returned (Json 200 (0, [])), Demo.client Demo.offline).
Proof.
  destruct (getDeadLetterQueue_lists_the_table "/dead-letter-queue" (Demo.client Demo.offline))
    as (rows & E & Hn & _ & _ & _ & R).
  rewrite (Hn eq_refl) in E, R. split; [exact E | exact R].
Defined.

(** X24.  The failure that exhausts the attempts of an entry puts a
    record of it in the dead-letter listing: right after, the listing holds
    that record and one row more than the table held before. *)
Theorem terminal_failure_is_listed (item : SyncQueueItem.t) (message : string) (w : World) :
  3 <= SyncQueueItem.retry_count item + 1 ->
  exists w' rows,
    handleSyncError item message w = (Returned tt, w') /\
    getDeadLetterQueue w' = (Returned rows, w') /\
    In (dead_letter_of (uuid_src (env w) (tick w)) message (clock_src (env w) (S (tick w)))
          item) rows /\
    List.length rows = S (List.length (dead_rows (db w))).
Proof.
  intros H. eexists _, _. split; [apply handleSyncError_terminal_run; exact H |].
  split; [apply getDeadLetterQueue_run |].
  assert (D : dead_rows
                (db (mkWorld (env w)
                       (sql_delete_queue_by_id (SyncQueueItem.id item)
                          (sql_set_task_status failed (SyncQueueItem.task_id item)
                             (sql_insert_dead_letter
                                (dead_letter_of (uuid_src (env w) (tick w)) message
                                   (clock_src (env w) (S (tick w))) item)
                                (sql_create_dead_letter_table (db w)))))
                       (S (S (tick w)))))
              = (dead_rows (db w)
                 ++ [dead_letter_of (uuid_src (env w) (tick w)) message
                       (clock_src (env w) (S (tick w))) item])%list).
  { unfold dead_rows. cbn. destruct (dead_letter_queue (db w)); reflexivity. }
  rewrite D. split.
  - apply order_by_in. apply in_or_app. right. left. reflexivity.
  - rewrite order_by_length, length_app. cbn. lia.
Qed.

Lemma terminal_failure_is_listed_example :
  exists w' rows,
    handleSyncError
      (SyncQueueItem.make "q1" "t1" "create" (Demo.titled "groceries") 1700000000000 2 None)
      "gave up" (Demo.client Demo.offline) = (Returned tt, w') /\
    getDeadLetterQueue w' = (Returned rows, w') /\
    map DeadLetter.original_queue_id rows = ["q1"].
Proof.
  destruct (terminal_failure_is_listed
              (SyncQueueItem.make "q1" "t1" "create" (Demo.titled "groceries") 1700000000000 2
                 None)
              "gave up" (Demo.client Demo.offline) ltac:(cbn; lia))
    as (w' & rows & E & G & _).
  exists w', rows. split; [exact E |]. split; [exact G |].
  assert (E' : snd (handleSyncError
      (SyncQueueItem.make "q1" "t1" "create" (Demo.titled "groceries") 1700000000000 2 None)
      "gave up" (Demo.client Demo.offline)) = w') by (rewrite E; reflexivity).
  subst w'. rewrite getDeadLetterQueue_run in G. injection G as <-. reflexivity.
Defined.

(* ------------------------------------------------------------------ *)
(** ** The routes of the client *)

Lemma sync_returns (w : World) : exists result w', sync w = (Returned result, w').
Proof. unfold sync. destruct (try_catch _ _ _) as [o [w' result]]. eauto. Qed.

(** X25.  [POST /sync] always answers, and never with 500.  When its own
    probe fails it answers 503 and the store is as it was.  When the probe
    succeeds it runs a cycle and answers 200 with the cycle's result,
    whatever that result is: also the result of a cycle that, probing again,
    found the server unreachable. *)
Theorem postSync_answers_503_or_the_result (path : string) (w : World) :
  exists reply w',
    postSync path w = (Returned reply, w') /\
    match axios_get_health (env w) (tick w) with
    | Thrown _ =>
        reply = Failure 503 offline_message (clock_src (env w) (S (tick w))) path /\
        db w' = db w
    | Returned _ =>
        exists result, sync (next_tick w) = (Returned result, w') /\ reply = Json 200 result
    end.
Proof.
  unfold postSync, try_catch, bind at 1. rewrite checkConnectivity_run.
  destruct (axios_get_health (env w) (tick w)) as [[] | e]; cbn [negb].
  - destruct (sync_returns (next_tick w)) as (result & w' & E).
    exists (Json 200 result), w'. unfold bind. rewrite E.
    split; [reflexivity |]. exists result. split; reflexivity.
  - eexists _, _. split; [reflexivity |]. split; reflexivity.
Qed.

Example postSync_when_the_server_goes_away :
  exists w',
    postSync "/sync"
      (mkWorld (mkEnv Demo.uuid Demo.clock Demo.parse_iso
                  (fun t => match t with O => Returned tt | S _ => Thrown "ECONNRESET" end)
                  (fun _ _ => Thrown "ECONNRESET") (Some 50))
         Demo.client_db 0)
    = (Returned (Json 200 (SyncResult.make false 0 0
                             [SyncError.make "" "connectivity" "Server unreachable"
                                1700000000002])), w') /\
    db w' = Demo.client_db.
Proof. eexists. split; reflexivity. Qed.

(* ------------------------------------------------------------------ *)
(** ** The task routes *)

Lemma live_tasks_ignore_queue (f : list SyncQueueItem.t -> list SyncQueueItem.t)
    (d : Database) :
  TaskService.sql_select_live_tasks (with_sync_queue f d) = TaskService.sql_select_live_tasks d.
Proof. reflexivity. Qed.

(** X26.  [DELETE /:id] of a live task answers 204; after that the task
    is gone for the routes: [GET /:id] and a second [DELETE /:id] answer 404
    and write nothing, and [GET /] answers 200 with a list that holds no
    task of that id.  (A replayed ['delete'] item of a batch, in contrast,
    is answered with a success: see C8.) *)
Theorem deleteTaskById_then_not_found (path id : string) (w : World) (row : TaskRow.t) :
  TaskService.sql_select_live_task id (db w) = Some row ->
  exists w1 listed,
    TaskRoutes.deleteTaskById path id w = (Returned (Json 204 tt), w1) /\
    TaskRoutes.getTaskById path id w1
    = (Returned (Failure 404 task_not_found (clock_src (env w1) (tick w1)) path),
       next_tick w1) /\
    TaskRoutes.deleteTaskById path id w1
    = (Returned (Failure 404 task_not_found (clock_src (env w1) (tick w1)) path),
       next_tick w1) /\
    TaskRoutes.listTasks path w1 = (Returned (Json 200 listed), w1) /\
    (forall t, In t listed -> Task.id t <> Some id).
Proof.
  intros H.
  destruct (deleteTask_leaves_none id w) as (b & w1 & E & N).
  rewrite (deleteTask_run id w row H) in E. injection E as <- E.
  exists w1, (map TaskService.mapRowToTask (TaskService.sql_select_live_tasks (db w1))).
  split; [| split; [| split; [| split]]].
  - unfold TaskRoutes.deleteTaskById, try_catch, bind.
    rewrite (deleteTask_run id w row H), E. reflexivity.
  - unfold TaskRoutes.getTaskById, try_catch, bind. rewrite getTask_run, N. reflexivity.
  - unfold TaskRoutes.deleteTaskById, try_catch, bind.
    rewrite (deleteTask_missing id w1 N). reflexivity.
  - reflexivity.
  - intros t Hin. apply in_map_iff in Hin. destruct Hin as (r & <- & Hr).
    apply in_live_tasks in Hr. destruct Hr as [Hin Hlive].
    cbn. intros Hid. injection Hid as Hid.
    pose proof (proj1 (select_live_none_iff id (db w1)) N r Hin Hid). congruence.
Qed.

Lemma deleteTaskById_then_not_found_example :
  exists w1,
    TaskRoutes.deleteTaskById "/t1" "t1" Demo.server = (Returned (Json 204 tt), w1) /\
    TaskRoutes.getTaskById "/t1" "t1" w1
    = (Returned (Failure 404 task_not_found 1700000000003 "/t1"), next_tick w1) /\
    TaskRoutes.listTasks "/" w1 = (Returned (Json 200 []), w1).
Proof.
  destruct (deleteTaskById_then_not_found "/t1" "t1" Demo.server
              (Demo.task_row "t1" "groceries" 1700000000000) eq_refl)
    as (w1 & listed & D & G & _ & _ & _).
  exists w1. split; [exact D |].
  assert (E : snd (TaskRoutes.deleteTaskById "/t1" "t1" Demo.server) = w1)
    by (rewrite D; reflexivity).
  subst w1. split; [exact G | reflexivity].
Defined.

(* ------------------------------------------------------------------ *)
(** ** A replayed create *)

Lemma handleBatchCreate_run (item : SyncQueueItem.t) (w : World) (synced_at : option Z) :
  storable_last_synced_at (SyncQueueItem.data item) = Some synced_at ->
  let new_id := uuid_src (env w) (tick w) in
  let created := clock_src (env w) (S (tick w)) in
  let updated := clock_src (env w) (S (S (tick w))) in
  let task := created_task new_id created updated (SyncQueueItem.data item) in
  handleBatchCreate item w
  = (Returned (ProcessedItem.make (SyncQueueItem.task_id item) (Some new_id) success
                 (Some task) None),
     snd (TaskService.createTask (SyncQueueItem.data item) w)).
Proof.
  intros Hs. cbn zeta. unfold handleBatchCreate, try_catch, bind.
  rewrite (createTask_run _ w synced_at Hs). reflexivity.
Qed.

(** X27.  A ['create'] item is not recognised when it arrives again: the
    server handles both arrivals as successes, under two server ids drawn
    one after the other, and its task table ends with two rows of the same
    title, one for each arrival. *)
Theorem handleBatchCreate_twice_creates_two_tasks
    (item : SyncQueueItem.t) (w : World) (synced_at : option Z) :
  storable_last_synced_at (SyncQueueItem.data item) = Some synced_at ->
  exists r1 w1 r2 w2 row1 row2,
    handleBatchCreate item w = (Returned r1, w1) /\
    handleBatchCreate item w1 = (Returned r2, w2) /\
    ProcessedItem.status r1 = success /\
    ProcessedItem.status r2 = success /\
    ProcessedItem.server_id r1 = Some (uuid_src (env w) (tick w)) /\
    ProcessedItem.server_id r2 = Some (uuid_src (env w) (5 + tick w)) /\
    tasks (db w2) = (tasks (db w) ++ [row1; row2])%list /\
    TaskRow.id row1 = uuid_src (env w) (tick w) /\
    TaskRow.id row2 = uuid_src (env w) (5 + tick w) /\
    TaskRow.title row1 = TaskRow.title row2.
Proof.
  intros Hs. eexists _, _, _, _, _, _.
  split; [apply (handleBatchCreate_run item w synced_at Hs) |].
  split; [apply (handleBatchCreate_run item _ synced_at Hs) |].
  rewrite !(createTask_run _ _ synced_at Hs). cbn [snd env db tick].
  do 4 (split; [reflexivity |]).
  split; [cbn; rewrite <- app_assoc; reflexivity |].
  repeat split.
Qed.

Lemma handleBatchCreate_twice_example :
  exists r1 w1 r2 w2,
    handleBatchCreate (Demo.item "q1" "t1" "create" (Demo.titled "groceries"))
      (Demo.fresh Demo.offline) = (Returned r1, w1) /\
    handleBatchCreate (Demo.item "q1" "t1" "create" (Demo.titled "groceries")) w1
    = (Returned r2, w2) /\
    ProcessedItem.server_id r1 = Some "uuid-0" /\
    ProcessedItem.server_id r2 = Some "uuid-5" /\
    map TaskRow.title (tasks (db w2)) = ["groceries"; "groceries"].
Proof.
  destruct (handleBatchCreate_twice_creates_two_tasks
              (Demo.item "q1" "t1" "create" (Demo.titled "groceries"))
              (Demo.fresh Demo.offline) None eq_refl)
    as (r1 & w1 & r2 & w2 & row1 & row2 & E1 & E2 & _ & _ & S1 & S2 & _).
  exists r1, w1, r2, w2. split; [exact E1 |]. split; [exact E2 |].
  split; [exact S1 |]. split; [exact S2 |].
  assert (E1' : snd (handleBatchCreate (Demo.item "q1" "t1" "create" (Demo.titled "groceries"))
                       (Demo.fresh Demo.offline)) = w1) by (rewrite E1; reflexivity).
  subst w1.
  assert (E2' : snd (handleBatchCreate (Demo.item "q1" "t1" "create" (Demo.titled "groceries"))
                       (snd (handleBatchCreate
                               (Demo.item "q1" "t1" "create" (Demo.titled "groceries"))
                               (Demo.fresh Demo.offline)))) = w2) by (rewrite E2; reflexivity).
  subst w2. reflexivity.
Defined.

(* ------------------------------------------------------------------ *)
(** ** The entry an error outcome is charged to *)

Lemma find_first_match {A} (p : A -> bool) (before after : list A) (x : A) :
  (forall y, In y before -> p y = false) -> p x = true ->
  find p (before ++ x :: after) = Some x.
Proof.
  intros Hb Hx. induction before as [| y before IH]; cbn [app find].
  - rewrite Hx. reflexivity.
  - rewrite (Hb y (or_introl eq_refl)). apply IH. intros z Hz. apply Hb. right. exact Hz.
Qed.

(** X28.  An error outcome is charged to the first entry of the batch
    that belongs to the outcome's task, whichever entry the server failed
    on.  While that entry has attempts left, its row gets the retry count
    and the message, every other queue row (also a later entry of the same
    task) is left as it was, the task rows of that task become [error], and
    the cycle counts one failure and lists one error under the task id. *)
Theorem error_outcome_is_charged_to_first_entry_of_task
    (before after : list SyncQueueItem.t) (first : SyncQueueItem.t) (p : ProcessedItem.t)
    (w : World) (r : SyncResult.t) :
  ProcessedItem.status p = item_error ->
  SyncQueueItem.task_id first = ProcessedItem.client_id p ->
  (forall item, In item before -> SyncQueueItem.task_id item <> ProcessedItem.client_id p) ->
  SyncQueueItem.retry_count first + 1 < 3 ->
  let message := string_or (ProcessedItem.error p) "Unknown sync error" in
  exists w' r',
    applyOutcome (before ++ first :: after) p (w, r) = (Returned tt, (w', r')) /\
    sync_queue (db w')
    = map (fun q => if String.eqb (SyncQueueItem.id q) (SyncQueueItem.id first)
                    then SyncQueueItem.make (SyncQueueItem.id q) (SyncQueueItem.task_id q)
                           (SyncQueueItem.operation q) (SyncQueueItem.data q)
                           (SyncQueueItem.created_at q)
                           (SyncQueueItem.retry_count first + 1) (Some message)
                    else q)
        (sync_queue (db w)) /\
    (forall q, In q (sync_queue (db w)) -> SyncQueueItem.id q <> SyncQueueItem.id first ->
               In q (sync_queue (db w'))) /\
    (forall t, In t (tasks (db w')) -> TaskRow.id t = ProcessedItem.client_id p ->
               TaskRow.sync_status t = error) /\
    SyncResult.failed_items r' = SyncResult.failed_items r + 1 /\
    SyncResult.synced_items r' = SyncResult.synced_items r /\
    map SyncError.task_id (SyncResult.errors r')
    = (map SyncError.task_id (SyncResult.errors r) ++ [ProcessedItem.client_id p])%list.
Proof.
  intros Hstatus Hfirst Hbefore Hretry message.
  assert (F : find (fun item => String.eqb (SyncQueueItem.task_id item)
                                  (ProcessedItem.client_id p))
                (before ++ first :: after) = Some first).
  { apply find_first_match.
    - intros y Hy. apply String.eqb_neq. apply Hbefore. exact Hy.
    - apply String.eqb_eq. exact Hfirst. }
  eexists _, _. split.
  { unfold applyOutcome. rewrite Hstatus, F. unfold bind at 1, lift at 1. cbn [fst snd].
    fold unknown_sync_error.
    rewrite (handleSyncError_retry_run first _ w Hretry). reflexivity. }
  cbn [db fst snd]. split; [reflexivity |]. split; [| split; [| split; [| split]]].
  - intros q Hq Hne. cbn. apply in_map_iff. exists q. split; [| exact Hq].
    apply String.eqb_neq in Hne. rewrite Hne. reflexivity.
  - intros t Hin Hid. rewrite <- Hfirst in Hid. cbn [db next_tick] in Hin.
    eapply status_after_set_task_status; eassumption.
  - reflexivity.
  - reflexivity.
  - cbn. rewrite map_app. reflexivity.
Qed.

Lemma error_outcome_is_charged_example :
  exists w' r',
    applyOutcome (sync_queue Demo.client_db)
      (error_outcome (Demo.item "q2" "t1" "update" (Demo.titled "more groceries")) "conflict")
      (Demo.client Demo.acknowledging, initial_result)
    = (Returned tt, (w', r')) /\
    map SyncQueueItem.retry_count (sync_queue (db w')) = [1; 0; 0] /\
    map SyncQueueItem.error_message (sync_queue (db w')) = [Some "conflict"; None; None].
Proof.
  destruct (error_outcome_is_charged_to_first_entry_of_task []
              [Demo.item "q2" "t1" "update" (Demo.titled "more groceries");
               Demo.item "q3" "t2" "create" (Demo.titled "laundry")]
              (Demo.item "q1" "t1" "create" (Demo.titled "groceries"))
              (error_outcome (Demo.item "q2" "t1" "update" (Demo.titled "more groceries"))
                 "conflict")
              (Demo.client Demo.acknowledging) initial_result
              eq_refl eq_refl ltac:(intros item []) ltac:(cbn; lia))
    as (w' & r' & E & Q & _).
  exists w', r'. split; [exact E |]. rewrite Q. split; reflexivity.
Defined.
